(** * Post-processing pipeline of the RKISP1 camera HAL

    A shallow embedding of [PostProcessPipeline.cpp]: the bounded buffer
    pool, the processing unit (node) with its three buffer regimes and its
    worker thread, the graph builder [PostProcessPipeLine::prepare], the
    pipeline at run time, the output buffers handler, the kernel of the
    base class, the digital-zoom format check and the software
    lens-shading configuration; and of the buffers of the frame worker of
    [FrameWorker.cpp].

    Conventions.
    - A [std::shared_ptr<T>] that may be null is an [option].
    - C integers are [Z]; where the source computes in a fixed width the
      wrap-around is written with [wrap32] / [wrap16].
    - Calls that leave the modelled object (listeners, the worker thread,
      the condition variable) are recorded in a trace of events, and
      their return codes are section variables; so is what the
      surroundings do to the unit: whether a listener keeps the pointer
      it is given, and the state in which a waiting thread is woken.
    - PostProcessPipeline.h is not among the sources: the constants it
      declares are parameters, and the enumerations whose values do not
      matter are inductive types.
    - The locks ([mApiLock], [mListenersLock], [mLock]) serialise the
      operations; each operation is modelled as one atomic step. *)

From stdpp Require Import base list gmap strings.
From Stdlib Require Import ZArith Lia QArith.

Local Open Scope Z_scope.

(** ** Status codes (utils/Errors.h of the platform) *)

Definition status_t := Z.
Definition OK : status_t := 0.
Definition NO_ERROR : status_t := 0.
Definition UNKNOWN_ERROR : status_t := -2147483648.
Definition NO_MEMORY : status_t := -12.

Definition wrap32 (x : Z) : Z := x mod 2^32.
Definition wrap16 (x : Z) : Z := x mod 2^16.

(** ** Buffers *)

(** [CameraBuffer]: the accessors the pipeline reads.  [cb_addr] is the
    address of the object, which is what [cambuf.get()] compares and
    what keys the sync table. *)
Record CameraBuffer := mkCameraBuffer {
  cb_addr : Z;
  cb_hasHandle : bool;      (* getBufferHandle() != nullptr *)
  cb_format : Z;            (* format()   *)
  cb_v4l2Fmt : Z;           (* v4l2Fmt()  *)
  cb_width : Z;
  cb_height : Z;
  cb_size : Z;
  cb_locked : bool          (* isLocked() *)
}.

#[global] Instance CameraBuffer_eq_dec : EqDecision CameraBuffer.
Proof. solve_decision. Defined.

(** [PostProcBuffer]: { cambuf, request, index }. *)
Record PostProcBuffer := mkPostProcBuffer {
  index : Z;
  cambuf : option CameraBuffer;
  request : Z
}.

#[global] Instance PostProcBuffer_eq_dec : EqDecision PostProcBuffer.
Proof. solve_decision. Defined.

(** [cambuf.get()] as an address; the null pointer is [None]. *)
Definition cambuf_get (b : PostProcBuffer) : option Z :=
  cb_addr <$> cambuf b.

Record CameraWindow := mkCameraWindow {
  win_left : Z; win_top : Z; win_width : Z; win_height : Z
}.

Record ProcUnitSettings := mkProcUnitSettings {
  cropRegion : CameraWindow;
  settings_request : Z
}.

Record FrameInfo := mkFrameInfo {
  fi_width : Z;
  fi_height : Z
}.

(** ** Bounded buffer pool *)

Module SharedItemPool.

(** Modelled from the spec: the item pool behind [PostProcBufferPools]
    ([SharedItemPool], not among the sources).  The spec gives a pool of
    fixed capacity whose [acquire] returns an available item or none when
    exhausted, and whose released items become acquirable again.  Items
    are handed out oldest first and a released item rejoins at the end;
    the loops of [createBufferPools], [allocCameraBuffer] and [stop], which
    acquire and drop one item per iteration to visit every item, rely on
    that order.  [alloc_ok] is whether the underlying allocation of the
    item array succeeded. *)
Record t := mk {
  slots : list PostProcBuffer;
  available : list nat
}.

Definition blank : PostProcBuffer :=
  {| index := 0; cambuf := None; request := 0 |}.

(** Modelled from the spec: [init(capacity)], which pre-allocates
    [capacity] items, all available, or none when the allocation failed. *)
Definition init (alloc_ok : bool) (capacity : nat) : t :=
  if alloc_ok
  then {| slots := replicate capacity blank; available := seq 0 capacity |}
  else {| slots := []; available := [] |}.

(** Modelled from the spec: [acquireItem], which returns an available
    item or none if the pool is exhausted. *)
Definition acquireItem (p : t) : option nat * t :=
  match available p with
  | [] => (None, p)
  | s :: rest => (Some s, {| slots := slots p; available := rest |})
  end.

(** Modelled from the spec: what the deleter of the handed-out
    [shared_ptr] does when the last holder lets go; the released item
    becomes acquirable again. *)
Definition releaseItem (s : nat) (p : t) : t :=
  {| slots := slots p; available := available p ++ [s] |}.

(** Writing through the acquired pointer. *)
Definition update (s : nat) (f : PostProcBuffer -> PostProcBuffer) (p : t) : t :=
  {| slots := alter f s (slots p); available := available p |}.

End SharedItemPool.

Module PostProcBufferPools.

Record t := mk {
  mBufferPoolSize : nat;
  mPostProcItemsPool : SharedItemPool.t
}.

Definition set_index (i : Z) (b : PostProcBuffer) : PostProcBuffer :=
  {| index := i; cambuf := cambuf b; request := request b |}.

(** The body of [for (i = 0; i < mBufferPoolSize; i++)]: [n] iterations
    remain and the counter is [i].  The local [postprocbuf] is the only
    holder of the item, so the item is released where the iteration
    ends. *)
Fixpoint createBufferPools_loop (n : nat) (i : Z) (p : SharedItemPool.t)
  : status_t * SharedItemPool.t :=
  match n with
  | O => (OK, p)
  | S n' =>
      match SharedItemPool.acquireItem p with
      | (None, p1) => (UNKNOWN_ERROR, p1)
      | (Some s, p1) =>
          let p2 := SharedItemPool.update s (set_index i) p1 in
          createBufferPools_loop n' (i + 1) (SharedItemPool.releaseItem s p2)
      end
  end.

Definition createBufferPools (alloc_ok : bool) (numBufs : nat) : status_t * t :=
  let '(st, p) :=
    createBufferPools_loop numBufs 0 (SharedItemPool.init alloc_ok numBufs) in
  (st, {| mBufferPoolSize := numBufs; mPostProcItemsPool := p |}).

Definition acquireItem (bp : t) : option nat * t :=
  let '(r, p) := SharedItemPool.acquireItem (mPostProcItemsPool bp) in
  (r, {| mBufferPoolSize := mBufferPoolSize bp; mPostProcItemsPool := p |}).

(** [k] successive calls of [acquireItem] by a caller that keeps every
    item it gets. *)
Fixpoint acquire_many (k : nat) (bp : t) : list (option nat) :=
  match k with
  | O => []
  | S k' => let '(r, bp') := acquireItem bp in r :: acquire_many k' bp'
  end.

Definition slot_index (bp : t) (s : nat) : option Z :=
  index <$> (SharedItemPool.slots (mPostProcItemsPool bp) !! s).

End PostProcBufferPools.

(** ** Processing unit (node) *)

Module PostProcessUnit.

(** [enum PostProcBufType]; a value outside the enumeration reaches the
    [default:] branch of the switch in [prepareProcess]. *)
Inductive PostProcBufType :=
| kPostProcBufTypeInt
| kPostProcBufTypePre
| kPostProcBufTypeExt
| kPostProcBufTypeOther (raw : Z).

#[global] Instance PostProcBufType_eq_dec : EqDecision PostProcBufType.
Proof. solve_decision. Defined.

(** A non-null [shared_ptr<PostProcBuffer>] seen from one unit: an item
    the unit took from its own pool with [acquireItem], or a buffer object
    that came in from outside, with [notifyNewFrame] or [addOutputBuffer].
    An item goes back to the pool when its last holder lets go; the unit
    holds it in [mCurPostProcBufOut] only, the other holders being the
    listeners it was passed to. *)
Inductive BufRef :=
| Item (slot : nat)
| Ext (b : PostProcBuffer).

#[global] Instance BufRef_eq_dec : EqDecision BufRef.
Proof. solve_decision. Defined.

(** Calls that leave the unit. *)
Inductive Event :=
| EvNotify (listener : nat) (buf : option BufRef)
           (settings : option ProcUnitSettings) (err : Z)
| EvConditionNotifyAll
| EvThreadRun
| EvThreadRequestExitAndWait.

Record t := mk {
  mInternalBufPool : PostProcBufferPools.t;
  mBufType : PostProcBufType;
  mEnable : bool;
  mSyncProcess : bool;
  mThreadRunning : bool;
  mProcessUnitType : Z;
  mInBufferPool : list (option BufRef * option ProcUnitSettings);
  mOutBufferPool : list (option BufRef);
  mCurPostProcBufIn : option BufRef;
  mCurProcSettings : option ProcUnitSettings;
  mCurPostProcBufOut : option BufRef;
  mListeners : list nat
}.

Definition kDefaultAllocBufferNums : nat := 4.

Definition set_pool (p : PostProcBufferPools.t) (u : t) : t :=
  mk p (mBufType u) (mEnable u) (mSyncProcess u) (mThreadRunning u)
     (mProcessUnitType u) (mInBufferPool u) (mOutBufferPool u)
     (mCurPostProcBufIn u) (mCurProcSettings u) (mCurPostProcBufOut u)
     (mListeners u).

Definition set_enable (b : bool) (u : t) : t :=
  mk (mInternalBufPool u) (mBufType u) b (mSyncProcess u) (mThreadRunning u)
     (mProcessUnitType u) (mInBufferPool u) (mOutBufferPool u)
     (mCurPostProcBufIn u) (mCurProcSettings u) (mCurPostProcBufOut u)
     (mListeners u).

Definition set_sync (b : bool) (u : t) : t :=
  mk (mInternalBufPool u) (mBufType u) (mEnable u) b (mThreadRunning u)
     (mProcessUnitType u) (mInBufferPool u) (mOutBufferPool u)
     (mCurPostProcBufIn u) (mCurProcSettings u) (mCurPostProcBufOut u)
     (mListeners u).

Definition set_running (b : bool) (u : t) : t :=
  mk (mInternalBufPool u) (mBufType u) (mEnable u) (mSyncProcess u) b
     (mProcessUnitType u) (mInBufferPool u) (mOutBufferPool u)
     (mCurPostProcBufIn u) (mCurProcSettings u) (mCurPostProcBufOut u)
     (mListeners u).

Definition set_inq (q : list (option BufRef * option ProcUnitSettings)) (u : t) : t :=
  mk (mInternalBufPool u) (mBufType u) (mEnable u) (mSyncProcess u)
     (mThreadRunning u) (mProcessUnitType u) q (mOutBufferPool u)
     (mCurPostProcBufIn u) (mCurProcSettings u) (mCurPostProcBufOut u)
     (mListeners u).

Definition set_outq (q : list (option BufRef)) (u : t) : t :=
  mk (mInternalBufPool u) (mBufType u) (mEnable u) (mSyncProcess u)
     (mThreadRunning u) (mProcessUnitType u) (mInBufferPool u) q
     (mCurPostProcBufIn u) (mCurProcSettings u) (mCurPostProcBufOut u)
     (mListeners u).

Definition set_cur_in (b : option BufRef) (u : t) : t :=
  mk (mInternalBufPool u) (mBufType u) (mEnable u) (mSyncProcess u)
     (mThreadRunning u) (mProcessUnitType u) (mInBufferPool u)
     (mOutBufferPool u) b (mCurProcSettings u) (mCurPostProcBufOut u)
     (mListeners u).

Definition set_cur_settings (s : option ProcUnitSettings) (u : t) : t :=
  mk (mInternalBufPool u) (mBufType u) (mEnable u) (mSyncProcess u)
     (mThreadRunning u) (mProcessUnitType u) (mInBufferPool u)
     (mOutBufferPool u) (mCurPostProcBufIn u) s (mCurPostProcBufOut u)
     (mListeners u).

Definition set_cur_out (b : option BufRef) (u : t) : t :=
  mk (mInternalBufPool u) (mBufType u) (mEnable u) (mSyncProcess u)
     (mThreadRunning u) (mProcessUnitType u) (mInBufferPool u)
     (mOutBufferPool u) (mCurPostProcBufIn u) (mCurProcSettings u) b
     (mListeners u).

Definition set_listeners (l : list nat) (u : t) : t :=
  mk (mInternalBufPool u) (mBufType u) (mEnable u) (mSyncProcess u)
     (mThreadRunning u) (mProcessUnitType u) (mInBufferPool u)
     (mOutBufferPool u) (mCurPostProcBufIn u) (mCurProcSettings u)
     (mCurPostProcBufOut u) l.

(** The constructor: enabled, asynchronous, not running, empty queues. *)
Definition new (type : Z) (buftype : PostProcBufType) : t :=
  {| mInternalBufPool :=
       PostProcBufferPools.mk 0 (SharedItemPool.mk [] []);
     mBufType := buftype;
     mEnable := true;
     mSyncProcess := false;
     mThreadRunning := false;
     mProcessUnitType := type;
     mInBufferPool := [];
     mOutBufferPool := [];
     mCurPostProcBufIn := None;
     mCurProcSettings := None;
     mCurPostProcBufOut := None;
     mListeners := [] |}.

(** What [prepareProcess] does at its [mCondition.wait]. *)
Inductive Prepared :=
| Waits                    (* suspended on the condition variable *)
| Undefined                (* mInBufferPool[0] of an empty vector *)
| Returns (u : t).

Section Operations.

(** [STATUS_NEED_NEXT_INPUT_FRAME] of PostProcessPipeline.h, which is
    not among the sources: any value. *)
Variable STATUS_NEED_NEXT_INPUT_FRAME : status_t.

(** Return codes of the collaborators. *)
Variable listener_status : nat -> option BufRef -> Z -> status_t.
(** Whether the listener still holds a copy of the pointer when its
    [notifyNewFrame] returns, as a unit does that queued the frame. *)
Variable listener_keeps : nat -> option BufRef -> Z -> bool.
(** The unit as the thread finds it when its [mCondition.wait] is over,
    other threads having run meanwhile; [None] when nothing wakes it. *)
Variable woken : t -> option t.
Variable thread_run_status : status_t.
Variable thread_exit_status : status_t.
(** [MemoryUtils::allocateHandleBuffer] at the [i]-th call of one
    [allocCameraBuffer]. *)
Variable allocateHandleBuffer : FrameInfo -> nat -> option CameraBuffer.
(** The virtual [processFrame] of the unit. *)
Variable processFrame :
  BufRef -> BufRef -> option ProcUnitSettings -> status_t.

Definition attachListener (l : nat) (u : t) : status_t * t :=
  (OK, set_listeners (mListeners u ++ [l]) u).

(** [status |= listener->notifyNewFrame(buf, settings, err)] over the
    listeners in order. *)
Definition notifyListeners (u : t) (buf : option BufRef)
    (settings : option ProcUnitSettings) (err : Z)
  : status_t * list Event :=
  (fold_left (fun st l => Z.lor st (listener_status l buf err))
             (mListeners u) OK,
   map (fun l => EvNotify l buf settings err) (mListeners u)).

Definition set_cambuf (c : option CameraBuffer) (b : PostProcBuffer)
  : PostProcBuffer :=
  {| index := index b; cambuf := c; request := request b |}.

Definition set_locked (l : bool) (c : CameraBuffer) : CameraBuffer :=
  mkCameraBuffer (cb_addr c) (cb_hasHandle c) (cb_format c) (cb_v4l2Fmt c)
                 (cb_width c) (cb_height c) (cb_size c) l.

(** [allocCameraBuffer]: [n] iterations remain, [i] is the counter. *)
Fixpoint allocCameraBuffer_loop (outfmt : FrameInfo) (n i : nat)
    (p : SharedItemPool.t) : status_t * SharedItemPool.t :=
  match n with
  | O => (OK, p)
  | S n' =>
      match SharedItemPool.acquireItem p with
      | (None, p1) => (UNKNOWN_ERROR, p1)
      | (Some s, p1) =>
          match allocateHandleBuffer outfmt i with
          | None =>
              (NO_MEMORY,
               SharedItemPool.releaseItem s
                 (SharedItemPool.update s (set_cambuf None) p1))
          | Some c =>
              (* lock() when not locked: locked afterwards either way *)
              let c' := set_locked true c in
              allocCameraBuffer_loop outfmt n' (S i)
                (SharedItemPool.releaseItem s
                   (SharedItemPool.update s (set_cambuf (Some c')) p1))
          end
      end
  end.

Definition allocCameraBuffer (outfmt : FrameInfo) (u : t) : status_t * t :=
  let bp := mInternalBufPool u in
  let '(st, p) :=
    allocCameraBuffer_loop outfmt kDefaultAllocBufferNums 0
      (PostProcBufferPools.mPostProcItemsPool bp) in
  (st, set_pool (PostProcBufferPools.mk
                   (PostProcBufferPools.mBufferPoolSize bp) p) u).

Definition prepare (alloc_ok : bool) (outfmt : FrameInfo) (u : t)
  : status_t * t :=
  match mBufType u with
  | kPostProcBufTypeInt =>
      let '(st, bp) :=
        PostProcBufferPools.createBufferPools alloc_ok
          kDefaultAllocBufferNums in
      let u1 := set_pool bp u in
      if negb (st =? 0) then (st, u1)
      else
        let '(st2, u2) := allocCameraBuffer outfmt u1 in
        if negb (st2 =? 0) then (st2, u2) else (OK, u2)
  | _ => (OK, u)
  end.

Definition start (u : t) : status_t * t * list Event :=
  if mThreadRunning u then (OK, u, [])
  else (thread_run_status, set_running true u, [EvThreadRun]).

Definition unlock_item (b : PostProcBuffer) : PostProcBuffer :=
  match cambuf b with
  | None => b
  | Some c => if cb_locked c then set_cambuf (Some (set_locked false c)) b
              else b
  end.

(** The loop of [stop] over the internal pool. *)
Fixpoint stop_loop (n : nat) (p : SharedItemPool.t) : SharedItemPool.t :=
  match n with
  | O => p
  | S n' =>
      match SharedItemPool.acquireItem p with
      | (None, p1) => stop_loop n' p1
      | (Some s, p1) =>
          stop_loop n'
            (SharedItemPool.releaseItem s
               (SharedItemPool.update s unlock_item p1))
      end
  end.

Definition stop (u : t) : status_t * t * list Event :=
  if negb (mThreadRunning u) then (OK, u, [])
  else
    let u1 := set_running false u in
    let bp := mInternalBufPool u1 in
    let p := stop_loop kDefaultAllocBufferNums
               (PostProcBufferPools.mPostProcItemsPool bp) in
    (thread_exit_status,
     set_pool (PostProcBufferPools.mk
                 (PostProcBufferPools.mBufferPoolSize bp) p) u1,
     [EvConditionNotifyAll; EvThreadRequestExitAndWait]).

(** The last holder of the item [s] lets go: the deleter of the pointer
    puts the item back into the pool. *)
Definition item_returned (s : nat) (u : t) : t :=
  let bp := mInternalBufPool u in
  set_pool (PostProcBufferPools.mk
              (PostProcBufferPools.mBufferPoolSize bp)
              (SharedItemPool.releaseItem s
                 (PostProcBufferPools.mPostProcItemsPool bp))) u.

(** [mCurPostProcBufOut.reset()].  When the slot holds an item of the
    pool and nobody else has a copy of the pointer, the unit is the last
    holder and the item goes back to the pool; with [copies] elsewhere it
    goes back when the last of them is gone. *)
Definition reset_cur_out (copies : bool) (u : t) : t :=
  let u1 := set_cur_out None u in
  match mCurPostProcBufOut u with
  | Some (Item s) => if copies then u1 else item_returned s u1
  | _ => u1
  end.

(** The destination slot was shown to nobody when [flush] resets it:
    [relayToNextProcUnit] resets it right after the listeners saw it. *)
Definition flush (u : t) : status_t * t * list Event :=
  let evs :=
    concat (map (fun b => snd (notifyListeners u b None (-1)))
                (mOutBufferPool u)) in
  (OK,
   reset_cur_out false
     (set_cur_settings None
        (set_cur_in None (set_outq [] (set_inq [] u)))),
   evs).

Definition addOutputBuffer (buf : option BufRef) (u : t) : status_t * t :=
  match mBufType u with
  | kPostProcBufTypeExt => (OK, set_outq (mOutBufferPool u ++ [buf]) u)
  | _ => (UNKNOWN_ERROR, u)
  end.

Definition setEnable (enable : bool) (u : t) : status_t * t :=
  (OK, set_enable enable u).

Definition setProcessSync (sync : bool) (u : t) : status_t * t :=
  (OK, set_sync sync u).

(** The switch of [prepareProcess] on the buffer type, entered with
    [mCurPostProcBufOut] null. *)
Definition obtain_output (u : t) : t :=
  match mBufType u with
  | kPostProcBufTypeInt =>
      let '(r, bp) := PostProcBufferPools.acquireItem (mInternalBufPool u) in
      set_cur_out (Item <$> r) (set_pool bp u)
  | kPostProcBufTypeExt =>
      match mOutBufferPool u with
      | [] => u
      | b :: rest => set_outq rest (set_cur_out b u)
      end
  | kPostProcBufTypePre => set_cur_out (mCurPostProcBufIn u) u
  | kPostProcBufTypeOther _ => u
  end.

(** [prepareProcess] from the point where the wait, if any, is over. *)
Definition prepareProcess_resume (u : t) : Prepared :=
  if negb (mThreadRunning u) then Returns u
  else
    match mInBufferPool u with
    | [] => Undefined
    | (b, s) :: rest =>
        let u1 := set_inq rest (set_cur_settings s (set_cur_in b u)) in
        match mCurPostProcBufOut u1 with
        | Some _ => Returns u1
        | None =>
            let u2 := obtain_output u1 in
            match mCurPostProcBufOut u2 with
            | Some _ => Returns u2
            | None =>
                (* drop the input frame *)
                Returns (set_cur_settings None (set_cur_in None u2))
            end
        end
    end.

Definition prepareProcess (u : t) : Prepared :=
  if mThreadRunning u && bool_decide (mInBufferPool u = [])
  then Waits
  else prepareProcess_resume u.

(** [prepareProcess] with what follows its wait: the test of the queue
    is an [if], so that the woken thread goes on without a second look at
    the queue. *)
Definition prepareProcess_woken (u : t) : Prepared :=
  match prepareProcess u with
  | Waits =>
      match woken u with
      | Some u' => prepareProcess_resume u'
      | None => Waits
      end
  | r => r
  end.

(** Whether a listener kept a copy of the pointer it was notified of. *)
Definition kept_by_listeners (u : t) (buf : option BufRef) (err : Z) : bool :=
  existsb (fun l => listener_keeps l buf err) (mListeners u).

Definition relayToNextProcUnit (err : Z) (u : t)
  : status_t * t * list Event :=
  if err =? STATUS_NEED_NEXT_INPUT_FRAME
  then (err, set_cur_settings None (set_cur_in None u), [])
  else
    let out := mCurPostProcBufOut u in
    let '(status, evs) := notifyListeners u out (mCurProcSettings u) err in
    (status,
     set_cur_settings None
       (set_cur_in None (reset_cur_out (kept_by_listeners u out err) u)),
     evs).

(** How one run of [doProcess] ends.  [ProcWaits]: the thread is in the
    wait of [prepareProcess] and nothing wakes it. *)
Inductive Processed :=
| ProcWaits (u : t) (evs : list Event)
| ProcUndefined
| ProcOutOfFuel
| ProcReturns (status : status_t) (u : t) (evs : list Event).

(** The body of the do-while of [doProcess], after [prepareProcess]
    returned [u]: [status] is the local variable of [doProcess]. *)
Definition process_prepared (status : status_t) (u : t)
  : status_t * t * list Event :=
  match mCurPostProcBufIn u, mCurPostProcBufOut u with
  | Some bin, Some bout =>
      relayToNextProcUnit (processFrame bin bout (mCurProcSettings u)) u
  | _, _ => (status, u, [])
  end.

Fixpoint doProcess_loop (fuel : nat) (status : status_t) (u : t)
    (acc : list Event) : Processed :=
  match fuel with
  | O => ProcOutOfFuel
  | S fuel' =>
      match prepareProcess_woken u with
      | Waits => ProcWaits u acc
      | Undefined => ProcUndefined
      | Returns u1 =>
          let '(status', u2, evs) := process_prepared status u1 in
          if mThreadRunning u2 && (status' =? STATUS_NEED_NEXT_INPUT_FRAME)
          then doProcess_loop fuel' status' u2 (acc ++ evs)
          else ProcReturns status' u2 (acc ++ evs)
      end
  end.

Definition doProcess (fuel : nat) (u : t) : Processed :=
  doProcess_loop fuel OK u [].

Definition notifyNewFrame (fuel : nat) (buf : option BufRef)
    (settings : option ProcUnitSettings) (err : Z) (u : t) : Processed :=
  if negb (mThreadRunning u) then ProcReturns OK u []
  else if negb (mEnable u) then
    let '(st, evs) := notifyListeners u buf settings err in
    ProcReturns st u evs
  else if mSyncProcess u then doProcess fuel u
  else
    ProcReturns OK (set_inq (mInBufferPool u ++ [(buf, settings)]) u)
                [EvConditionNotifyAll].

End Operations.

(** The destination slot of [u'] is what the regime of [u] gives for the
    dequeued input [b]: the next item of the pool, the oldest buffer of
    the output queue (which is popped), or the input itself. *)
Definition obtained_by_regime (u u' : t) (b : option BufRef) : Prop :=
  match mBufType u with
  | kPostProcBufTypeInt =>
      let '(r, bp) := PostProcBufferPools.acquireItem (mInternalBufPool u) in
      mCurPostProcBufOut u' = Item <$> r ∧ mInternalBufPool u' = bp ∧
      mOutBufferPool u' = mOutBufferPool u
  | kPostProcBufTypeExt =>
      match mOutBufferPool u with
      | [] => mCurPostProcBufOut u' = None ∧ mOutBufferPool u' = []
      | d :: q => mCurPostProcBufOut u' = d ∧ mOutBufferPool u' = q
      end ∧ mInternalBufPool u' = mInternalBufPool u
  | kPostProcBufTypePre =>
      mCurPostProcBufOut u' = b ∧ mInternalBufPool u' = mInternalBufPool u ∧
      mOutBufferPool u' = mOutBufferPool u
  | kPostProcBufTypeOther _ =>
      mCurPostProcBufOut u' = None ∧
      mInternalBufPool u' = mInternalBufPool u ∧
      mOutBufferPool u' = mOutBufferPool u
  end.

End PostProcessUnit.

(** ** Output buffers handler *)

Module OutputBuffersHandler.

(** [struct syncItem].  The counter is declared in the header that is
    not among the sources; it is set to [out.size()] and only
    decremented, so no wrap-around is written. *)
Record syncItem := mkSyncItem {
  sync_buffers : list PostProcBuffer;
  sync_nums : Z
}.

(** One call of the frame listener of the pipeline. *)
Definition Delivery : Type := PostProcBuffer * option ProcUnitSettings * Z.

(** [mMayNeedSyncStreamsOutput] is the flag of the pipeline, which the
    handler reads through [mPipeline].  [items] holds the [syncItem]
    objects: the entries of
    [mCamBufToSyncItemMap] made for one frame share one object, so the
    table maps the address of a camera buffer (null is [None]) to the
    position of the shared object. *)
Record t := mk {
  mMayNeedSyncStreamsOutput : bool;
  items : list syncItem;
  mCamBufToSyncItemMap : gmap (option Z) nat
}.

Section Handler.

Variable frame_listener_status : PostProcBuffer -> Z -> status_t.

Definition deliver_all (bufs : list PostProcBuffer)
    (settings : option ProcUnitSettings) (err : Z)
  : status_t * list Delivery :=
  (fold_left (fun st b => Z.lor st (frame_listener_status b err)) bufs OK,
   map (fun b => (b, settings, err)) bufs).

(** [None] is a table entry without its object, which
    [addSyncBuffersIfNeed] never produces. *)
Definition notifyNewFrame (buf : PostProcBuffer)
    (settings : option ProcUnitSettings) (err : Z) (h : t)
  : option (status_t * t * list Delivery) :=
  if negb (mMayNeedSyncStreamsOutput h)
  then Some (frame_listener_status buf err, h, [(buf, settings, err)])
  else
    match mCamBufToSyncItemMap h !! cambuf_get buf with
    | Some r =>
        match items h !! r with
        | None => None
        | Some it =>
            let n := sync_nums it - 1 in
            let its := <[r := mkSyncItem (sync_buffers it) n]> (items h) in
            let '(status, dl) :=
              if n =? 0 then deliver_all (sync_buffers it) settings err
              else (OK, []) in
            Some (status,
                  mk (mMayNeedSyncStreamsOutput h) its
                     (delete (cambuf_get buf) (mCamBufToSyncItemMap h)),
                  dl)
        end
    | None =>
        Some (frame_listener_status buf err, h, [(buf, settings, err)])
    end.

(** [None] is the dereference of a null [in->cambuf]. *)
Definition addSyncBuffersIfNeed (inb : PostProcBuffer)
    (out : list PostProcBuffer) (h : t) : option t :=
  if mMayNeedSyncStreamsOutput h && (1 <? Z.of_nat (length out))
  then
    match cambuf inb with
    | None => None
    | Some c =>
        if cb_hasHandle c then
          let need_sync :=
            existsb (fun o => bool_decide (cambuf_get o = Some (cb_addr c)))
                    out in
          if need_sync then
            let r := length (items h) in
            Some (mk (mMayNeedSyncStreamsOutput h)
                     (items h ++ [mkSyncItem out (Z.of_nat (length out))])
                     (fold_left (fun m o => <[cambuf_get o := r]> m) out
                                (mCamBufToSyncItemMap h)))
          else Some h
        else Some h
    end
  else Some h.

(** Terminal deliveries one after the other; the listener calls are
    collected in order. *)
Fixpoint deliveries (ds : list Delivery) (h : t)
  : option (t * list Delivery) :=
  match ds with
  | [] => Some (h, [])
  | (b, s, e) :: ds' =>
      match notifyNewFrame b s e h with
      | None => None
      | Some (_, h1, dl) =>
          match deliveries ds' h1 with
          | None => None
          | Some (h2, dl') => Some (h2, dl ++ dl')
          end
      end
  end.

End Handler.

(** The buffer of a delivery and the key it is looked up with. *)
Definition delivered (d : Delivery) : PostProcBuffer := d.1.1.
Definition key (d : Delivery) : option Z := cambuf_get (delivered d).

End OutputBuffersHandler.

(** ** Digital zoom kernel *)

Module PostProcessUnitDigitalZoom.

(** Pixel formats of the platform headers. *)
Definition HAL_PIXEL_FORMAT_YCrCb_NV12 : Z := 0x15.
Definition HAL_PIXEL_FORMAT_YCrCb_420_SP : Z := 0x11.
Definition V4L2_PIX_FMT_NV12 : Z := 0x3231564E.
Definition V4L2_PIX_FMT_NV21 : Z := 0x3132564E.

Definition checkFmt (inb out : option CameraBuffer) : bool :=
  match inb, out with
  | Some i, Some o =>
      let hal_fmt_supported :=
        (negb (cb_format i =? HAL_PIXEL_FORMAT_YCrCb_NV12) &&
         negb (cb_format i =? HAL_PIXEL_FORMAT_YCrCb_420_SP)) ||
        (negb (cb_format o =? HAL_PIXEL_FORMAT_YCrCb_NV12) &&
         negb (cb_format o =? HAL_PIXEL_FORMAT_YCrCb_420_SP)) in
      let v4l_fmt_supported :=
        (negb (cb_v4l2Fmt i =? V4L2_PIX_FMT_NV12) &&
         negb (cb_v4l2Fmt i =? V4L2_PIX_FMT_NV21)) ||
        (negb (cb_v4l2Fmt o =? V4L2_PIX_FMT_NV12) &&
         negb (cb_v4l2Fmt o =? V4L2_PIX_FMT_NV21)) in
      hal_fmt_supported || v4l_fmt_supported
  | _, _ => false
  end.

(** Which way [processFrame] went. *)
Inductive Path :=
| CopiedWhole            (* crop region is the active pixel array *)
| UnsupportedFormat
| ScaledByRga
| ScaledByArm.

Definition same_window (a b : CameraWindow) : bool :=
  (win_width a =? win_width b) && (win_height a =? win_height b) &&
  (win_left a =? win_left b) && (win_top a =? win_top b).

(** The control flow of [processFrame]; the pixels and the mapped crop
    window (computed in [float]) are left out.  [rga_failed] is the
    result of [RgaCropScale::CropScaleNV12Or21]; [None] is the
    dereference of a null [cambuf] in the copy branch. *)
Definition processFrame (mApa : CameraWindow) (rga_failed : bool)
    (inb out : PostProcBuffer) (settings : ProcUnitSettings)
  : option (status_t * Path) :=
  if same_window (cropRegion settings) mApa then
    match cambuf inb, cambuf out with
    | Some _, Some _ => Some (OK, CopiedWhole)
    | _, _ => None
    end
  else if negb (checkFmt (cambuf inb) (cambuf out))
  then Some (UNKNOWN_ERROR, UnsupportedFormat)
  else if rga_failed then Some (OK, ScaledByArm)
  else Some (OK, ScaledByRga).

(** The formats the kernel is meant for. *)
Definition hal_nv12_or_nv21 (c : CameraBuffer) : Prop :=
  cb_format c = HAL_PIXEL_FORMAT_YCrCb_NV12 ∨
  cb_format c = HAL_PIXEL_FORMAT_YCrCb_420_SP.

Definition v4l2_nv12_or_nv21 (c : CameraBuffer) : Prop :=
  cb_v4l2Fmt c = V4L2_PIX_FMT_NV12 ∨ cb_v4l2Fmt c = V4L2_PIX_FMT_NV21.

End PostProcessUnitDigitalZoom.

(** ** Software lens-shading: block sizes of [lsc_config] *)

Module PostProcessUnitSwLsc.

(** A C [for (init; cond; step) body] after [init]: [cond] is an
    expression with a side effect, [step] and [body] change the state.
    The result carries the number of times the body ran; [None] is fuel
    exhausted. *)
Fixpoint c_for {St : Type} (cond : St -> bool * St) (step body : St -> St)
    (fuel : nat) (s : St) (runs : nat) : option (St * nat) :=
  match fuel with
  | O => None
  | S fuel' =>
      let '(c, s1) := cond s in
      if c then c_for cond step body fuel' (step (body s1)) (S runs)
      else Some (s1, runs)
  end.

Record Locals := mkLocals {
  i : Z;
  sizex : list Z;
  sizey : list Z
}.

(** [a[k] = v] on a list; an index outside the array is undefined in C
    and leaves the list as it is here. *)
Definition store (a : list Z) (k v : Z) : list Z :=
  if (0 <=? k) then <[Z.to_nat k := v]> a else a.

(** [i++] used as the loop condition: the value is the old [i]. *)
Definition cond_i_postinc (l : Locals) : bool * Locals :=
  (negb (i l =? 0), mkLocals (i l + 1) (sizex l) (sizey l)).

(** [i < 8] used as the loop step: a comparison, no effect. *)
Definition step_i_lt_8 (l : Locals) : Locals := l.

Definition body (width height : Z) (l : Locals) : Locals :=
  mkLocals (i l)
    (store (sizex l) (i l) (wrap16 (Z.quot (Z.quot width 2) 8)))
    (store (sizey l) (i l) (wrap16 (Z.quot (Z.quot height 2) 8))).

(** [a[7] += v] on [uint16_t]. *)
Definition add_at_7 (a : list Z) (v : Z) : list Z :=
  match a !! 7%nat with
  | Some x => <[7%nat := wrap16 (x + v)]> a
  | None => a
  end.

(** The part of [lsc_config] that fills [para->sizex] and [para->sizey]
    from [para->width] and [para->height]; the second component is the
    number of times the body of the first loop ran. *)
Definition lsc_config_sizes (fuel : nat) (width height : Z)
  : option (list Z * list Z * nat) :=
  let l0 := mkLocals 0 [120; 120; 120; 120; 120; 120; 120; 120]
                       [67; 68; 67; 68; 67; 68; 67; 68] in
  match c_for cond_i_postinc step_i_lt_8 (body width height) fuel l0 0 with
  | None => None
  | Some (l1, runs) =>
      let sx := add_at_7 (sizex l1) (Z.quot (Z.rem width 16) 2) in
      let sy := add_at_7 (sizey l1) (Z.quot (Z.rem height 16) 2) in
      Some (take 8 sx, take 8 sy, runs)
  end.

End PostProcessUnitSwLsc.

(** ** Pipeline graph builder *)

Module PostProcessPipeLine.

Import PostProcessUnit.

(** [enum PostProcessType] and the macros next to it, declared in
    PostProcessPipeline.h, which is not among the sources: the builder
    is written over any values of them. *)
Record PostProcessTypes := mkPostProcessTypes {
  kPostProcessTypeDigitalZoom : Z;
  kPostprocessTypeUvnr : Z;
  kPostProcessTypeCropRotationScale : Z;
  kPostProcessTypeSwLsc : Z;
  kPostProcessTypeFaceDetection : Z;
  kPostProcessTypeScaleAndRotation : Z;
  kPostProcessTypeJpegEncoder : Z;
  kPostProcessTypeCopy : Z;
  MAX_COMMON_PROC_UNIT_SHIFT : Z;
  MAX_STREAM_PROC_UNIT_SHIFT : Z;
  NO_NEED_INTERNAL_BUFFER_PROCESS_TYPES : Z
}.

(** Constants of the platform headers (graphics.h, camera3.h). *)
Definition HAL_PIXEL_FORMAT_BLOB : Z := 0x21.
Definition CAMERA3_STREAM_OUTPUT : Z := 0.
Definition CAMERA3_STREAM_ROTATION_90 : Z := 1.
Definition CAMERA3_STREAM_ROTATION_270 : Z := 3.

(** [camera3_stream_t], with the address that identifies the stream. *)
Record camera3_stream_t := mkStream {
  stream_addr : Z;
  stream_type : Z;
  width : Z;
  height : Z;
  format : Z;
  crop_rotate_scale_degrees : Z
}.

Inductive ProcessUnitLevel := kFirstLevel | kMiddleLevel | kLastLevel.

(** Who listens to a unit: another unit or [mOutputBuffersHandler]. *)
Inductive Listener := ToUnit (id : nat) | ToHandler.

#[global] Instance Listener_eq_dec : EqDecision Listener.
Proof. solve_decision. Defined.

(** The class [make_shared] instantiates. *)
Inductive UnitClass :=
| ClsPostProcessUnit
| ClsDigitalZoom
| ClsSwLsc
| ClsJpegEnc.

(** A unit as the builder sees it: the constructor arguments, the
    listeners attached so far, and the format [prepare] was called
    with. *)
Record UnitNode := mkUnitNode {
  mName : string;
  unit_class : UnitClass;
  unit_type : Z;
  unit_buftype : PostProcBufType;
  unit_listeners : list Listener;
  unit_prepared : option FrameInfo
}.

(** The pipeline.  [units] are the objects created so far, a unit being
    identified by its position; the vectors of the source hold such
    identifiers. *)
Record t := mk {
  mMayNeedSyncStreamsOutput : bool;
  units : list UnitNode;
  mPostProcUnits : list nat;
  mFirstLevel : list nat;
  mMiddleLevel : list nat;
  mLastLevel : list nat;
  mStreamToProcUnitMap : gmap Z nat
}.

Definition mPostProcUnitArray (p : t) (level : ProcessUnitLevel) : list nat :=
  match level with
  | kFirstLevel => mFirstLevel p
  | kMiddleLevel => mMiddleLevel p
  | kLastLevel => mLastLevel p
  end.

Definition empty : t :=
  mk false [] [] [] [] [] ∅.

Definition set_units (us : list UnitNode) (p : t) : t :=
  mk (mMayNeedSyncStreamsOutput p) us (mPostProcUnits p) (mFirstLevel p)
     (mMiddleLevel p) (mLastLevel p) (mStreamToProcUnitMap p).

Definition set_map (m : gmap Z nat) (p : t) : t :=
  mk (mMayNeedSyncStreamsOutput p) (units p) (mPostProcUnits p)
     (mFirstLevel p) (mMiddleLevel p) (mLastLevel p) m.

Definition set_may_sync (b : bool) (p : t) : t :=
  mk b (units p) (mPostProcUnits p) (mFirstLevel p) (mMiddleLevel p)
     (mLastLevel p) (mStreamToProcUnitMap p).

(** [mPostProcUnits.push_back(from); mPostProcUnitArray[level].push_back(from)] *)
Definition push_unit (level : ProcessUnitLevel) (id : nat) (p : t) : t :=
  match level with
  | kFirstLevel =>
      mk (mMayNeedSyncStreamsOutput p) (units p) (mPostProcUnits p ++ [id])
         (mFirstLevel p ++ [id]) (mMiddleLevel p) (mLastLevel p)
         (mStreamToProcUnitMap p)
  | kMiddleLevel =>
      mk (mMayNeedSyncStreamsOutput p) (units p) (mPostProcUnits p ++ [id])
         (mFirstLevel p) (mMiddleLevel p ++ [id]) (mLastLevel p)
         (mStreamToProcUnitMap p)
  | kLastLevel =>
      mk (mMayNeedSyncStreamsOutput p) (units p) (mPostProcUnits p ++ [id])
         (mFirstLevel p) (mMiddleLevel p) (mLastLevel p ++ [id])
         (mStreamToProcUnitMap p)
  end.

Definition add_listener (l : Listener) (n : UnitNode) : UnitNode :=
  mkUnitNode (mName n) (unit_class n) (unit_type n) (unit_buftype n)
             (unit_listeners n ++ [l]) (unit_prepared n).

Definition mark_prepared (f : FrameInfo) (n : UnitNode) : UnitNode :=
  mkUnitNode (mName n) (unit_class n) (unit_type n) (unit_buftype n)
             (unit_listeners n) (Some f).

(** [unit->attachListener(l)] *)
Definition attachListener (id : nat) (l : Listener) (p : t) : t :=
  set_units (alter (add_listener l) id (units p)) p.

(** [unit->prepare(in)]; the status is not looked at by the builder. *)
Definition prepare_unit (id : nat) (f : FrameInfo) (p : t) : t :=
  set_units (alter (mark_prepared f) id (units p)) p.

Definition is_level (a b : ProcessUnitLevel) : bool :=
  match a, b with
  | kFirstLevel, kFirstLevel | kMiddleLevel, kMiddleLevel
  | kLastLevel, kLastLevel => true
  | _, _ => false
  end.

Definition linkPostProcUnit (from to : option nat) (level : ProcessUnitLevel)
    (p : t) : status_t * t :=
  match from with
  | None => (UNKNOWN_ERROR, p)
  | Some f =>
      match to with
      | Some t' => (OK, push_unit level f (attachListener t' (ToUnit f) p))
      | None =>
          if negb (is_level level kFirstLevel) then (UNKNOWN_ERROR, p)
          else (OK, push_unit level f p)
      end
  end.

Section Builder.

Variable T : PostProcessTypes.
(** Whether the build defines [CHROME_BOARD]. *)
Variable CHROME_BOARD : bool.

Definition getRotationDegrees (stream : camera3_stream_t) : Z :=
  if negb (stream_type stream =? CAMERA3_STREAM_OUTPUT) then 0
  else if CHROME_BOARD then
    if crop_rotate_scale_degrees stream =? CAMERA3_STREAM_ROTATION_90
    then 90
    else if crop_rotate_scale_degrees stream =? CAMERA3_STREAM_ROTATION_270
    then 270
    else 0
  else 0.

(** [x & ~NO_NEED_INTERNAL_BUFFER_PROCESS_TYPES] *)
Definition exclude_no_buffer (x : Z) : Z :=
  Z.land x (Z.lnot (NO_NEED_INTERNAL_BUFFER_PROCESS_TYPES T)).

(** The first loop of [prepare] for one stream: the type of the stream
    and the bits it adds to the common type.  [max_digital_zoom] is the
    value read from the static metadata (1.0 when the entry is
    missing); a finite [float] is a rational. *)
Definition analyze_stream (inf : FrameInfo) (max_digital_zoom : Q)
    (common : Z) (stream : camera3_stream_t) : Z * Z :=
  let t0 := 0 in
  let t1 := if format stream =? HAL_PIXEL_FORMAT_BLOB
            then Z.lor t0 (kPostProcessTypeJpegEncoder T) else t0 in
  let t2 := if negb (wrap32 (width stream * height stream) =?
                     wrap32 (fi_width inf * fi_height inf))
            then Z.lor t1 (kPostProcessTypeScaleAndRotation T) else t1 in
  let c1 := if negb (getRotationDegrees stream =? 0)
            then Z.lor common (kPostProcessTypeCropRotationScale T)
            else common in
  let c2 := if negb (Qle_bool max_digital_zoom 1)
            then Z.lor c1 (kPostProcessTypeDigitalZoom T) else c1 in
  (t2, c2).

Fixpoint analyze_streams (inf : FrameInfo) (max_digital_zoom : Q)
    (streams : list camera3_stream_t) (common : Z)
  : list (camera3_stream_t * Z) * Z :=
  match streams with
  | [] => ([], common)
  | s :: rest =>
      let '(ty, common') := analyze_stream inf max_digital_zoom common s in
      let '(l, common'') :=
        analyze_streams inf max_digital_zoom rest common' in
      ((s, ty) :: l, common'')
  end.

(** "add extra memcpy unit for streams if necessary" *)
Definition add_copy (common_types_exclude_buffer_needed : Z)
    (spp : list (camera3_stream_t * Z)) : list (camera3_stream_t * Z) :=
  if (1 <? Z.of_nat (length spp)) ||
     ((Z.of_nat (length spp) =? 1) &&
      (common_types_exclude_buffer_needed =? 0))
  then map (fun '(s, ty) =>
              if ty =? 0 then (s, Z.lor ty (kPostProcessTypeCopy T))
              else (s, ty)) spp
  else spp.

(** [for (i = from; i < to; i++) { test_type = 1 << i; if (mask &
    test_type) last = test_type; }] *)
Definition last_set_bit (from to mask : Z) : Z :=
  fold_left (fun last i =>
               let test_type := Z.shiftl 1 i in
               if negb (Z.land mask test_type =? 0) then test_type
               else last)
            (seqZ from (to - from)) 0.

(** The locals of [prepare] that live across the linking loops. *)
Record Linking := mkLinking {
  pipe : t;
  procunit_from : option nat;
  procunit_to : option nat;
  procunit_main_last : option nat
}.

(** [make_shared<...>(name, type, buf_type)]: the new object gets the
    next identifier. *)
Definition make_unit (name : string) (cls : UnitClass) (type : Z)
    (buf_type : PostProcBufType) (p : t) : nat * t :=
  (length (units p),
   set_units (units p ++ [mkUnitNode name cls type buf_type [] None]) p).

(** The switch over the common types: the name, class and buffer type
    of the unit to create, or [None] in the [default:] branch. *)
Definition common_unit_of (test_type : Z) (buf_type : PostProcBufType)
  : option (string * UnitClass * PostProcBufType) :=
  if test_type =? kPostProcessTypeDigitalZoom T
  then Some ("digitalzoom"%string, ClsDigitalZoom, buf_type)
  else if test_type =? kPostprocessTypeUvnr T
  then Some ("uvnr"%string, ClsPostProcessUnit, buf_type)
  else if test_type =? kPostProcessTypeCropRotationScale T
  then Some ("CropRotationScale"%string, ClsPostProcessUnit, buf_type)
  else if test_type =? kPostProcessTypeSwLsc T
  then Some ("SoftwareLsc"%string, ClsSwLsc, buf_type)
  else if test_type =? kPostProcessTypeFaceDetection T
  then Some ("faceDetection"%string, ClsPostProcessUnit, kPostProcBufTypePre)
  else None.

Definition stream_unit_of (test_type : Z) (buf_type : PostProcBufType)
  : option (string * UnitClass * PostProcBufType) :=
  if test_type =? kPostProcessTypeScaleAndRotation T
  then Some ("ScaleRotation"%string, ClsPostProcessUnit, buf_type)
  else if test_type =? kPostProcessTypeJpegEncoder T
  then Some ("JpegEnc"%string, ClsJpegEnc, buf_type)
  else if test_type =? kPostProcessTypeCopy T
  then Some ("MemCopy"%string, ClsPostProcessUnit, buf_type)
  else None.

(** The linking shared by both loops once a unit was created:
    [linkPostProcUnit] at the first or middle level, then, for the last
    unit, once more at the last level, the handler as listener and the
    entry of the stream map. *)
Definition link_created (inf : FrameInfo) (stream : camera3_stream_t)
    (last_proc_unit : bool) (id : nat) (to : option nat) (p : t) : t :=
  let p1 :=
    snd (linkPostProcUnit (Some id) to
           (match to with Some _ => kMiddleLevel | None => kFirstLevel end)
           p) in
  let p2 :=
    if last_proc_unit then
      let p' := snd (linkPostProcUnit (Some id) to kLastLevel p1) in
      let p'' := attachListener id ToHandler p' in
      set_map (<[stream_addr stream := id]> (mStreamToProcUnitMap p'')) p''
    else p1 in
  prepare_unit id inf p2.

(** One iteration of "link common proc units". *)
Definition link_common_step (inf : FrameInfo) (stream0 : camera3_stream_t)
    (common_process_type last_level_proc_common : Z)
    (st : Linking) (i : Z) : Linking :=
  let test_type := Z.shiftl 1 i in
  let last_proc_unit := last_level_proc_common =? test_type in
  let buf_type := if last_proc_unit then kPostProcBufTypeExt
                  else kPostProcBufTypeInt in
  if Z.land common_process_type test_type =? 0 then st
  else
    match common_unit_of test_type buf_type with
    | None => st
    | Some (name, cls, bt) =>
        let '(id, p0) := make_unit name cls common_process_type bt (pipe st) in
        let '(to, main_last) :=
          if test_type =? kPostProcessTypeFaceDetection T
          then (None, procunit_main_last st)
          else (procunit_main_last st, Some id) in
        mkLinking (link_created inf stream0 last_proc_unit id to p0)
                  (Some id) to main_last
    end.

(** The locals of one round of "link the stream process units". *)
Record StreamLinking := mkStreamLinking {
  linking : Linking;
  procunit_stream_last : option nat
}.

Definition link_stream_step (inf : FrameInfo) (stream : camera3_stream_t)
    (stream_proc_type last_level_proc_stream : Z)
    (sl : StreamLinking) (i : Z) : StreamLinking :=
  let st := linking sl in
  let test_type := Z.shiftl 1 i in
  let last_proc_unit := last_level_proc_stream =? test_type in
  let buf_type := if last_proc_unit then kPostProcBufTypeExt
                  else kPostProcBufTypeInt in
  if Z.land stream_proc_type test_type =? 0 then sl
  else
    match stream_unit_of test_type buf_type with
    | None => sl
    | Some (name, cls, bt) =>
        let '(id, p0) := make_unit name cls stream_proc_type bt (pipe st) in
        let to := procunit_stream_last sl in
        mkStreamLinking
          (mkLinking (link_created inf stream last_proc_unit id to p0)
                     (Some id) to (procunit_main_last st))
          (Some id)
    end.

Definition stream_range : list Z :=
  seqZ (MAX_COMMON_PROC_UNIT_SHIFT T + 1)
       (MAX_STREAM_PROC_UNIT_SHIFT T - (MAX_COMMON_PROC_UNIT_SHIFT T + 1)).

Definition common_range : list Z :=
  seqZ 1 (MAX_COMMON_PROC_UNIT_SHIFT T - 1).

(** One round of the loop over [streams_post_proc]. *)
Definition link_stream (inf : FrameInfo) (st : Linking)
    (proc_map : camera3_stream_t * Z) : Linking :=
  let '(stream, stream_proc_type) := proc_map in
  let last_level_proc_stream :=
    last_set_bit (MAX_COMMON_PROC_UNIT_SHIFT T + 1)
                 (MAX_STREAM_PROC_UNIT_SHIFT T) stream_proc_type in
  linking
    (fold_left
       (link_stream_step inf stream stream_proc_type last_level_proc_stream)
       stream_range
       (mkStreamLinking st (procunit_main_last st))).

(** [prepare]: the status, [needpostprocess] and the pipeline.  [None]
    is [streams_post_proc[0]] of an empty vector. *)
Definition prepare (inf : FrameInfo) (max_digital_zoom : Q)
    (streams : list camera3_stream_t) (p : t)
  : option (status_t * bool * t) :=
  match streams with
  | [] => None
  | stream0 :: _ =>
      let p0 := set_may_sync (1 <? Z.of_nat (length streams)) p in
      let '(spp0, common_process_type) :=
        analyze_streams inf max_digital_zoom streams 0 in
      let common_types_exclude_buffer_needed :=
        exclude_no_buffer common_process_type in
      let streams_post_proc :=
        add_copy common_types_exclude_buffer_needed spp0 in
      let stream_proc_types :=
        fold_left (fun acc sm => Z.lor acc (snd sm)) streams_post_proc 0 in
      let last_level_proc_common :=
        if stream_proc_types =? 0
        then last_set_bit 1 (MAX_COMMON_PROC_UNIT_SHIFT T)
                          common_process_type
        else 0 in
      let first_type :=
        match streams_post_proc with
        | (_, ty) :: _ => ty
        | [] => 0
        end in
      let needpostprocess :=
        negb (common_types_exclude_buffer_needed =? 0) ||
        negb (exclude_no_buffer first_type =? 0) in
      let st1 :=
        fold_left
          (link_common_step inf stream0 common_process_type
                            last_level_proc_common)
          common_range
          (mkLinking p0 None None None) in
      let st2 := fold_left (link_stream inf) streams_post_proc st1 in
      Some (OK, needpostprocess, pipe st2)
  end.

End Builder.


Definition count_in (l : list nat) (id : nat) : nat :=
  length (filter (fun x => x = id) l).

(** Where the created units sit in the level buckets: once in the first
    or the middle bucket, and at most once more in the last bucket,
    together with the middle one.  Identifiers not yet given out are in
    no bucket. *)
Definition levels_ok (p : t) : Prop :=
  ∀ id : nat,
    ((id < length (units p))%nat ->
     (count_in (mFirstLevel p) id + count_in (mMiddleLevel p) id = 1)%nat ∧
     (count_in (mLastLevel p) id = 0%nat ∨
      (count_in (mLastLevel p) id = 1%nat ∧
       count_in (mMiddleLevel p) id = 1%nat))) ∧
    ((length (units p) <= id)%nat ->
     count_in (mFirstLevel p) id = 0%nat ∧
     count_in (mMiddleLevel p) id = 0%nat ∧
     count_in (mLastLevel p) id = 0%nat).

(** Operations that touch neither the buckets nor the number of units. *)
Definition same_levels (p q : t) : Prop :=
  length (units p) = length (units q) ∧
  mFirstLevel p = mFirstLevel q ∧ mMiddleLevel p = mMiddleLevel q ∧
  mLastLevel p = mLastLevel q.

(** Some unit of [us] has [l] among its listeners. *)
Definition listens_in (us : list UnitNode) (l : Listener) : Prop :=
  ∃ k n, us !! k = Some n ∧ l ∈ unit_listeners n.

(** The handler of the output buffers listens to the unit [id] of [us]. *)
Definition handled_in (us : list UnitNode) (id : nat) : Prop :=
  ∃ n, us !! id = Some n ∧ ToHandler ∈ unit_listeners n.

(** The unit [id] has a predecessor: it listens to a unit of the
    pipeline, which [linkPostProcUnit] got as [to]. *)
Definition has_predecessor (p : t) (id : nat) : Prop :=
  listens_in (units p) (ToUnit id).

(** The unit [id] is the last of its chain: [prepare] found
    [last_proc_unit] true for it and made the handler of the output
    buffers its listener. *)
Definition last_of_chain (p : t) (id : nat) : Prop :=
  handled_in (units p) id.


(** The unit a local of [prepare] points to, if any, is one of [p]. *)
Definition known (o : option nat) (p : t) : Prop :=
  ∀ k, o = Some k -> (k < length (units p))%nat.



End PostProcessPipeLine.

(** ** Worker thread of a unit *)

Module WorkerThread.

Import PostProcessUnit.

(** How the thread loop ends. *)
Inductive Looped :=
| LoopWaits (u : t) (evs : list Event)      (* suspended in [prepareProcess] *)
| LoopUndefined
| LoopOutOfFuel
| LoopExits (u : t) (evs : list Event).     (* [mThreadRunning] is false *)

Section Loop.

Variable STATUS_NEED_NEXT_INPUT_FRAME : status_t.
Variable listener_status : nat -> option BufRef -> Z -> status_t.
Variable listener_keeps : nat -> option BufRef -> Z -> bool.
Variable woken : t -> option t.
Variable processFrame : BufRef -> BufRef -> option ProcUnitSettings -> status_t.

(** [messageThreadLoop]: [while (mThreadRunning) doProcess();].  The fuel
    bounds the rounds of this loop and of the loops of [doProcess]. *)
Fixpoint messageThreadLoop (fuel : nat) (u : t) (acc : list Event) : Looped :=
  match fuel with
  | O => LoopOutOfFuel
  | S fuel' =>
      if negb (mThreadRunning u) then LoopExits u acc
      else
        match doProcess STATUS_NEED_NEXT_INPUT_FRAME listener_status
                        listener_keeps woken processFrame fuel' u with
        | ProcWaits u' evs => LoopWaits u' (acc ++ evs)
        | ProcUndefined => LoopUndefined
        | ProcOutOfFuel => LoopOutOfFuel
        | ProcReturns _ u' evs => messageThreadLoop fuel' u' (acc ++ evs)
        end
  end.

(** Frames pushed into the unit one after the other with
    [notifyNewFrame(buf, settings, 0)]; [None] when a push does not
    return.  The calls made by the pushes are collected in order. *)
Fixpoint push_frames (fuel : nat) (fs : list (BufRef * option ProcUnitSettings))
    (u : t) : option (t * list Event) :=
  match fs with
  | [] => Some (u, [])
  | (b, s) :: fs' =>
      match notifyNewFrame STATUS_NEED_NEXT_INPUT_FRAME listener_status
                           listener_keeps woken processFrame fuel (Some b) s
                           0 u with
      | ProcReturns _ u' evs =>
          match push_frames fuel fs' u' with
          | Some (u'', evs') => Some (u'', evs ++ evs')
          | None => None
          end
      | _ => None
      end
  end.

End Loop.

(** The notifications of one result: every listener once, in the order of
    attachment. *)
Definition notifications (listeners : list nat) (buf : option BufRef)
    (settings : option ProcUnitSettings) (err : Z) : list Event :=
  map (fun l => EvNotify l buf settings err) listeners.

(** The destinations a unit has at hand: the queued external buffers of an
    External unit, the available items of the pool of an Internal unit, in
    the order in which the unit takes them. *)
Definition has_supply (u : t) (ds : list BufRef) : Prop :=
  (mBufType u = kPostProcBufTypeExt ∧ mOutBufferPool u = map Some ds) ∨
  (mBufType u = kPostProcBufTypeInt ∧
   ds = map Item (SharedItemPool.available
                    (PostProcBufferPools.mPostProcItemsPool (mInternalBufPool u)))).

(** A running unit with an empty destination slot, the inputs [q] queued
    (none of them null) and the destinations [ds] at hand. *)
Definition ready (u : t) (listeners : list nat)
    (q : list (BufRef * option ProcUnitSettings)) (ds : list BufRef) : Prop :=
  mThreadRunning u = true ∧
  mListeners u = listeners ∧
  mCurPostProcBufOut u = None ∧
  mInBufferPool u = map (fun '(b, s) => (Some b, s)) q ∧
  has_supply u ds.

(** What the listeners hear when the inputs [q] meet the destinations
    [ds] one to one: one round of notifications per pair, in order. *)
Fixpoint paired_notifications
    (processFrame : BufRef -> BufRef -> option ProcUnitSettings -> status_t)
    (listeners : list nat) (q : list (BufRef * option ProcUnitSettings))
    (ds : list BufRef) : list Event :=
  match q, ds with
  | (b, s) :: q', d :: ds' =>
      notifications listeners (Some d) s (processFrame b d s) ++
      paired_notifications processFrame listeners q' ds'
  | _, _ => []
  end.

(** Whether a destination is at hand again once its result was passed on:
    an item of the pool of an Internal unit is, unless a listener kept
    it. *)
Definition recycled (listener_keeps : nat -> option BufRef -> Z -> bool)
    (regime : PostProcBufType) (listeners : list nat) (d : BufRef) (err : Z)
  : bool :=
  bool_decide (regime = kPostProcBufTypeInt) &&
  negb (existsb (fun l => listener_keeps l (Some d) err) listeners).

(** The inputs [q] served from the supply [ds]: every input takes the
    oldest destination, which rejoins the supply at the end when it is
    [recycle]d; an input that finds the supply empty is dropped.  The
    result is what the listeners hear and the supply that is left. *)
Fixpoint served
    (processFrame : BufRef -> BufRef -> option ProcUnitSettings -> status_t)
    (recycle : BufRef -> Z -> bool) (listeners : list nat)
    (q : list (BufRef * option ProcUnitSettings)) (ds : list BufRef)
  : list Event * list BufRef :=
  match q with
  | [] => ([], ds)
  | (b, s) :: q' =>
      match ds with
      | [] => served processFrame recycle listeners q' []
      | d :: ds' =>
          let err := processFrame b d s in
          let r := served processFrame recycle listeners q'
                          (if recycle d err then ds' ++ [d] else ds') in
          (notifications listeners (Some d) s err ++ r.1, r.2)
      end
  end.

(** What the listeners hear when the [i]-th input meets the destination
    [i mod length ds]: the supply goes round. *)
Definition round_robin_notifications
    (processFrame : BufRef -> BufRef -> option ProcUnitSettings -> status_t)
    (listeners : list nat) (q : list (BufRef * option ProcUnitSettings))
    (ds : list BufRef) : list Event :=
  concat
    (imap (fun i '(b, s) =>
             match ds !! (i mod length ds)%nat with
             | Some d => notifications listeners (Some d) s (processFrame b d s)
             | None => []
             end) q).

(** A pool slot whose camera buffer, if any, is not locked. *)
Definition unlocked (b : PostProcBuffer) : Prop :=
  match cambuf b with
  | Some c => cb_locked c = false
  | None => True
  end.

(** The pool item [i] once [allocCameraBuffer] gave it the buffer [c]. *)
Definition filled (i : nat) (c : CameraBuffer) : PostProcBuffer :=
  mkPostProcBuffer (Z.of_nat i) (Some (set_locked true c)) 0.

(** The same item after [stop] unlocked its buffer. *)
Definition released (i : nat) (c : CameraBuffer) : PostProcBuffer :=
  mkPostProcBuffer (Z.of_nat i) (Some (set_locked false c)) 0.

End WorkerThread.

(** ** What the builder keeps true *)

Module BuilderSpec.

Import PostProcessUnit PostProcessPipeLine.

(** What later linking may do to a unit: add listeners behind the ones it
    has, and record the format it was prepared with. *)
Definition grown (inf : FrameInfo) (n n' : UnitNode) : Prop :=
  mName n' = mName n ∧ unit_class n' = unit_class n ∧
  unit_type n' = unit_type n ∧ unit_buftype n' = unit_buftype n ∧
  (∃ more, unit_listeners n' = unit_listeners n ++ more) ∧
  (unit_prepared n' = unit_prepared n ∨ unit_prepared n' = Some inf).

(** The analysis at the head of [prepare]: the streams with their types,
    the copy type added where [prepare] adds it, and the common type. *)
Definition analysis (T : PostProcessTypes) (CHROME_BOARD : bool)
    (inf : FrameInfo) (max_digital_zoom : Q) (streams : list camera3_stream_t)
  : list (camera3_stream_t * Z) * Z :=
  let '(spp0, common_process_type) :=
    analyze_streams T CHROME_BOARD inf max_digital_zoom streams 0 in
  (add_copy T (exclude_no_buffer T common_process_type) spp0,
   common_process_type).

(** What the loops of [prepare] take for granted about the stream types
    of the header: each is one bit, at a position the loop over the stream
    types visits. *)
Definition stream_bit (T : PostProcessTypes) (ty : Z) : Prop :=
  ∃ i, MAX_COMMON_PROC_UNIT_SHIFT T < i < MAX_STREAM_PROC_UNIT_SHIFT T ∧
       ty = Z.shiftl 1 i.

Definition stream_types_ok (T : PostProcessTypes) : Prop :=
  0 <= MAX_COMMON_PROC_UNIT_SHIFT T ∧
  stream_bit T (kPostProcessTypeScaleAndRotation T) ∧
  stream_bit T (kPostProcessTypeJpegEncoder T) ∧
  stream_bit T (kPostProcessTypeCopy T).

(** The stream has a terminal unit: the stream map sends it to a unit of
    External regime that the output buffers handler listens to. *)
Definition has_terminal (p : t) (stream : camera3_stream_t) : Prop :=
  ∃ id n,
    mStreamToProcUnitMap p !! stream_addr stream = Some id ∧
    units p !! id = Some n ∧
    unit_buftype n = kPostProcBufTypeExt ∧
    ToHandler ∈ unit_listeners n.


(** Every entry of the stream map points to a unit of External regime
    that the handler listens to. *)
Definition terminals_ok (p : t) : Prop :=
  ∀ key id,
    mStreamToProcUnitMap p !! key = Some id ->
    ∃ n, units p !! id = Some n ∧
         unit_buftype n = kPostProcBufTypeExt ∧
         ToHandler ∈ unit_listeners n.

(** No stream loses its entry of the stream map from [p] to [p']. *)
Definition keeps_streams (p p' : t) : Prop :=
  ∀ k, is_Some (mStreamToProcUnitMap p !! k) ->
       is_Some (mStreamToProcUnitMap p' !! k).

(** A type the switch over the stream types has a case for. *)
Definition recognized (T : PostProcessTypes) (x : Z) : Prop :=
  x = kPostProcessTypeScaleAndRotation T ∨
  x = kPostProcessTypeJpegEncoder T ∨
  x = kPostProcessTypeCopy T.

(** A stream type that leads to a terminal unit: some bit the loop visits
    is set, and every such bit that is set has a case in the switch. *)
Definition good_type (T : PostProcessTypes) (ty : Z) : Prop :=
  (∃ i, i ∈ stream_range T ∧ Z.land ty (Z.shiftl 1 i) ≠ 0) ∧
  (∀ i, i ∈ stream_range T -> Z.land ty (Z.shiftl 1 i) ≠ 0 ->
        recognized T (Z.shiftl 1 i)).

(** How often the unit [id] was attached as a listener of the unit at
    position [pred] of [us]. *)
Definition attached_in (us : list UnitNode) (pred id : nat) : nat :=
  match us !! pred with
  | Some n => length (filter (fun l => l = ToUnit id) (unit_listeners n))
  | None => 0%nat
  end.

Definition attached_to (p : t) (pred id : nat) : nat :=
  attached_in (units p) pred id.

(** A unit is a listener of one unit at most, and it is attached there
    once for each entry it has in the middle and last buckets. *)
Definition attachments_ok (p : t) : Prop :=
  ∀ id, ∃ pred,
    (∀ q, q ≠ pred -> attached_to p q id = 0%nat) ∧
    attached_to p pred id =
      (count_in (mMiddleLevel p) id + count_in (mLastLevel p) id)%nat.

(** Where a unit with this name, class and type comes from: the loop
    over the common types, which gives it the whole common type, or the
    loop over the types of a stream, which gives it the whole type of the
    stream. *)
Definition made (T : PostProcessTypes) (common : Z)
    (spp : list (camera3_stream_t * Z)) (name : string) (cls : UnitClass)
    (ty : Z) : Prop :=
  (∃ i bt bt',
     Z.land common (Z.shiftl 1 i) ≠ 0 ∧
     common_unit_of T (Z.shiftl 1 i) bt = Some (name, cls, bt') ∧
     ty = common) ∨
  (∃ s i bt bt',
     (s, ty) ∈ spp ∧ Z.land ty (Z.shiftl 1 i) ≠ 0 ∧
     stream_unit_of T (Z.shiftl 1 i) bt = Some (name, cls, bt')).

Definition units_made (T : PostProcessTypes) (common : Z)
    (spp : list (camera3_stream_t * Z)) (p : t) : Prop :=
  ∀ k n, units p !! k = Some n ->
         made T common spp (mName n) (unit_class n) (unit_type n).

(** What the linking loops keep true of their state. *)
Definition linked_ok (st : Linking) : Prop :=
  levels_ok (pipe st) ∧ attachments_ok (pipe st) ∧
  known (procunit_main_last st) (pipe st).

Definition stream_linked_ok (sl : StreamLinking) : Prop :=
  linked_ok (linking sl) ∧
  known (procunit_stream_last sl) (pipe (linking sl)).

End BuilderSpec.


(** ** The pipeline at run time *)

Module PipelineRuntime.

Import PostProcessUnit.

(** The pipeline once built: the level arrays, the owned units and the
    stream map as [prepare] left them, and the unit objects, a unit being
    identified by its position as in the builder. *)
Record t := mk {
  layout : PostProcessPipeLine.t;
  objects : list PostProcessUnit.t
}.

(** The units in the order of [for (i = 0; i < kMaxLevel; i++) for (auto
    iter : mPostProcUnitArray[i])]. *)
Definition all_levels (p : PostProcessPipeLine.t) : list nat :=
  PostProcessPipeLine.mFirstLevel p ++ PostProcessPipeLine.mMiddleLevel p ++
  PostProcessPipeLine.mLastLevel p.

(** The identifiers of [ids] in the order in which a walk over [ids]
    meets them for the first time. *)
Fixpoint first_entries (ids : list nat) : list nat :=
  match ids with
  | [] => []
  | id :: rest => id :: filter (fun x => x ≠ id) (first_entries rest)
  end.

(** The units a walk over [ids] acts on when it acts on the units of [us]
    that are [active], and a unit is not active once it was acted on: the
    active units, each at its first entry. *)
Definition acted_on (active : PostProcessUnit.t -> bool)
    (us : list PostProcessUnit.t) (ids : list nat) : list nat :=
  first_entries
    (filter (fun id => from_option active false (us !! id) = true) ids).

(** [status |= iter->op()] for one entry of a level array; the calls the
    unit makes are recorded with the unit.  The arrays hold pointers to
    units the pipeline owns: an identifier without an object does not
    occur, and is passed over. *)
Definition visit
    (op : nat -> PostProcessUnit.t ->
          status_t * PostProcessUnit.t * list Event)
    (acc : status_t * list PostProcessUnit.t * list (nat * Event))
    (id : nat) : status_t * list PostProcessUnit.t * list (nat * Event) :=
  match acc.1.2 !! id with
  | Some u =>
      let '(st, u', e) := op id u in
      (Z.lor acc.1.1 st, <[id := u']> acc.1.2, acc.2 ++ map (pair id) e)
  | None => acc
  end.

Section Runtime.

(** What [run] and [requestExitAndWait] of the thread of a unit return. *)
Variable thread_run_status : nat -> status_t.
Variable thread_exit_status : nat -> status_t.
(** [cambuf->getOwner()->getStream()], null as [None]; the camera stream
    class is not among the sources. *)
Variable stream_of : CameraBuffer -> option Z.

Definition start (r : t) : status_t * t * list (nat * Event) :=
  let res :=
    fold_left (visit (fun id => PostProcessUnit.start (thread_run_status id)))
              (all_levels (layout r)) (OK, objects r, []) in
  (res.1.1, mk (layout r) res.1.2, res.2).

Definition stop (r : t) : status_t * t * list (nat * Event) :=
  let res :=
    fold_left (visit (fun id => PostProcessUnit.stop (thread_exit_status id)))
              (all_levels (layout r)) (OK, objects r, []) in
  (res.1.1, mk (layout r) res.1.2, res.2).

(** The stream a buffer of a request belongs to. *)
Definition stream_of_buffer (b : PostProcBuffer) : option Z :=
  match cambuf b with
  | Some c => stream_of c
  | None => None
  end.

(** One round of the loop of [addOutputBuffer].  [None]:
    [mStreamToProcUnitMap[stream]] has no entry, so that [operator[]]
    makes one with a null pointer, which is dereferenced. *)
Definition addOutputBuffer_step (m : gmap Z nat)
    (acc : option (status_t * list PostProcessUnit.t)) (b : PostProcBuffer)
  : option (status_t * list PostProcessUnit.t) :=
  match acc with
  | None => None
  | Some (status, us) =>
      match stream_of_buffer b with
      | None => Some (status, us)
      | Some stream =>
          match m !! stream with
          | None => None
          | Some id =>
              match us !! id with
              | None => None
              | Some u =>
                  let '(st, u') :=
                    PostProcessUnit.addOutputBuffer (Some (Ext b)) u in
                  Some (Z.lor status st, <[id := u']> us)
              end
          end
      end
  end.

Definition addOutputBuffer (out : list PostProcBuffer) (r : t)
  : option (status_t * t) :=
  match fold_left
          (addOutputBuffer_step
             (PostProcessPipeLine.mStreamToProcUnitMap (layout r)))
          out (Some (OK, objects r)) with
  | Some (status, us) => Some (status, mk (layout r) us)
  | None => None
  end.

(** [enablePostProcUnit] and [setPostProcUnitAsync]: the unit is looked
    for among the owned units; a null pointer and a unit of somebody else
    are left alone. *)
Definition on_owned_unit
    (op : PostProcessUnit.t -> status_t * PostProcessUnit.t)
    (procunit : option nat) (r : t) : status_t * t :=
  match procunit with
  | None => (OK, r)
  | Some id =>
      if bool_decide (id ∈ PostProcessPipeLine.mPostProcUnits (layout r))
      then
        match objects r !! id with
        | Some u =>
            let '(st, u') := op u in
            (st, mk (layout r) (<[id := u']> (objects r)))
        | None => (OK, r)
        end
      else (OK, r)
  end.

Definition enablePostProcUnit (procunit : option nat) (enable : bool)
    (r : t) : status_t * t :=
  on_owned_unit (setEnable enable) procunit r.

Definition setPostProcUnitAsync (procunit : option nat) (async : bool)
    (r : t) : status_t * t :=
  on_owned_unit (setProcessSync async) procunit r.

End Runtime.

(** The unit the pipeline hands the buffer [b] to. *)
Definition routed (stream_of : CameraBuffer -> option Z) (r : t)
    (b : PostProcBuffer) : option nat :=
  match stream_of_buffer stream_of b with
  | Some stream =>
      PostProcessPipeLine.mStreamToProcUnitMap (layout r) !! stream
  | None => None
  end.

(** [r] holds the pipeline [p] that [prepare] built: a unit object for
    every unit made, of the regime it was made with. *)
Definition instance_of (p : PostProcessPipeLine.t) (r : t) : Prop :=
  layout r = p ∧
  Forall2 (fun n u => mBufType u = PostProcessPipeLine.unit_buftype n)
          (PostProcessPipeLine.units p) (objects r).

(** The units whose thread [start] of the pipeline has to start, and those
    whose thread [stop] has to join, in the order of their first entries
    in the level arrays. *)
Definition to_start (r : t) : list nat :=
  acted_on (fun u => negb (mThreadRunning u)) (objects r)
           (all_levels (layout r)).

Definition to_stop (r : t) : list nat :=
  acted_on mThreadRunning (objects r) (all_levels (layout r)).

(** The unit after [start] and after [stop]. *)
Definition started (u : PostProcessUnit.t) : PostProcessUnit.t :=
  if mThreadRunning u then u else set_running true u.

Definition stopped (u : PostProcessUnit.t) : PostProcessUnit.t :=
  (PostProcessUnit.stop OK u).1.2.

End PipelineRuntime.

(** ** The kernel of the base class *)

Module BaseKernel.

Import PostProcessPipeLine.

(** What [PostProcessUnit::processFrame] does with a frame. *)
Inductive Action :=
| Idle                               (* neither branch is taken *)
| SameData                           (* copy unit, source is destination *)
| Copied (bytes : Z)                 (* [memcpy] of [min_size] bytes *)
| CropScaled (in_fmt out_fmt : Z).   (* [RgaCropScale::CropScaleNV12Or21] *)

Section Kernel.

Variable T : PostProcessTypes.
(** [cambuf->data()] *)
Variable data : CameraBuffer -> Z.

(** The format handed to the RGA for a buffer. *)
Definition rga_fmt (c : CameraBuffer) : Z :=
  if (cb_format c =? PostProcessUnitDigitalZoom.HAL_PIXEL_FORMAT_YCrCb_NV12) ||
     (cb_v4l2Fmt c =? PostProcessUnitDigitalZoom.V4L2_PIX_FMT_NV12)
  then PostProcessUnitDigitalZoom.HAL_PIXEL_FORMAT_YCrCb_NV12
  else PostProcessUnitDigitalZoom.HAL_PIXEL_FORMAT_YCrCb_420_SP.

(** The control flow of [processFrame]; the pixels and the crop window
    (computed in [float]) are left out.  A failure of the RGA is logged
    and not returned.  [None] is the dereference of a null [cambuf]. *)
Definition processFrame (mProcessUnitType : Z) (inb out : PostProcBuffer)
  : option (status_t * Action) :=
  if mProcessUnitType =? kPostProcessTypeCopy T then
    match cambuf inb, cambuf out with
    | Some i, Some o =>
        if negb (data i =? data o)
        then Some (OK, Copied (Z.min (cb_size i) (cb_size o)))
        else Some (OK, SameData)
    | _, _ => None
    end
  else if mProcessUnitType =? kPostProcessTypeScaleAndRotation T then
    match cambuf inb, cambuf out with
    | Some i, Some o => Some (OK, CropScaled (rga_fmt i) (rga_fmt o))
    | _, _ => None
    end
  else Some (OK, Idle).

End Kernel.

End BaseKernel.

(** ** Software lens-shading: the coefficient picture *)

Module SwLscPicture.

Import PostProcessUnitSwLsc.

(** [(x + 0xf) & ~0xf] *)
Definition align16 (x : Z) : Z := Z.land (x + 15) (Z.lnot 15).

(** The number of [uint32_t] elements [lsc_config] allocates for
    [u32_coef_pic_gr]: [malloc(2 * width_align16 * height_align16 *
    sizeof(uint32_t))], for sizes whose product fits [int32_t]. *)
Definition coef_pic_elements (width height : Z) : Z :=
  2 * align16 width * align16 height.

(** [(blk < 8) ? sizes[blk] : sizes[15 - blk]], the arrays having eight
    elements. *)
Definition block_size (sizes : list Z) (blk : Z) : Z :=
  default 0 (sizes !! Z.to_nat (if blk <? 8 then blk else 15 - blk)).

(** The blocks along one axis with the base they start at: the base is a
    [uint16_t] that grows by the size of each block. *)
Fixpoint block_spans (sizes : list Z) (blks : list Z) (base : Z)
  : list (Z * Z) :=
  match blks with
  | [] => []
  | blk :: rest =>
      let size_cur := block_size sizes blk in
      (base, size_cur) :: block_spans sizes rest (wrap16 (base + size_cur))
  end.

Definition spans (sizes : list Z) : list (Z * Z) :=
  block_spans sizes (seqZ 0 16) 0.

(** The elements of [pu32_coef_pic] that [calcu_coef] writes, in the order
    of its five loops; the values written are left out. *)
Definition calcu_coef_writes (sizex sizey : list Z) (u32_y_max u32_x_max : Z)
  : list Z :=
  i ← [0; 1];
  '(u16_y_base, u16_sizey_cur) ← spans sizey;
  '(u16_x_base, u16_sizex_cur) ← spans sizex;
  u16_y_offset ← seqZ 0 u16_sizey_cur;
  u16_x_offset ← seqZ 0 u16_sizex_cur;
  [wrap32 (i * u32_y_max * u32_x_max +
           (u16_y_base + u16_y_offset) * u32_x_max +
           (u16_x_base + u16_x_offset))].

(** The elements of the coefficient picture written when a unit prepared
    for [prepared] processes a frame of [width] x [height]: [prepare] sets
    the block sizes with [lsc_config], [processFrame] calls [lsc] with the
    size of the frame as [uint16_t], which calls [calcu_coef]. *)
Definition processFrame_writes (prepared : FrameInfo) (width height : Z)
  : option (list Z) :=
  match lsc_config_sizes 1 (fi_width prepared) (fi_height prepared) with
  | Some (sx, sy, _) =>
      Some (calcu_coef_writes sx sy (wrap16 height) (wrap16 width))
  | None => None
  end.

End SwLscPicture.

(** ** The frame worker: buffers of a video node (FrameWorker.cpp) *)

Module FrameWorker.

Definition BAD_VALUE : status_t := -22.

(** [enum v4l2_memory] of videodev2.h and the protection flags of
    sys/mman.h. *)
Definition V4L2_MEMORY_MMAP : Z := 1.
Definition V4L2_MEMORY_USERPTR : Z := 2.
Definition PROT_READ : Z := 1.
Definition PROT_WRITE : Z := 2.

(** [V4L2Buffer]: the fields the worker reads and sets. *)
Record V4L2Buffer := mkV4L2Buffer {
  userptr : Z;
  bytesused : Z;
  buf_length : Z;
  buf_offset : Z
}.

Definition setUserptr (p : Z) (b : V4L2Buffer) : V4L2Buffer :=
  mkV4L2Buffer p (bytesused b) (buf_length b) (buf_offset b).

Definition setBytesused (n : Z) (b : V4L2Buffer) : V4L2Buffer :=
  mkV4L2Buffer (userptr b) n (buf_length b) (buf_offset b).

(** The camera buffer made for one slot: a heap buffer with its data
    pointer, or a mapping of an exported frame. *)
Inductive WorkerBuffer :=
| HeapBuffer (data : Z)
| MappedBuffer (dmaBufFd length offset prot : Z).

Record t := mk {
  mPipelineDepth : nat;
  pixelformat : Z;               (* mFormat.pixelformat() *)
  sizeimage : Z;                 (* mFormat.sizeimage()   *)
  mBuffers : list V4L2Buffer;
  mCameraBuffers : list WorkerBuffer
}.

Definition set_buffers (bs : list V4L2Buffer) (w : t) : t :=
  mk (mPipelineDepth w) (pixelformat w) (sizeimage w) bs (mCameraBuffers w).

Definition push_camera_buffer (b : WorkerBuffer) (w : t) : t :=
  mk (mPipelineDepth w) (pixelformat w) (sizeimage w) (mBuffers w)
     (mCameraBuffers w ++ [b]).

Section Worker.

(** A default-constructed [V4L2Buffer]. *)
Variable fresh_buffer : V4L2Buffer.
(** [mNode->setBufferPool(mBuffers, true, memType)], which gets the
    vector by reference. *)
Variable setBufferPool : list V4L2Buffer -> Z -> status_t * list V4L2Buffer.
(** The data pointer of the buffer [MemoryUtils::allocateHeapBuffer]
    returns in round [i]; [None] is a null buffer. *)
Variable allocateHeapBuffer : nat -> option Z.
(** [mNode->exportFrame(i)] *)
Variable exportFrame : nat -> Z.
(** Of the kernel headers of the ISP driver, which are not among the
    sources. *)
Variable V4L2_META_FMT_RK_ISP1_PARAMS : Z.

Definition setWorkerDeviceBuffers (memType : Z) (w : t) : status_t * t :=
  let pushed := mBuffers w ++ replicate (mPipelineDepth w) fresh_buffer in
  let '(ret, pool) := setBufferPool pushed memType in
  (ret, set_buffers pool w).

(** The loop of [allocateWorkerBuffers]: [n] rounds remain, [i] is the
    counter.  [None] is [mBuffers[i]] behind the end of the vector. *)
Fixpoint allocate_loop (memType : Z) (n i : nat) (w : t)
  : option (status_t * t) :=
  match n with
  | O => Some (OK, w)
  | S n' =>
      if memType =? V4L2_MEMORY_USERPTR then
        match allocateHeapBuffer i with
        | None => Some (NO_MEMORY, w)
        | Some data =>
            match mBuffers w !! i with
            | None => None
            | Some b =>
                allocate_loop memType n' (S i)
                  (push_camera_buffer (HeapBuffer data)
                     (set_buffers
                        (<[i := setBytesused (sizeimage w)
                                  (setUserptr data b)]> (mBuffers w)) w))
            end
        end
      else if memType =? V4L2_MEMORY_MMAP then
        let prot := if pixelformat w =? V4L2_META_FMT_RK_ISP1_PARAMS
                    then Z.lor PROT_READ PROT_WRITE else PROT_READ in
        match mBuffers w !! i with
        | None => None
        | Some b =>
            allocate_loop memType n' (S i)
              (push_camera_buffer
                 (MappedBuffer (exportFrame i) (buf_length b) (buf_offset b)
                               prot)
                 (set_buffers
                    (<[i := setBytesused (sizeimage w) b]> (mBuffers w)) w))
        end
      else Some (BAD_VALUE, w)
  end.

(** [memType] is what [mNode->getMemoryType()] returns. *)
Definition allocateWorkerBuffers (memType : Z) (w : t)
  : option (status_t * t) :=
  allocate_loop memType (mPipelineDepth w) 0 w.

(** The camera buffer of slot [i] of a worker whose node has the memory
    type [memType], the heap allocations succeeding. *)
Definition slot_buffer (memType : Z) (w : t) (i : nat) : option WorkerBuffer :=
  if memType =? V4L2_MEMORY_USERPTR then HeapBuffer <$> allocateHeapBuffer i
  else
    match mBuffers w !! i with
    | Some b =>
        Some (MappedBuffer (exportFrame i) (buf_length b) (buf_offset b)
                (if pixelformat w =? V4L2_META_FMT_RK_ISP1_PARAMS
                 then Z.lor PROT_READ PROT_WRITE else PROT_READ))
    | None => None
    end.

End Worker.

End FrameWorker.

(** ** Sample data *)

Module Samples.

Import PostProcessUnit.

(** Camera buffers at three addresses, all NV12 of 1920x1080. *)
Definition cam (addr : Z) : CameraBuffer :=
  mkCameraBuffer addr true PostProcessUnitDigitalZoom.HAL_PIXEL_FORMAT_YCrCb_NV12
                 PostProcessUnitDigitalZoom.V4L2_PIX_FMT_NV12
                 1920 1080 3110400 true.

Definition buf (addr req : Z) : PostProcBuffer :=
  mkPostProcBuffer 0 (Some (cam addr)) req.

(** Values of the header constants for the examples: the common types
    are the bits 1 to 5, below [MAX_COMMON_PROC_UNIT_SHIFT]; the stream
    types are the bits 17 to 19, between the two shift bounds; the copy
    and face detection types need no internal buffer. *)
Definition sample_types : PostProcessPipeLine.PostProcessTypes :=
  PostProcessPipeLine.mkPostProcessTypes
    (2^1) (2^2) (2^3) (2^4) (2^5) (2^17) (2^18) (2^19) 16 32
    (Z.lor (2^19) (2^5)).

Definition HAL_PIXEL_FORMAT_IMPLEMENTATION_DEFINED : Z := 0x22.

Definition stream_1080p : PostProcessPipeLine.camera3_stream_t :=
  PostProcessPipeLine.mkStream 101 PostProcessPipeLine.CAMERA3_STREAM_OUTPUT
    1920 1080 HAL_PIXEL_FORMAT_IMPLEMENTATION_DEFINED 0.

Definition stream_720p : PostProcessPipeLine.camera3_stream_t :=
  PostProcessPipeLine.mkStream 100 PostProcessPipeLine.CAMERA3_STREAM_OUTPUT
    1280 720 HAL_PIXEL_FORMAT_IMPLEMENTATION_DEFINED 0.

Definition frame_1080p : FrameInfo := mkFrameInfo 1920 1080.

(** The pipeline built for one 720p stream from a 1080p input on a
    device with digital zoom: a zoom unit followed by a scale unit. *)
Definition zoom_scale_pipeline : PostProcessPipeLine.t :=
  match PostProcessPipeLine.prepare sample_types false frame_1080p 4
                                    [stream_720p] PostProcessPipeLine.empty with
  | Some (_, _, p) => p
  | None => PostProcessPipeLine.empty
  end.

(** An External unit that runs, with one queued input and one queued
    external buffer; [cur_out] is its destination slot. *)
Definition external_unit (cur_out : option BufRef) : PostProcessUnit.t :=
  PostProcessUnit.mk
    (PostProcBufferPools.mk 0 (SharedItemPool.mk [] []))
    kPostProcBufTypeExt true false true (2^17)
    [(Some (Ext (buf 1 10)), None)]
    [Some (Ext (buf 2 20))]
    None None cur_out [0%nat].

(** The same unit in the middle of an iteration: input [buf 1 10] and
    destination [buf 3 30] are current, another input is queued. *)
Definition busy_unit : PostProcessUnit.t :=
  PostProcessUnit.mk
    (PostProcBufferPools.mk 0 (SharedItemPool.mk [] []))
    kPostProcBufTypeExt true false true (2^17)
    [(Some (Ext (buf 4 40)), None)]
    [Some (Ext (buf 2 20))]
    (Some (Ext (buf 1 10))) None (Some (Ext (buf 3 30))) [0%nat].

Definition EAGAIN : Z := 11.

(** A handler of a pipeline with several streams, nothing pending. *)
Definition idle_handler : OutputBuffersHandler.t :=
  OutputBuffersHandler.mk true [] ∅.

Definition listener_ok : PostProcBuffer -> Z -> status_t := fun _ _ => OK.

Definition active_pixel_array : CameraWindow := mkCameraWindow 0 0 2592 1944.

Definition zoomed_settings : ProcUnitSettings :=
  mkProcUnitSettings (mkCameraWindow 648 486 1296 972) 1.

End Samples.

(** ** More sample data *)

Module MoreSamples.

Import PostProcessUnit Samples.

(** A value of [STATUS_NEED_NEXT_INPUT_FRAME] other than [OK]. *)
Definition need_next : status_t := 1.

Definition listeners_ok : nat -> option BufRef -> Z -> status_t :=
  fun _ _ _ => OK.

(** A kernel that always succeeds. *)
Definition kernel_ok : BufRef -> BufRef -> option ProcUnitSettings -> status_t :=
  fun _ _ _ => OK.

(** Listeners that keep no buffer, a unit that nobody wakes, and a
    wake-up that finds the unit as it was. *)
Definition keeps_none : nat -> option BufRef -> Z -> bool :=
  fun _ _ _ => false.

Definition never_woken : PostProcessUnit.t -> option PostProcessUnit.t :=
  fun _ => None.

Definition woken_as_is : PostProcessUnit.t -> option PostProcessUnit.t :=
  fun u => Some u.

(** The running External unit of the samples with nothing queued as
    input. *)
Definition idle_unit : PostProcessUnit.t :=
  set_inq [] (external_unit None).

(** The same unit with a second listener and two queued outputs. *)
Definition loaded_unit : PostProcessUnit.t :=
  set_listeners [0; 1]%nat
    (set_outq [Some (Ext (buf 2 20)); Some (Ext (buf 3 30))]
       (external_unit None)).

(** A stopped and a disabled variant. *)
Definition stopped_unit : PostProcessUnit.t :=
  set_running false (external_unit None).

Definition disabled_unit : PostProcessUnit.t :=
  set_enable false (external_unit None).

(** The idle unit made synchronous. *)
Definition sync_unit : PostProcessUnit.t := set_sync true idle_unit.

(** Queued frames and destinations. *)
Definition one_frame : list (BufRef * option ProcUnitSettings) :=
  [(Ext (buf 1 10), None)].

Definition two_frames : list (BufRef * option ProcUnitSettings) :=
  [(Ext (buf 1 10), None); (Ext (buf 4 40), None)].

Definition one_output : list BufRef := [Ext (buf 2 20)].

Definition frame_5 : option BufRef := Some (Ext (buf 5 50)).

Definition no_settings : option ProcUnitSettings := None.

(** Two deliveries and the buffers of a request. *)
Definition two_deliveries : list OutputBuffersHandler.Delivery :=
  [(buf 7 1, None, 0); (buf 8 2, None, 0)].

Definition request_out : list PostProcBuffer := [buf 100 1; buf 101 1].

(** Allocators of handle buffers: one that always succeeds, and one that
    fails at the third buffer. *)
Definition alloc_ok : FrameInfo -> nat -> option CameraBuffer :=
  fun _ i => Some (cam (Z.of_nat i)).

Definition alloc_two : FrameInfo -> nat -> option CameraBuffer :=
  fun _ i => if (i <? 2)%nat then Some (cam (Z.of_nat i)) else None.

Definition nth_cam (i : nat) : CameraBuffer := cam (Z.of_nat i).

(** An Internal unit as constructed, and the same unit prepared and
    started. *)
Definition internal_unit : PostProcessUnit.t :=
  PostProcessUnit.new (2^1) kPostProcBufTypeInt.

Definition running_internal_unit : PostProcessUnit.t :=
  (PostProcessUnit.start OK
     (PostProcessUnit.prepare alloc_ok true frame_1080p internal_unit).2).1.2.

(** Six frames, the four items of a pool, and the running Internal unit
    with a listener and the six frames queued. *)
Definition six_frames : list (BufRef * option ProcUnitSettings) :=
  [(Ext (buf 1 10), None); (Ext (buf 1 11), None); (Ext (buf 1 12), None);
   (Ext (buf 1 13), None); (Ext (buf 1 14), None); (Ext (buf 1 15), None)].

Definition four_items : list BufRef :=
  [Item 0; Item 1; Item 2; Item 3].

Definition busy_internal_unit : PostProcessUnit.t :=
  set_listeners [0%nat]
    (set_inq (map (fun '(b, s) => (Some b, s)) six_frames)
       running_internal_unit).

(** The running Internal unit once it took a destination from its pool:
    the slot holds item 0, the items 1 to 3 are in the pool. *)
Definition holding_unit : PostProcessUnit.t :=
  obtain_output running_internal_unit.

(** The handler of a pipeline with one stream. *)
Definition single_handler : OutputBuffersHandler.t :=
  OutputBuffersHandler.mk false [] ∅.

(** Streams: a JPEG stream of 720p, and a 1080p stream rotated by 90
    degrees. *)
Definition stream_jpeg_720p : PostProcessPipeLine.camera3_stream_t :=
  PostProcessPipeLine.mkStream 102 PostProcessPipeLine.CAMERA3_STREAM_OUTPUT
    1280 720 PostProcessPipeLine.HAL_PIXEL_FORMAT_BLOB 0.

Definition stream_rotated : PostProcessPipeLine.camera3_stream_t :=
  PostProcessPipeLine.mkStream 103 PostProcessPipeLine.CAMERA3_STREAM_OUTPUT
    1920 1080 HAL_PIXEL_FORMAT_IMPLEMENTATION_DEFINED
    PostProcessPipeLine.CAMERA3_STREAM_ROTATION_90.

Definition built (chrome : bool) (zoom : Q)
    (streams : list PostProcessPipeLine.camera3_stream_t)
  : PostProcessPipeLine.t :=
  match PostProcessPipeLine.prepare sample_types chrome frame_1080p zoom
                                    streams PostProcessPipeLine.empty with
  | Some (_, _, p) => p
  | None => PostProcessPipeLine.empty
  end.

(** The pipelines for a 720p and a 1080p stream, for the JPEG stream, and
    for the rotated stream on a Chrome board. *)
Definition two_stream_pipeline : PostProcessPipeLine.t :=
  built false 1 [stream_720p; stream_1080p].

Definition jpeg_pipeline : PostProcessPipeLine.t :=
  built false 1 [stream_jpeg_720p].

Definition rotated_pipeline : PostProcessPipeLine.t :=
  built true 1 [stream_rotated].

(** The first unit [prepare] made. *)
Definition first_unit (p : PostProcessPipeLine.t)
  : PostProcessPipeLine.UnitNode :=
  default (PostProcessPipeLine.mkUnitNode "" PostProcessPipeLine.ClsPostProcessUnit
             0 kPostProcBufTypeInt [] None)
          (PostProcessPipeLine.units p !! 0%nat).

(** A unit object for every unit of a built pipeline, as constructed. *)
Definition instantiate (p : PostProcessPipeLine.t) : PipelineRuntime.t :=
  PipelineRuntime.mk p
    (map (fun n => PostProcessUnit.new (PostProcessPipeLine.unit_type n)
                     (PostProcessPipeLine.unit_buftype n))
         (PostProcessPipeLine.units p)).

Definition two_stream_runtime : PipelineRuntime.t :=
  instantiate two_stream_pipeline.

(** The stream of a camera buffer, for the samples: the stream whose
    address is the address of the buffer. *)
Definition stream_by_addr : CameraBuffer -> option Z :=
  fun c => Some (cb_addr c).

(** A frame worker two buffers deep, with its V4L2 buffers, a heap
    allocator that fails in the second round, and a node that sets the
    length of every buffer. *)
Definition worker : FrameWorker.t :=
  FrameWorker.mk 2 0 3110400
    [FrameWorker.mkV4L2Buffer 0 0 3110400 0;
     FrameWorker.mkV4L2Buffer 0 0 3110400 3110400] [].

Definition bare_worker : FrameWorker.t :=
  FrameWorker.mk 2 0 3110400 [] [].

Definition heap_once : nat -> option Z :=
  fun i => if (i <? 1)%nat then Some 4096 else None.

Definition heap_ptr : nat -> Z := fun _ => 4096.

Definition fresh : FrameWorker.V4L2Buffer := FrameWorker.mkV4L2Buffer 0 0 0 0.

Definition pool_of_node (bs : list FrameWorker.V4L2Buffer) (memType : Z)
  : status_t * list FrameWorker.V4L2Buffer :=
  (OK, map (fun b => FrameWorker.mkV4L2Buffer (FrameWorker.userptr b)
                       (FrameWorker.bytesused b) 3110400 0) bs).

Definition export_fd : nat -> Z := fun i => 10 + Z.of_nat i.

End MoreSamples.

(** * Properties *)

(** ** The bounded pool *)

Module PoolFacts.

Import SharedItemPool PostProcBufferPools.

Lemma alter_set_index_lookup (l : list PostProcBuffer) (s k : nat) (i : Z) :
  index <$> (alter (set_index i) s l !! k) =
  if decide (s = k) then (fun _ => i) <$> (l !! k) else index <$> (l !! k).
Proof.
  destruct (decide (s = k)) as [->|Hne].
  - rewrite list_lookup_alter_eq. by destruct (l !! k).
  - by rewrite list_lookup_alter_ne.
Qed.

(** The loop visits the items round-robin: with [n] iterations left and
    the items [base .. base+n-1] at the head of the queue, it ends with
    every one of them moved behind the others, its index written. *)
Lemma createBufferPools_loop_spec (n : nat) :
  ∀ (i : Z) (sl : list PostProcBuffer) (done : list nat) (base : nat),
    (base + n <= length sl)%nat ->
    ∃ sl',
      createBufferPools_loop n i (SharedItemPool.mk sl (seq base n ++ done)) =
        (OK, SharedItemPool.mk sl' (done ++ seq base n)) ∧
      length sl' = length sl ∧
      ∀ k : nat,
        index <$> (sl' !! k) =
        if bool_decide (base <= k < base + n)%nat
        then Some (i + Z.of_nat (k - base))
        else index <$> (sl !! k).
Proof.
  induction n as [|n IH]; intros i sl done base Hlen.
  - exists sl. simpl. rewrite app_nil_r. split; [done|]. split; [done|].
    intros k. rewrite bool_decide_eq_false_2; [done | lia].
  - cbn [seq app createBufferPools_loop]. unfold SharedItemPool.acquireItem.
    cbn [available slots]. unfold releaseItem, update. cbn [available slots].
    destruct (IH (i + 1) (alter (set_index i) base sl) (done ++ [base]) (S base))
      as (sl' & Hrun & Hl & Hidx).
    { rewrite length_alter. lia. }
    exists sl'. split.
    { rewrite <- app_assoc. rewrite Hrun. by rewrite <- app_assoc. }
    split; [by rewrite Hl, length_alter|].
    intros k. rewrite Hidx. rewrite alter_set_index_lookup.
    destruct (decide (base = k)) as [->|Hne].
    + rewrite bool_decide_eq_false_2 by lia.
      rewrite bool_decide_eq_true_2 by lia.
      destruct (lookup_lt_is_Some_2 sl k) as [x Hx]; [lia|].
      rewrite Hx. simpl. f_equal. lia.
    + destruct (decide (S base <= k < S base + n)%nat).
      * rewrite !bool_decide_eq_true_2 by lia. f_equal. lia.
      * rewrite !bool_decide_eq_false_2 by lia. done.
Qed.

Lemma acquire_many_available (k : nat) :
  ∀ (size : nat) (sl : list PostProcBuffer) (av : list nat),
    acquire_many (S (length av) + k)
      (PostProcBufferPools.mk size (SharedItemPool.mk sl av)) =
    map Some av ++ replicate (S k) None.
Proof.
  intros size sl av. induction av as [|s av IH].
  - simpl. f_equal. induction k as [|k IHk]; [done|]. simpl. by f_equal.
  - cbn [length Nat.add acquire_many]. unfold PostProcBufferPools.acquireItem.
    cbn [mPostProcItemsPool]. unfold SharedItemPool.acquireItem.
    cbn [available slots].
    cbn [mBufferPoolSize map app]. f_equal. apply IH.
Qed.

(** C8. For every capacity [C], [createBufferPools] succeeds on a pool
    whose [C] items could be allocated: the pool then has [C] items whose
    indices are 0, 1, ..., C-1 in order, and a caller that keeps what it
    acquires gets the [C] distinct items in [C] calls and no item in any
    later call.  When the items could not be allocated, the first
    acquisition yields nothing and [createBufferPools] returns
    [UNKNOWN_ERROR]. *)
Theorem createBufferPools_capacity (C k : nat) :
  (∃ bp,
      createBufferPools true C = (OK, bp) ∧
      mBufferPoolSize bp = C ∧
      length (slots (mPostProcItemsPool bp)) = C ∧
      map (slot_index bp) (seq 0 C) = map (fun s => Some (Z.of_nat s)) (seq 0 C) ∧
      acquire_many (S C + k) bp = map Some (seq 0 C) ++ replicate (S k) None) ∧
  fst (createBufferPools false (S C)) = UNKNOWN_ERROR ∧
  UNKNOWN_ERROR ≠ OK.
Proof.
  split; [|split; [reflexivity | discriminate]].
  unfold createBufferPools, init.
  destruct (createBufferPools_loop_spec C 0 (replicate C blank) [] 0)
    as (sl' & Hrun & Hl & Hidx).
  { rewrite length_replicate. lia. }
  rewrite app_nil_r in Hrun. rewrite Hrun. cbn [app].
  eexists. split; [reflexivity|]. cbn [mBufferPoolSize mPostProcItemsPool slots].
  rewrite length_replicate in Hl.
  split; [done|]. split; [done|]. split.
  - apply map_ext_in. intros s Hs. apply in_seq in Hs.
    unfold slot_index. cbn [mPostProcItemsPool slots].
    rewrite Hidx. rewrite bool_decide_eq_true_2 by lia.
    f_equal. lia.
  - pose proof (acquire_many_available k C sl' (seq 0 C)) as H.
    rewrite length_seq in H. exact H.
Qed.

End PoolFacts.

(** ** The processing unit *)

Module UnitFacts.

Import PostProcessUnit.

(* closes a goal under the assumption that an empty slot is filled *)
Ltac no_output :=
  try match goal with
      | H : is_Some _ |- _ =>
          let Hx := fresh in destruct H as [? Hx]; cbn in Hx; congruence
      end.

Section Facts.

Variable STATUS_NEED_NEXT_INPUT_FRAME : status_t.
Variable listener_status : nat -> option BufRef -> Z -> status_t.
Variable listener_keeps : nat -> option BufRef -> Z -> bool.
Variable woken : t -> option t.
Variable thread_run_status : status_t.
Variable thread_exit_status : status_t.
Variable processFrame :
  BufRef -> BufRef -> option ProcUnitSettings -> status_t.

Lemma stop_not_running (u : t) :
  mThreadRunning (stop thread_exit_status u).1.2 = false.
Proof.
  unfold stop. destruct (mThreadRunning u) eqn:E; simpl; done.
Qed.

Lemma start_running (u : t) :
  mThreadRunning (start thread_run_status u).1.2 = true.
Proof.
  unfold start. destruct (mThreadRunning u) eqn:E; simpl; done.
Qed.

(** C5. On a unit whose buffer type is not External, [addOutputBuffer]
    returns [UNKNOWN_ERROR] and the unit is as before; on an External
    unit it returns [OK] and the unit differs only in its output queue,
    which has [buf] appended. *)
Theorem addOutputBuffer_external_only (u : t) (buf : option BufRef) :
  (mBufType u ≠ kPostProcBufTypeExt ->
   addOutputBuffer buf u = (UNKNOWN_ERROR, u)) ∧
  (mBufType u = kPostProcBufTypeExt ->
   addOutputBuffer buf u =
     (OK, mk (mInternalBufPool u) (mBufType u) (mEnable u) (mSyncProcess u)
             (mThreadRunning u) (mProcessUnitType u) (mInBufferPool u)
             (mOutBufferPool u ++ [buf]) (mCurPostProcBufIn u)
             (mCurProcSettings u) (mCurPostProcBufOut u) (mListeners u))) ∧
  UNKNOWN_ERROR ≠ OK.
Proof.
  repeat split.
  - intros Hne. unfold addOutputBuffer. destruct (mBufType u); congruence.
  - intros H. unfold addOutputBuffer, set_outq. rewrite H. reflexivity.
  - discriminate.
Qed.

(** C6. [start] on a unit that is running and [stop] on a unit that is
    not running return [OK], leave the unit as it is and call nothing;
    so the second of two [start]s, or of two [stop]s, returns [OK] and
    changes nothing. *)
Theorem start_stop_idempotent (u : t) :
  (mThreadRunning u = true -> start thread_run_status u = (OK, u, [])) ∧
  (mThreadRunning u = false -> stop thread_exit_status u = (OK, u, [])) ∧
  (let u1 := (start thread_run_status u).1.2 in
   start thread_run_status u1 = (OK, u1, [])) ∧
  (let u1 := (stop thread_exit_status u).1.2 in
   stop thread_exit_status u1 = (OK, u1, [])).
Proof.
  assert (Hstart : ∀ v, mThreadRunning v = true ->
                        start thread_run_status v = (OK, v, [])).
  { intros v Hv. unfold start. by rewrite Hv. }
  assert (Hstop : ∀ v, mThreadRunning v = false ->
                       stop thread_exit_status v = (OK, v, [])).
  { intros v Hv. unfold stop. by rewrite Hv. }
  repeat split.
  - apply Hstart.
  - apply Hstop.
  - apply Hstart, start_running.
  - apply Hstop, stop_not_running.
Qed.

(** C7. When the kernel returns [STATUS_NEED_NEXT_INPUT_FRAME] for the
    current input and destination, the iteration resets the input and
    settings slots, keeps the destination slot, and calls no listener;
    and when the next iteration dequeues an input, the destination slot
    still holds that buffer while the pool and the queue of external
    buffers are as they were. *)
Theorem need_next_input_keeps_output (u : t) (bin bout : BufRef)
    (status : status_t) (b : option BufRef) (s : option ProcUnitSettings)
    (rest : list (option BufRef * option ProcUnitSettings)) :
  mCurPostProcBufIn u = Some bin ->
  mCurPostProcBufOut u = Some bout ->
  processFrame bin bout (mCurProcSettings u) = STATUS_NEED_NEXT_INPUT_FRAME ->
  mThreadRunning u = true ->
  mInBufferPool u = (b, s) :: rest ->
  let u1 := set_cur_settings None (set_cur_in None u) in
  process_prepared STATUS_NEED_NEXT_INPUT_FRAME listener_status
                   listener_keeps processFrame status u
    = (STATUS_NEED_NEXT_INPUT_FRAME, u1, []) ∧
  mCurPostProcBufOut u1 = Some bout ∧
  mCurPostProcBufIn u1 = None ∧
  mCurProcSettings u1 = None ∧
  prepareProcess u1 =
    Returns (set_inq rest (set_cur_settings s (set_cur_in b u1))) ∧
  mCurPostProcBufOut (set_inq rest (set_cur_settings s (set_cur_in b u1)))
    = Some bout ∧
  mInternalBufPool (set_inq rest (set_cur_settings s (set_cur_in b u1)))
    = mInternalBufPool u ∧
  mOutBufferPool (set_inq rest (set_cur_settings s (set_cur_in b u1)))
    = mOutBufferPool u.
Proof.
  intros Hin Hout Hk Hrun Hq u1.
  repeat split; try done.
  - unfold process_prepared. rewrite Hin, Hout, Hk.
    unfold relayToNextProcUnit. by rewrite Z.eqb_refl.
  - unfold prepareProcess, prepareProcess_resume. subst u1.
    cbn [mThreadRunning mInBufferPool set_cur_settings set_cur_in].
    rewrite Hrun, Hq. rewrite bool_decide_eq_false_2 by done.
    cbn [andb negb mCurPostProcBufOut set_inq set_cur_settings set_cur_in].
    by rewrite Hout.
Qed.

(** C4, with the case the source sets apart.  In an iteration that
    dequeues an input while the destination slot is empty, the
    destination is obtained by the regime of the unit (Internal: the
    next item of its pool; External: the oldest queued buffer, which is
    popped; PassThrough: the input itself); when one is obtained the
    dequeued input and settings are current, and when none is obtained
    both slots are reset, [doProcess] returns [OK] and no call leaves
    the unit. *)
Theorem prepareProcess_by_regime (u : t) (b : option BufRef)
    (s : option ProcUnitSettings)
    (rest : list (option BufRef * option ProcUnitSettings)) (fuel : nat) :
  mThreadRunning u = true ->
  mInBufferPool u = (b, s) :: rest ->
  mCurPostProcBufOut u = None ->
  STATUS_NEED_NEXT_INPUT_FRAME ≠ OK ->
  ∃ u',
    prepareProcess u = Returns u' ∧
    mInBufferPool u' = rest ∧
    obtained_by_regime u u' b ∧
    (is_Some (mCurPostProcBufOut u') ->
     mCurPostProcBufIn u' = b ∧ mCurProcSettings u' = s) ∧
    (mCurPostProcBufOut u' = None ->
     mCurPostProcBufIn u' = None ∧ mCurProcSettings u' = None ∧
     doProcess STATUS_NEED_NEXT_INPUT_FRAME listener_status listener_keeps
               woken processFrame (S fuel) u = ProcReturns OK u' []).
Proof.
  intros Hrun Hq Hout Hneed.
  assert (Hprep : prepareProcess u = prepareProcess_resume u).
  { unfold prepareProcess. rewrite Hrun, Hq.
    by rewrite bool_decide_eq_false_2. }
  assert (Hdrop : ∀ u', prepareProcess u = Returns u' ->
            mCurPostProcBufOut u' = None ->
            doProcess STATUS_NEED_NEXT_INPUT_FRAME listener_status
                      listener_keeps woken processFrame (S fuel) u =
            ProcReturns OK u' []).
  { intros u' Hu' Ho. unfold doProcess. cbn [doProcess_loop].
    unfold prepareProcess_woken. rewrite Hu'. unfold process_prepared. rewrite Ho.
    assert ((OK =? STATUS_NEED_NEXT_INPUT_FRAME) = false) as Hne
      by (apply Z.eqb_neq; congruence).
    destruct (mCurPostProcBufIn u'); rewrite Hne, andb_false_r; done. }
  revert Hdrop. rewrite Hprep. clear Hprep.
  unfold prepareProcess_resume, obtained_by_regime, obtain_output.
  rewrite Hrun, Hq.
  cbn [negb mCurPostProcBufOut set_inq set_cur_settings set_cur_in
       mBufType mInternalBufPool mOutBufferPool mCurPostProcBufIn].
  rewrite Hout.
  destruct (mBufType u) eqn:Hbt.
  - destruct (PostProcBufferPools.acquireItem (mInternalBufPool u))
      as [[slot|] bp] eqn:Hacq; cbn; intros Hdrop;
      (eexists; split; [reflexivity|]; cbn;
       repeat split; try done; no_output; eauto).
  - destruct b as [x|]; cbn; intros Hdrop;
      (eexists; split; [reflexivity|]; cbn;
       repeat split; try done; no_output; eauto).
  - destruct (mOutBufferPool u) as [|[d|] q] eqn:Hoq; cbn;
      try rewrite Hout; cbn; intros Hdrop;
      (eexists; split; [reflexivity|]; cbn;
       repeat split; try done; no_output; eauto).
  - cbn. rewrite Hout. intros Hdrop.
    eexists; split; [reflexivity|]; cbn.
    repeat split; try done; no_output; eauto.
Qed.

End Facts.

End UnitFacts.

(** ** The digital zoom kernel *)

Module DigitalZoomFacts.

Import PostProcessUnitDigitalZoom.

Lemma checkFmt_true_iff (i o : CameraBuffer) :
  checkFmt (Some i) (Some o) = true ↔
  (¬ hal_nv12_or_nv21 i ∨ ¬ hal_nv12_or_nv21 o) ∨
  (¬ v4l2_nv12_or_nv21 i ∨ ¬ v4l2_nv12_or_nv21 o).
Proof.
  unfold checkFmt, hal_nv12_or_nv21, v4l2_nv12_or_nv21.
  rewrite !orb_true_iff, !andb_true_iff, !negb_true_iff, !Z.eqb_neq.
  tauto.
Qed.

Lemma checkFmt_false_iff (i o : CameraBuffer) :
  checkFmt (Some i) (Some o) = false ↔
  hal_nv12_or_nv21 i ∧ hal_nv12_or_nv21 o ∧
  v4l2_nv12_or_nv21 i ∧ v4l2_nv12_or_nv21 o.
Proof.
  unfold checkFmt, hal_nv12_or_nv21, v4l2_nv12_or_nv21.
  rewrite !orb_false_iff, !andb_false_iff, !negb_false_iff, !Z.eqb_eq.
  tauto.
Qed.

(** C9. For buffers [i] and [o], [checkFmt] is true exactly when [i] or
    [o] has a HAL format outside {NV12, YCrCb_420_SP} or a V4L2 format
    outside {NV12, NV21}.  Hence, for a crop region that is not the
    active pixel array, [processFrame] returns [UNKNOWN_ERROR]
    (unsupported format) exactly when both buffers have a HAL format and
    a V4L2 format inside these sets. *)
Theorem checkFmt_rejects_supported (mApa : CameraWindow) (rga_failed : bool)
    (inb out : PostProcBuffer) (settings : ProcUnitSettings)
    (i o : CameraBuffer) :
  cambuf inb = Some i ->
  cambuf out = Some o ->
  same_window (cropRegion settings) mApa = false ->
  (checkFmt (Some i) (Some o) = true ↔
   (¬ hal_nv12_or_nv21 i ∨ ¬ hal_nv12_or_nv21 o) ∨
   (¬ v4l2_nv12_or_nv21 i ∨ ¬ v4l2_nv12_or_nv21 o)) ∧
  (fst <$> processFrame mApa rga_failed inb out settings = Some UNKNOWN_ERROR ↔
   hal_nv12_or_nv21 i ∧ hal_nv12_or_nv21 o ∧
   v4l2_nv12_or_nv21 i ∧ v4l2_nv12_or_nv21 o).
Proof.
  intros Hi Ho Hw. split; [apply checkFmt_true_iff|].
  rewrite <- checkFmt_false_iff.
  unfold processFrame. rewrite Hw, Hi, Ho.
  destruct (checkFmt (Some i) (Some o)); cbn [negb].
  - destruct rga_failed; cbn; split; intros H; try discriminate;
      inversion H.
  - cbn. tauto.
Qed.

End DigitalZoomFacts.

(** ** The lens-shading block sizes *)

Module SwLscFacts.

Import PostProcessUnitSwLsc.

Lemma half_rem16_small (x : Z) : -7 <= Z.quot (Z.rem x 16) 2 <= 7.
Proof.
  Z.quot_rem_to_equations. lia.
Qed.

Lemma wrap16_small (x : Z) : 0 <= x < 65536 -> wrap16 x = x.
Proof. intros H. unfold wrap16. apply Z.mod_small. lia. Qed.

(** C10. For every width and height the body of the first loop of
    [lsc_config] runs zero times, so the block sizes are the 1080p
    defaults, [sizex] all 120 and [sizey] alternating 67 and 68, except
    for the last element of each, to which half the remainder of the
    width (height) by 16 is added. *)
Theorem lsc_config_sizes_default (fuel : nat) (width height : Z) :
  lsc_config_sizes (S fuel) width height =
  Some ([120; 120; 120; 120; 120; 120; 120;
         120 + Z.quot (Z.rem width 16) 2],
        [67; 68; 67; 68; 67; 68; 67;
         68 + Z.quot (Z.rem height 16) 2],
        0%nat).
Proof.
  unfold lsc_config_sizes. cbn.
  pose proof (half_rem16_small width).
  pose proof (half_rem16_small height).
  rewrite !wrap16_small by lia. reflexivity.
Qed.

End SwLscFacts.

(** ** The graph builder *)

Module BuilderFacts.

Import PostProcessUnit PostProcessPipeLine.

#[local] Arguments count_in : simpl never.

Lemma count_in_snoc (l : list nat) (y id : nat) :
  count_in (l ++ [y]) id =
  (count_in l id + (if decide (y = id) then 1 else 0))%nat.
Proof.
  unfold count_in. rewrite filter_app, length_app. f_equal.
  rewrite filter_cons. destruct (decide (y = id)); reflexivity.
Qed.

Lemma levels_ok_empty : levels_ok empty.
Proof. intros id. split; intros H; cbn in *; [lia | done]. Qed.

Lemma same_levels_ok (p q : t) : same_levels p q -> levels_ok p -> levels_ok q.
Proof.
  intros (Hu & Hf & Hm & Hl) Hp id. specialize (Hp id).
  rewrite <- Hu, <- Hf, <- Hm, <- Hl. exact Hp.
Qed.

Lemma same_levels_attachListener (id : nat) (l : Listener) (p : t) :
  same_levels p (attachListener id l p).
Proof. unfold same_levels, attachListener. cbn. by rewrite length_alter. Qed.

Lemma same_levels_prepare_unit (id : nat) (f : FrameInfo) (p : t) :
  same_levels p (prepare_unit id f p).
Proof. unfold same_levels, prepare_unit. cbn. by rewrite length_alter. Qed.

Lemma same_levels_trans (p q r : t) :
  same_levels p q -> same_levels q r -> same_levels p r.
Proof. unfold same_levels. intros (?&?&?&?) (?&?&?&?). repeat split; congruence. Qed.

(** Creating a unit and linking it keeps the buckets in order. *)
Lemma link_created_levels_ok (inf : FrameInfo) (stream : camera3_stream_t)
    (last_proc_unit : bool) (to : option nat) (n : UnitNode) (p : t) :
  levels_ok p ->
  levels_ok (link_created inf stream last_proc_unit (length (units p)) to
               (set_units (units p ++ [n]) p)).
Proof.
  intros Hp. unfold link_created.
  eapply same_levels_ok; [apply same_levels_prepare_unit|].
  set (id := length (units p)).
  set (p0 := set_units (units p ++ [n]) p).
  assert (Hfresh := proj2 (Hp id) (Nat.le_refl _)).
  destruct Hfresh as (HF & HM & HL).
  assert (Hlen : length (units p0) = S id).
  { subst p0 id. cbn. rewrite length_app. cbn. lia. }
  destruct to as [t'|]; destruct last_proc_unit; cbn.
  all: intros x; specialize (Hp x); destruct Hp as [Hold Hnew].
  all: unfold set_map, attachListener, set_units; cbn.
  all: rewrite ?length_alter, ?length_app; cbn [length].
  all: rewrite ?count_in_snoc.
  all: fold id.
  all: destruct (decide (id = x)) as [<-|Hne].
  all: split; intros Hx; try lia.
  all: try (rewrite HF, HM, HL; lia).
  all: try (assert (Hx' : (x < id)%nat) by lia; specialize (Hold Hx'); lia).
  all: try (assert (Hx' : (id <= x)%nat) by lia; specialize (Hnew Hx'); lia).
Qed.

Lemma fold_left_preserves {A B : Type} (P : A -> Prop) (f : A -> B -> A)
    (l : list B) :
  (∀ a b, P a -> P (f a b)) -> ∀ a, P a -> P (fold_left f l a).
Proof.
  intros Hf. induction l as [|b l IH]; intros a Ha; cbn; [done|].
  apply IH, Hf, Ha.
Qed.

Section Builder.

Variable T : PostProcessTypes.
Variable CHROME_BOARD : bool.

Lemma link_common_step_levels_ok (inf : FrameInfo)
    (stream0 : camera3_stream_t) (common last : Z) (st : Linking) (i : Z) :
  levels_ok (pipe st) ->
  levels_ok (pipe (link_common_step T inf stream0 common last st i)).
Proof.
  intros Hst. unfold link_common_step.
  destruct (Z.land common (Z.shiftl 1 i) =? 0); [done|].
  destruct (common_unit_of T _ _) as [[[name cls] bt]|]; [|done].
  unfold make_unit.
  destruct (Z.shiftl 1 i =? kPostProcessTypeFaceDetection T); cbn [pipe];
    by apply link_created_levels_ok.
Qed.

Lemma link_stream_step_levels_ok (inf : FrameInfo)
    (stream : camera3_stream_t) (ty last : Z) (sl : StreamLinking) (i : Z) :
  levels_ok (pipe (linking sl)) ->
  levels_ok (pipe (linking (link_stream_step T inf stream ty last sl i))).
Proof.
  intros Hst. unfold link_stream_step.
  destruct (Z.land ty (Z.shiftl 1 i) =? 0); [done|].
  destruct (stream_unit_of T _ _) as [[[name cls] bt]|]; [|done].
  unfold make_unit. cbn [pipe linking].
  by apply link_created_levels_ok.
Qed.

Lemma link_stream_levels_ok (inf : FrameInfo) (st : Linking)
    (proc_map : camera3_stream_t * Z) :
  levels_ok (pipe st) -> levels_ok (pipe (link_stream T inf st proc_map)).
Proof.
  intros Hst. destruct proc_map as [stream ty]. unfold link_stream.
  apply (fold_left_preserves (fun sl => levels_ok (pipe (linking sl)))).
  - intros sl i. apply link_stream_step_levels_ok.
  - exact Hst.
Qed.

Lemma prepare_levels_ok (inf : FrameInfo) (zoom : Q)
    (streams : list camera3_stream_t) (p p' : t) (st : status_t)
    (need : bool) :
  levels_ok p ->
  prepare T CHROME_BOARD inf zoom streams p = Some (st, need, p') ->
  levels_ok p'.
Proof.
  intros Hp. unfold prepare.
  destruct streams as [|stream0 rest]; [discriminate|].
  destruct (analyze_streams T CHROME_BOARD inf zoom (stream0 :: rest) 0)
    as [spp0 common].
  intros [= _ _ <-].
  apply (fold_left_preserves (fun st => levels_ok (pipe st))).
  { intros a b. apply link_stream_levels_ok. }
  apply (fold_left_preserves (fun st => levels_ok (pipe st))).
  { intros a b. apply link_common_step_levels_ok. }
  cbn [pipe]. eapply same_levels_ok; [|exact Hp]. by repeat split.
Qed.

(** *** The buckets follow the links *)








Lemma link_created_length (inf : FrameInfo) (stream : camera3_stream_t)
    (last_proc_unit : bool) (id : nat) (to : option nat) (p : t) :
  length (units (link_created inf stream last_proc_unit id to p)) =
  length (units p).
Proof.
  unfold link_created, linkPostProcUnit.
  destruct to, last_proc_unit; cbn; by rewrite ?length_alter.
Qed.

Lemma link_created_known (inf : FrameInfo) (stream : camera3_stream_t)
    (last_proc_unit : bool) (to : option nat) (new : UnitNode) (p : t)
    (o : option nat) :
  known o p ∨ o = Some (length (units p)) ->
  known o (link_created inf stream last_proc_unit (length (units p)) to
             (set_units (units p ++ [new]) p)).
Proof.
  intros Ho k Hk. rewrite link_created_length. cbn. rewrite length_app. cbn.
  destruct Ho as [Ho| ->].
  - specialize (Ho k Hk). lia.
  - injection Hk as <-. lia.
Qed.







(** What [prepare] reports for one stream of the size of the input,
    without re-encoding, rotation or zoom: the stream gets the copy
    type, and [needpostprocess] is whether that type is outside the
    types that need no internal buffer. *)
Lemma prepare_same_size (inf : FrameInfo) (zoom : Q)
    (stream : camera3_stream_t) (p : t) :
  format stream ≠ HAL_PIXEL_FORMAT_BLOB ->
  width stream = fi_width inf ->
  height stream = fi_height inf ->
  getRotationDegrees CHROME_BOARD stream = 0 ->
  (zoom <= 1)%Q ->
  ∃ p', prepare T CHROME_BOARD inf zoom [stream] p =
        Some (OK,
              negb (Z.land (kPostProcessTypeCopy T)
                      (Z.lnot (NO_NEED_INTERNAL_BUFFER_PROCESS_TYPES T)) =? 0),
              p').
Proof.
  intros Hfmt Hw Hh Hrot Hzoom.
  unfold prepare, analyze_streams, analyze_stream.
  apply Z.eqb_neq in Hfmt. rewrite Hfmt, Hw, Hh, Z.eqb_refl, Hrot.
  apply Qle_bool_iff in Hzoom. rewrite Hzoom. cbn [negb Z.eqb].
  unfold add_copy, exclude_no_buffer. cbn [length map].
  rewrite Z.land_0_l.
  change (Z.of_nat 1) with 1. change (1 <? 1) with false.
  change (1 =? 1) with true. change (0 =? 0) with true.
  cbn [orb andb negb]. rewrite Z.lor_0_l.
  eexists. reflexivity.
Qed.

(** C2. One requested stream of the width and height of the input
    frame, not of format BLOB and without rotation, on a device whose
    maximal digital zoom is at most 1.0: [prepare] returns [OK] with
    [needpostprocess] false.  The header is taken to list the copy type,
    which [prepare] gives to such a stream, among
    [NO_NEED_INTERNAL_BUFFER_PROCESS_TYPES]. *)
Theorem prepare_same_size_no_postprocess (inf : FrameInfo) (zoom : Q)
    (stream : camera3_stream_t) (p : t) :
  format stream ≠ HAL_PIXEL_FORMAT_BLOB ->
  width stream = fi_width inf ->
  height stream = fi_height inf ->
  getRotationDegrees CHROME_BOARD stream = 0 ->
  (zoom <= 1)%Q ->
  Z.land (kPostProcessTypeCopy T)
         (Z.lnot (NO_NEED_INTERNAL_BUFFER_PROCESS_TYPES T)) = 0 ->
  ∃ p', prepare T CHROME_BOARD inf zoom [stream] p = Some (OK, false, p').
Proof.
  intros Hfmt Hw Hh Hrot Hzoom Hcopy.
  destruct (prepare_same_size inf zoom stream p Hfmt Hw Hh Hrot Hzoom)
    as [p' Hp'].
  exists p'. rewrite Hp', Hcopy. reflexivity.
Qed.

(** For the same request, without the copy type among the types that
    need no internal buffer, [needpostprocess] is true. *)
Lemma prepare_same_size_copy_counts (inf : FrameInfo) (zoom : Q)
    (stream : camera3_stream_t) (p : t) :
  format stream ≠ HAL_PIXEL_FORMAT_BLOB ->
  width stream = fi_width inf ->
  height stream = fi_height inf ->
  getRotationDegrees CHROME_BOARD stream = 0 ->
  (zoom <= 1)%Q ->
  Z.land (kPostProcessTypeCopy T)
         (Z.lnot (NO_NEED_INTERNAL_BUFFER_PROCESS_TYPES T)) ≠ 0 ->
  ∃ p', prepare T CHROME_BOARD inf zoom [stream] p = Some (OK, true, p').
Proof.
  intros Hfmt Hw Hh Hrot Hzoom Hcopy.
  destruct (prepare_same_size inf zoom stream p Hfmt Hw Hh Hrot Hzoom)
    as [p' Hp'].
  exists p'. rewrite Hp'. apply Z.eqb_neq in Hcopy. by rewrite Hcopy.
Qed.

(** When [prepare] reports that no post-processing is needed, one of the
    stream types is among the types that need no internal buffer: the
    first stream always has a type by then. *)
Lemma prepare_false_needs_exempt_type (inf : FrameInfo) (zoom : Q)
    (streams : list camera3_stream_t) (p p' : t) (st : status_t) :
  prepare T CHROME_BOARD inf zoom streams p = Some (st, false, p') ->
  exclude_no_buffer T (kPostProcessTypeCopy T) = 0 ∨
  exclude_no_buffer T (kPostProcessTypeJpegEncoder T) = 0 ∨
  exclude_no_buffer T (kPostProcessTypeScaleAndRotation T) = 0.
Proof.
  unfold prepare. destruct streams as [|s rest]; [discriminate|].
  cbn [analyze_streams].
  destruct (analyze_stream T CHROME_BOARD inf zoom 0 s) as [ty c1] eqn:Ha.
  destruct (analyze_streams T CHROME_BOARD inf zoom rest c1) as [l c2].
  intros [= _ Hneed _]. apply orb_false_iff in Hneed as [Hc Hf].
  apply negb_false_iff in Hc. apply negb_false_iff, Z.eqb_eq in Hf.
  revert Hf. unfold add_copy. rewrite Hc. cbn [length map].
  replace ((1 <? Z.of_nat (S (length l))) ||
           (Z.of_nat (S (length l)) =? 1) && true) with true.
  2:{ symmetry. destruct (length l); [reflexivity|].
      apply orb_true_iff. left. apply Z.ltb_lt. lia. }
  assert (Hlor : ∀ a b, exclude_no_buffer T (Z.lor a b) = 0 ->
                        exclude_no_buffer T b = 0).
  { intros a b. unfold exclude_no_buffer.
    rewrite Z.land_lor_distr_l. intros H. by apply Z.lor_eq_0_iff in H as [_ ?]. }
  unfold analyze_stream in Ha. injection Ha as Hty _. subst ty.
  destruct (format s =? HAL_PIXEL_FORMAT_BLOB);
    destruct (negb (wrap32 (width s * height s) =?
                    wrap32 (fi_width inf * fi_height inf)));
    match goal with
    | |- context [if ?t =? 0 then _ else _] => destruct (t =? 0) eqn:E
    end; intros Hf; try (cbn in E; discriminate); eauto.
Qed.

End Builder.

End BuilderFacts.

(** ** The output buffers handler *)

Module HandlerFacts.

Import OutputBuffersHandler.

Lemma insert_all_lookup (r : nat) (out : list PostProcBuffer) :
  ∀ (m : gmap (option Z) nat) (k : option Z),
    fold_left (fun m o => <[cambuf_get o := r]> m) out m !! k =
    if bool_decide (k ∈ map cambuf_get out) then Some r else m !! k.
Proof.
  induction out as [|o out IH]; intros m k; cbn [fold_left map].
  - rewrite bool_decide_eq_false_2; [done | by intros ?%elem_of_nil].
  - rewrite IH. destruct (decide (k ∈ map cambuf_get out)) as [Hin|Hnin].
    + rewrite !bool_decide_eq_true_2; [done | by right | done].
    + rewrite (bool_decide_eq_false_2 _ Hnin).
      destruct (decide (cambuf_get o = k)) as [->|Hne].
      * rewrite lookup_insert_eq, bool_decide_eq_true_2; [done | by left].
      * rewrite lookup_insert_ne by done.
        rewrite bool_decide_eq_false_2; [done|].
        intros [?|?]%elem_of_cons; congruence.
Qed.

Section Facts.

Variable frame_listener_status : PostProcBuffer -> Z -> status_t.

(** While more deliveries are outstanding than are made, the group
    stays silent: the counter goes down, the entries of the delivered
    buffers leave the table, and the listener is not called. *)
Lemma deliveries_pending (r : nat) (bufs : list PostProcBuffer) :
  ∀ (ds : list Delivery) (h : t) (n : Z),
    mMayNeedSyncStreamsOutput h = true ->
    NoDup (map key ds) ->
    (∀ d, d ∈ ds -> mCamBufToSyncItemMap h !! key d = Some r) ->
    items h !! r = Some (mkSyncItem bufs n) ->
    Z.of_nat (length ds) < n ->
    ∃ h',
      deliveries frame_listener_status ds h = Some (h', []) ∧
      mMayNeedSyncStreamsOutput h' = true ∧
      items h' !! r = Some (mkSyncItem bufs (n - Z.of_nat (length ds))) ∧
      (∀ k, k ∉ map key ds ->
            mCamBufToSyncItemMap h' !! k = mCamBufToSyncItemMap h !! k) ∧
      (∀ k, k ∈ map key ds -> mCamBufToSyncItemMap h' !! k = None).
Proof.
  induction ds as [|[[b s] e] ds IH]; intros h n Hmay Hnd Hkeys Hit Hn.
  - exists h. cbn. rewrite Z.sub_0_r. repeat split; try done.
    intros k ?%elem_of_nil. done.
  - cbn [map] in Hnd. apply NoDup_cons in Hnd as [Hnotin Hnd].
    cbn [length] in Hn.
    assert (Hb : mCamBufToSyncItemMap h !! cambuf_get b = Some r).
    { apply (Hkeys (b, s, e)). by left. }
    cbn [deliveries]. unfold notifyNewFrame.
    rewrite Hmay. cbn [negb]. rewrite Hb, Hit. cbn [sync_nums sync_buffers].
    replace (n - 1 =? 0) with false by (symmetry; apply Z.eqb_neq; lia).
    set (h1 := mk _ _ _).
    destruct (IH h1 (n - 1)) as (h' & Hrun & Hmay' & Hit' & Hother & Hgone).
    + done.
    + done.
    + intros d Hd. subst h1. cbn [mCamBufToSyncItemMap].
      rewrite lookup_delete_ne.
      * apply Hkeys. by right.
      * intros Heq. apply Hnotin. unfold key at 1. cbn [delivered fst].
        rewrite Heq. apply list_elem_of_fmap. by exists d.
    + subst h1. cbn [items]. apply list_lookup_insert_eq.
      by apply lookup_lt_Some in Hit.
    + lia.
    + exists h'. rewrite Hrun. cbn [app]. split; [done|]. split; [done|].
      split; [rewrite Hit'; cbn [length]; do 2 f_equal; lia|]. split.
      * intros k Hk. rewrite Hother.
        -- subst h1. cbn [mCamBufToSyncItemMap]. apply lookup_delete_ne.
           intros <-. apply Hk. by left.
        -- intros Hin. apply Hk. by right.
      * intros k Hk. cbn [map] in Hk. apply elem_of_cons in Hk as [->|Hk].
        -- rewrite Hother by done. subst h1. cbn [mCamBufToSyncItemMap].
           apply lookup_delete_eq.
        -- by apply Hgone.
Qed.

Lemma notifyNewFrame_not_in_table (h : t) (buf : PostProcBuffer)
    (s : option ProcUnitSettings) (e : Z) :
  mCamBufToSyncItemMap h !! cambuf_get buf = None ->
  notifyNewFrame frame_listener_status buf s e h =
  Some (frame_listener_status buf e, h, [(buf, s, e)]).
Proof.
  intros Hk. unfold notifyNewFrame.
  destruct (mMayNeedSyncStreamsOutput h); cbn [negb]; [|done].
  by rewrite Hk.
Qed.

Lemma need_sync_true (k : Z) (out : list PostProcBuffer) :
  Some k ∈ map cambuf_get out ->
  existsb (fun o => bool_decide (cambuf_get o = Some k)) out = true.
Proof.
  intros Hin. apply list_elem_of_fmap in Hin as (o & Ho & Hin).
  apply existsb_exists. exists o. split.
  - by apply list_elem_of_In.
  - by apply bool_decide_eq_true_2.
Qed.

(** C1, for the aliasing the handler is built for.  A frame has at
    least two output buffers, on distinct camera buffers, one of which
    is the camera buffer of the input (which has a buffer handle), and
    the pipeline has more than one stream.  Then [addSyncBuffersIfNeed]
    makes one group for the frame; the terminal deliveries of all output
    buffers but one, in any order, call the frame listener not at all;
    the delivery of the remaining one calls it once for each output
    buffer, in the order of the output set; and afterwards no output
    buffer of the frame is in the table.  A delivery whose camera buffer
    is not in the table is passed to the frame listener at once. *)
Theorem sync_group_delivered_once (h : t) (inb : PostProcBuffer)
    (c : CameraBuffer) (out : list PostProcBuffer) (pre : list Delivery)
    (b : PostProcBuffer) (s : option ProcUnitSettings) (e : Z) :
  mMayNeedSyncStreamsOutput h = true ->
  (2 <= length out)%nat ->
  cambuf inb = Some c ->
  cb_hasHandle c = true ->
  Some (cb_addr c) ∈ map cambuf_get out ->
  NoDup (map cambuf_get out) ->
  Permutation (map delivered pre ++ [b]) out ->
  (∃ h1 h2 h3 st,
      addSyncBuffersIfNeed inb out h = Some h1 ∧
      deliveries frame_listener_status pre h1 = Some (h2, []) ∧
      notifyNewFrame frame_listener_status b s e h2 =
        Some (st, h3, map (fun o => (o, s, e)) out) ∧
      ∀ o, o ∈ out -> mCamBufToSyncItemMap h3 !! cambuf_get o = None) ∧
  (∀ (h0 : t) (buf : PostProcBuffer) (s0 : option ProcUnitSettings) (e0 : Z),
      mCamBufToSyncItemMap h0 !! cambuf_get buf = None ->
      notifyNewFrame frame_listener_status buf s0 e0 h0 =
        Some (frame_listener_status buf e0, h0, [(buf, s0, e0)])).
Proof.
  intros Hmay Hlen Hc Hhandle Halias Hnd Hperm.
  split; [|intros; by apply notifyNewFrame_not_in_table].
  set (r := length (items h)).
  set (h1 := mk true (items h ++ [mkSyncItem out (Z.of_nat (length out))])
                (fold_left (fun m o => <[cambuf_get o := r]> m) out
                           (mCamBufToSyncItemMap h))).
  assert (Hadd : addSyncBuffersIfNeed inb out h = Some h1).
  { unfold addSyncBuffersIfNeed. rewrite Hmay, Hc, Hhandle.
    replace (1 <? Z.of_nat (length out)) with true
      by (symmetry; apply Z.ltb_lt; lia).
    cbn [andb]. rewrite need_sync_true by done. done. }
  (* the keys of the deliveries are those of the output buffers *)
  assert (Hkeys : Permutation (map key pre ++ [cambuf_get b])
                              (map cambuf_get out)).
  { rewrite <- Hperm, map_app. cbn [map]. unfold key.
    by rewrite map_map. }
  assert (Hnd' : NoDup (map key pre ++ [cambuf_get b])).
  { by rewrite Hkeys. }
  apply NoDup_app in Hnd' as (Hndpre & Hdisj & _).
  assert (Hcount : (length pre + 1 = length out)%nat).
  { apply Permutation_length in Hperm.
    rewrite length_app, length_map in Hperm. cbn in Hperm. lia. }
  assert (Hlook : ∀ k, k ∈ map cambuf_get out ->
                       mCamBufToSyncItemMap h1 !! k = Some r).
  { intros k Hk. subst h1. cbn [mCamBufToSyncItemMap].
    rewrite insert_all_lookup. by rewrite bool_decide_eq_true_2. }
  destruct (deliveries_pending r out pre h1 (Z.of_nat (length out)))
    as (h2 & Hrun & Hmay2 & Hit2 & Hother & Hgone).
  { done. }
  { done. }
  { intros d Hd. apply Hlook. rewrite <- Hkeys.
    apply elem_of_app. left. apply list_elem_of_fmap. by exists d. }
  { subst h1 r. cbn [items]. by rewrite list_lookup_middle. }
  { lia. }
  assert (Hb : mCamBufToSyncItemMap h2 !! cambuf_get b = Some r).
  { rewrite Hother.
    - apply Hlook. rewrite <- Hkeys. apply elem_of_app. right. by left.
    - intros Hin. apply (Hdisj _ Hin). by left. }
  exists h1, h2. eexists. eexists.
  split; [exact Hadd|]. split; [exact Hrun|]. split.
  - unfold notifyNewFrame. rewrite Hmay2. cbn [negb].
    rewrite Hb, Hit2. cbn [sync_nums sync_buffers].
    replace (Z.of_nat (length out) - Z.of_nat (length pre) - 1 =? 0)
      with true by (symmetry; apply Z.eqb_eq; lia).
    unfold deliver_all. reflexivity.
  - intros o Ho. cbn [mCamBufToSyncItemMap].
    destruct (decide (cambuf_get b = cambuf_get o)) as [<-|Hne].
    + apply lookup_delete_eq.
    + rewrite lookup_delete_ne by done. apply Hgone.
      assert (Hin : cambuf_get o ∈ map key pre ++ [cambuf_get b]).
      { rewrite Hkeys. apply list_elem_of_fmap. by exists o. }
      apply elem_of_app in Hin as [Hin|Hin]; [done|].
      apply list_elem_of_singleton in Hin. congruence.
Qed.

End Facts.

End HandlerFacts.

(** ** The properties at concrete inputs *)

Module Examples.

Import Samples.

(** Three output buffers on the camera buffer of the input: the first
    delivery only erases the table entry, so the second and third
    deliveries go to the frame listener at once.  The listener hears of
    the second buffer when two of the three branches are done, and never
    of the first buffer. *)
Lemma aliased_outputs_not_synchronised :
  ∃ h1,
    OutputBuffersHandler.addSyncBuffersIfNeed (buf 7 0)
      [buf 7 1; buf 7 2; buf 7 3] idle_handler = Some h1 ∧
    snd <$> OutputBuffersHandler.deliveries listener_ok
              [(buf 7 1, None, 0); (buf 7 2, None, 0)] h1
      = Some [(buf 7 2, None, 0)] ∧
    snd <$> OutputBuffersHandler.deliveries listener_ok
              [(buf 7 1, None, 0); (buf 7 2, None, 0); (buf 7 3, None, 0)] h1
      = Some [(buf 7 2, None, 0); (buf 7 3, None, 0)].
Proof.
  eexists. split; [vm_compute; reflexivity|].
  split; vm_compute; reflexivity.
Qed.

(** Two output buffers, the first on the camera buffer of the input:
    the delivery of the second is held back, the delivery of the first
    releases both. *)
Lemma sync_group_delivered_once_example :
  OutputBuffersHandler.mMayNeedSyncStreamsOutput idle_handler = true ∧
  (2 <= length [buf 7 1; buf 8 2])%nat ∧
  cambuf (buf 7 0) = Some (cam 7) ∧
  cb_hasHandle (cam 7) = true ∧
  Some (cb_addr (cam 7)) ∈ map cambuf_get [buf 7 1; buf 8 2] ∧
  NoDup (map cambuf_get [buf 7 1; buf 8 2]) ∧
  Permutation (map OutputBuffersHandler.delivered [(buf 8 2, None, 0)] ++ [buf 7 1])
              [buf 7 1; buf 8 2] ∧
  ((∃ h1 h2 h3 st,
       OutputBuffersHandler.addSyncBuffersIfNeed (buf 7 0)
         [buf 7 1; buf 8 2] idle_handler = Some h1 ∧
       OutputBuffersHandler.deliveries listener_ok [(buf 8 2, None, 0)] h1
         = Some (h2, []) ∧
       OutputBuffersHandler.notifyNewFrame listener_ok (buf 7 1) None 0 h2 =
         Some (st, h3, map (fun o => (o, None, 0)) [buf 7 1; buf 8 2]) ∧
       ∀ o, o ∈ [buf 7 1; buf 8 2] ->
            OutputBuffersHandler.mCamBufToSyncItemMap h3 !! cambuf_get o = None) ∧
   (∀ h0 b0 s0 e0,
       OutputBuffersHandler.mCamBufToSyncItemMap h0 !! cambuf_get b0 = None ->
       OutputBuffersHandler.notifyNewFrame listener_ok b0 s0 e0 h0 =
         Some (listener_ok b0 e0, h0, [(b0, s0, e0)]))).
Proof.
  assert (H1 : OutputBuffersHandler.mMayNeedSyncStreamsOutput idle_handler
               = true) by reflexivity.
  assert (H2 : (2 <= length [buf 7 1; buf 8 2])%nat) by (simpl; lia).
  assert (H3 : cambuf (buf 7 0) = Some (cam 7)) by reflexivity.
  assert (H4 : cb_hasHandle (cam 7) = true) by reflexivity.
  assert (H5 : Some (cb_addr (cam 7)) ∈ map cambuf_get [buf 7 1; buf 8 2])
    by (simpl; left).
  assert (H6 : NoDup (map cambuf_get [buf 7 1; buf 8 2]))
    by (apply (bool_decide_unpack _); vm_compute; exact I).
  assert (H7 : Permutation
                 (map OutputBuffersHandler.delivered [(buf 8 2, None, 0)] ++ [buf 7 1])
                 [buf 7 1; buf 8 2]) by (simpl; apply perm_swap).
  exact (conj H1 (conj H2 (conj H3 (conj H4 (conj H5 (conj H6 (conj H7
           (HandlerFacts.sync_group_delivered_once listener_ok idle_handler
              (buf 7 0) (cam 7) [buf 7 1; buf 8 2] [(buf 8 2, None, 0)]
              (buf 7 1) None 0 H1 H2 H3 H4 H5 H6 H7)))))))).
Defined.

(** One 1080p stream from a 1080p input, no zoom. *)
Lemma prepare_same_size_no_postprocess_example :
  PostProcessPipeLine.format stream_1080p ≠
    PostProcessPipeLine.HAL_PIXEL_FORMAT_BLOB ∧
  PostProcessPipeLine.width stream_1080p = fi_width frame_1080p ∧
  PostProcessPipeLine.height stream_1080p = fi_height frame_1080p ∧
  PostProcessPipeLine.getRotationDegrees false stream_1080p = 0 ∧
  (1 <= 1)%Q ∧
  Z.land (PostProcessPipeLine.kPostProcessTypeCopy sample_types)
         (Z.lnot (PostProcessPipeLine.NO_NEED_INTERNAL_BUFFER_PROCESS_TYPES
                    sample_types)) = 0 ∧
  ∃ p', PostProcessPipeLine.prepare sample_types false frame_1080p 1
          [stream_1080p] PostProcessPipeLine.empty = Some (OK, false, p').
Proof.
  assert (H1 : PostProcessPipeLine.format stream_1080p ≠
               PostProcessPipeLine.HAL_PIXEL_FORMAT_BLOB)
    by (vm_compute; discriminate).
  assert (H2 : PostProcessPipeLine.width stream_1080p = fi_width frame_1080p)
    by reflexivity.
  assert (H3 : PostProcessPipeLine.height stream_1080p = fi_height frame_1080p)
    by reflexivity.
  assert (H4 : PostProcessPipeLine.getRotationDegrees false stream_1080p = 0)
    by reflexivity.
  assert (H5 : (1 <= 1)%Q) by (vm_compute; discriminate).
  assert (H6 : Z.land (PostProcessPipeLine.kPostProcessTypeCopy sample_types)
                 (Z.lnot (PostProcessPipeLine.NO_NEED_INTERNAL_BUFFER_PROCESS_TYPES
                            sample_types)) = 0) by reflexivity.
  exact (conj H1 (conj H2 (conj H3 (conj H4 (conj H5 (conj H6
           (BuilderFacts.prepare_same_size_no_postprocess sample_types false
              frame_1080p 1 stream_1080p PostProcessPipeLine.empty
              H1 H2 H3 H4 H5 H6))))))).
Defined.



(** In that pipeline the scale unit (unit 1) is the last of its chain
    and has the zoom unit (unit 0) as predecessor; it is in the last
    bucket. *)
Lemma scale_unit_is_last_with_predecessor :
  PostProcessPipeLine.last_of_chain zoom_scale_pipeline 1 ∧
  PostProcessPipeLine.has_predecessor zoom_scale_pipeline 1 ∧
  PostProcessPipeLine.count_in
    (PostProcessPipeLine.mLastLevel zoom_scale_pipeline) 1 = 1%nat.
Proof.
  split; [|split; [|reflexivity]].
  - eexists. split; [vm_compute; reflexivity|]. cbn. by left.
  - exists 0%nat. eexists. split; [vm_compute; reflexivity|]. cbn. by left.
Qed.

(** C4 as stated fails: an External unit whose destination slot still
    holds [buf 3 30] dequeues its input and keeps that destination; the
    oldest external buffer [buf 2 20] stays in the queue. *)
Lemma retained_output_not_by_regime :
  let u := external_unit (Some (PostProcessUnit.Ext (buf 3 30))) in
  let u' := PostProcessUnit.set_inq []
              (PostProcessUnit.set_cur_settings None
                 (PostProcessUnit.set_cur_in
                    (Some (PostProcessUnit.Ext (buf 1 10))) u)) in
  PostProcessUnit.mThreadRunning u = true ∧
  PostProcessUnit.mInBufferPool u =
    [(Some (PostProcessUnit.Ext (buf 1 10)), None)] ∧
  PostProcessUnit.prepareProcess u = PostProcessUnit.Returns u' ∧
  PostProcessUnit.mCurPostProcBufOut u' =
    Some (PostProcessUnit.Ext (buf 3 30)) ∧
  PostProcessUnit.mOutBufferPool u' = [Some (PostProcessUnit.Ext (buf 2 20))] ∧
  ¬ PostProcessUnit.obtained_by_regime u u'
      (Some (PostProcessUnit.Ext (buf 1 10))).
Proof.
  cbv zeta. repeat (split; [reflexivity|]).
  unfold PostProcessUnit.obtained_by_regime. cbn.
  intros [[H _] _]. discriminate H.
Qed.

Lemma prepareProcess_by_regime_example :
  let u := external_unit None in
  PostProcessUnit.mThreadRunning u = true ∧
  PostProcessUnit.mInBufferPool u =
    [(Some (PostProcessUnit.Ext (buf 1 10)), None)] ∧
  PostProcessUnit.mCurPostProcBufOut u = None ∧
  - EAGAIN ≠ OK ∧
  ∃ u',
    PostProcessUnit.prepareProcess u = PostProcessUnit.Returns u' ∧
    PostProcessUnit.mInBufferPool u' = [] ∧
    PostProcessUnit.obtained_by_regime u u'
      (Some (PostProcessUnit.Ext (buf 1 10))) ∧
    (is_Some (PostProcessUnit.mCurPostProcBufOut u') ->
     PostProcessUnit.mCurPostProcBufIn u' =
       Some (PostProcessUnit.Ext (buf 1 10)) ∧
     PostProcessUnit.mCurProcSettings u' = None) ∧
    (PostProcessUnit.mCurPostProcBufOut u' = None ->
     PostProcessUnit.mCurPostProcBufIn u' = None ∧
     PostProcessUnit.mCurProcSettings u' = None ∧
     PostProcessUnit.doProcess (- EAGAIN) (fun _ _ _ => OK)
       (fun _ _ _ => false) (fun _ => None) (fun _ _ _ => OK) 1 u =
     PostProcessUnit.ProcReturns OK u' []).
Proof.
  cbv zeta.
  assert (H1 : PostProcessUnit.mThreadRunning (external_unit None) = true)
    by reflexivity.
  assert (H2 : PostProcessUnit.mInBufferPool (external_unit None) =
               [(Some (PostProcessUnit.Ext (buf 1 10)), None)])
    by reflexivity.
  assert (H3 : PostProcessUnit.mCurPostProcBufOut (external_unit None) = None)
    by reflexivity.
  assert (H4 : - EAGAIN ≠ OK) by (vm_compute; discriminate).
  exact (conj H1 (conj H2 (conj H3 (conj H4
           (UnitFacts.prepareProcess_by_regime (- EAGAIN) (fun _ _ _ => OK)
              (fun _ _ _ => false) (fun _ => None) (fun _ _ _ => OK)
              (external_unit None)
              (Some (PostProcessUnit.Ext (buf 1 10))) None [] 0
              H1 H2 H3 H4))))).
Defined.

Lemma addOutputBuffer_external_only_example :
  let u := external_unit None in
  let b := Some (PostProcessUnit.Ext (buf 5 50)) in
  (PostProcessUnit.mBufType u ≠ PostProcessUnit.kPostProcBufTypeExt ->
   PostProcessUnit.addOutputBuffer b u = (UNKNOWN_ERROR, u)) ∧
  (PostProcessUnit.mBufType u = PostProcessUnit.kPostProcBufTypeExt ->
   PostProcessUnit.addOutputBuffer b u =
     (OK, PostProcessUnit.mk
            (PostProcessUnit.mInternalBufPool u) (PostProcessUnit.mBufType u)
            (PostProcessUnit.mEnable u) (PostProcessUnit.mSyncProcess u)
            (PostProcessUnit.mThreadRunning u)
            (PostProcessUnit.mProcessUnitType u)
            (PostProcessUnit.mInBufferPool u)
            (PostProcessUnit.mOutBufferPool u ++ [b])
            (PostProcessUnit.mCurPostProcBufIn u)
            (PostProcessUnit.mCurProcSettings u)
            (PostProcessUnit.mCurPostProcBufOut u)
            (PostProcessUnit.mListeners u))) ∧
  UNKNOWN_ERROR ≠ OK.
Proof.
  exact (UnitFacts.addOutputBuffer_external_only (external_unit None)
           (Some (PostProcessUnit.Ext (buf 5 50)))).
Defined.

Lemma start_stop_idempotent_example :
  let u := external_unit None in
  (PostProcessUnit.mThreadRunning u = true ->
   PostProcessUnit.start OK u = (OK, u, [])) ∧
  (PostProcessUnit.mThreadRunning u = false ->
   PostProcessUnit.stop OK u = (OK, u, [])) ∧
  (let u1 := (PostProcessUnit.start OK u).1.2 in
   PostProcessUnit.start OK u1 = (OK, u1, [])) ∧
  (let u1 := (PostProcessUnit.stop OK u).1.2 in
   PostProcessUnit.stop OK u1 = (OK, u1, [])).
Proof.
  exact (UnitFacts.start_stop_idempotent OK OK (external_unit None)).
Defined.

Lemma need_next_input_keeps_output_example :
  let u := busy_unit in
  let kernel : PostProcessUnit.BufRef -> PostProcessUnit.BufRef ->
               option ProcUnitSettings -> status_t := fun _ _ _ => - EAGAIN in
  let u1 := PostProcessUnit.set_cur_settings None
              (PostProcessUnit.set_cur_in None u) in
  let u2 := PostProcessUnit.set_inq []
              (PostProcessUnit.set_cur_settings None
                 (PostProcessUnit.set_cur_in
                    (Some (PostProcessUnit.Ext (buf 4 40))) u1)) in
  PostProcessUnit.mCurPostProcBufIn u = Some (PostProcessUnit.Ext (buf 1 10)) ∧
  PostProcessUnit.mCurPostProcBufOut u = Some (PostProcessUnit.Ext (buf 3 30)) ∧
  kernel (PostProcessUnit.Ext (buf 1 10)) (PostProcessUnit.Ext (buf 3 30))
         (PostProcessUnit.mCurProcSettings u) = - EAGAIN ∧
  PostProcessUnit.mThreadRunning u = true ∧
  PostProcessUnit.mInBufferPool u =
    [(Some (PostProcessUnit.Ext (buf 4 40)), None)] ∧
  PostProcessUnit.process_prepared (- EAGAIN) (fun _ _ _ => OK)
    (fun _ _ _ => false) kernel OK u = (- EAGAIN, u1, []) ∧
  PostProcessUnit.mCurPostProcBufOut u1 =
    Some (PostProcessUnit.Ext (buf 3 30)) ∧
  PostProcessUnit.mCurPostProcBufIn u1 = None ∧
  PostProcessUnit.mCurProcSettings u1 = None ∧
  PostProcessUnit.prepareProcess u1 = PostProcessUnit.Returns u2 ∧
  PostProcessUnit.mCurPostProcBufOut u2 =
    Some (PostProcessUnit.Ext (buf 3 30)) ∧
  PostProcessUnit.mInternalBufPool u2 = PostProcessUnit.mInternalBufPool u ∧
  PostProcessUnit.mOutBufferPool u2 = PostProcessUnit.mOutBufferPool u.
Proof.
  cbv zeta.
  assert (H1 : PostProcessUnit.mCurPostProcBufIn busy_unit =
               Some (PostProcessUnit.Ext (buf 1 10))) by reflexivity.
  assert (H2 : PostProcessUnit.mCurPostProcBufOut busy_unit =
               Some (PostProcessUnit.Ext (buf 3 30))) by reflexivity.
  assert (H3 : (fun _ _ _ => - EAGAIN)
                 (PostProcessUnit.Ext (buf 1 10))
                 (PostProcessUnit.Ext (buf 3 30))
                 (PostProcessUnit.mCurProcSettings busy_unit) = - EAGAIN)
    by reflexivity.
  assert (H4 : PostProcessUnit.mThreadRunning busy_unit = true)
    by reflexivity.
  assert (H5 : PostProcessUnit.mInBufferPool busy_unit =
               [(Some (PostProcessUnit.Ext (buf 4 40)), None)])
    by reflexivity.
  exact (conj H1 (conj H2 (conj H3 (conj H4 (conj H5
           (UnitFacts.need_next_input_keeps_output (- EAGAIN)
              (fun _ _ _ => OK) (fun _ _ _ => false)
              (fun _ _ _ => - EAGAIN) busy_unit
              (PostProcessUnit.Ext (buf 1 10)) (PostProcessUnit.Ext (buf 3 30))
              OK (Some (PostProcessUnit.Ext (buf 4 40))) None []
              H1 H2 H3 H4 H5)))))).
Defined.

(** A zoomed frame on two NV12 buffers: the format check fails and the
    kernel reports an unsupported format. *)
Lemma checkFmt_rejects_supported_example :
  let i := cam 1 in
  let o := cam 2 in
  cambuf (buf 1 10) = Some i ∧
  cambuf (buf 2 20) = Some o ∧
  PostProcessUnitDigitalZoom.same_window (cropRegion zoomed_settings)
    active_pixel_array = false ∧
  (PostProcessUnitDigitalZoom.checkFmt (Some i) (Some o) = true ↔
   (¬ PostProcessUnitDigitalZoom.hal_nv12_or_nv21 i ∨
    ¬ PostProcessUnitDigitalZoom.hal_nv12_or_nv21 o) ∨
   (¬ PostProcessUnitDigitalZoom.v4l2_nv12_or_nv21 i ∨
    ¬ PostProcessUnitDigitalZoom.v4l2_nv12_or_nv21 o)) ∧
  (fst <$> PostProcessUnitDigitalZoom.processFrame active_pixel_array false
             (buf 1 10) (buf 2 20) zoomed_settings = Some UNKNOWN_ERROR ↔
   PostProcessUnitDigitalZoom.hal_nv12_or_nv21 i ∧
   PostProcessUnitDigitalZoom.hal_nv12_or_nv21 o ∧
   PostProcessUnitDigitalZoom.v4l2_nv12_or_nv21 i ∧
   PostProcessUnitDigitalZoom.v4l2_nv12_or_nv21 o).
Proof.
  cbv zeta.
  assert (H1 : cambuf (buf 1 10) = Some (cam 1)) by reflexivity.
  assert (H2 : cambuf (buf 2 20) = Some (cam 2)) by reflexivity.
  assert (H3 : PostProcessUnitDigitalZoom.same_window
                 (cropRegion zoomed_settings) active_pixel_array = false)
    by reflexivity.
  exact (conj H1 (conj H2 (conj H3
           (DigitalZoomFacts.checkFmt_rejects_supported active_pixel_array
              false (buf 1 10) (buf 2 20) zoomed_settings (cam 1) (cam 2)
              H1 H2 H3)))).
Defined.

(** The kernel on these buffers, evaluated. *)
Lemma zoom_on_nv12_is_rejected :
  PostProcessUnitDigitalZoom.processFrame active_pixel_array false
    (buf 1 10) (buf 2 20) zoomed_settings
  = Some (UNKNOWN_ERROR, PostProcessUnitDigitalZoom.UnsupportedFormat).
Proof. reflexivity. Qed.

(** The block sizes for 1920x1080 and for 1296x972. *)
Lemma lsc_sizes_1080p :
  PostProcessUnitSwLsc.lsc_config_sizes 1 1920 1080 =
  Some ([120; 120; 120; 120; 120; 120; 120; 120],
        [67; 68; 67; 68; 67; 68; 67; 72], 0%nat).
Proof. reflexivity. Qed.

Lemma lsc_sizes_1296x972 :
  PostProcessUnitSwLsc.lsc_config_sizes 1 1296 972 =
  Some ([120; 120; 120; 120; 120; 120; 120; 120],
        [67; 68; 67; 68; 67; 68; 67; 74], 0%nat).
Proof. reflexivity. Qed.

(** A pool of four items. *)
Lemma pool_of_four :
  let '(st, bp) := PostProcBufferPools.createBufferPools true 4 in
  st = OK ∧
  map (PostProcBufferPools.slot_index bp) (seq 0 4) =
    [Some 0; Some 1; Some 2; Some 3] ∧
  PostProcBufferPools.acquire_many 6 bp =
    [Some 0%nat; Some 1%nat; Some 2%nat; Some 3%nat; None; None].
Proof. vm_compute. repeat split; reflexivity. Qed.

End Examples.

(** * Further properties *)

(** ** The unit: listeners, flush, the worker loop, prepare and stop *)

Module UnitMoreFacts.

Import PostProcessUnit WorkerThread.

Section Facts.

Variable STATUS_NEED_NEXT_INPUT_FRAME : status_t.
Variable listener_status : nat -> option BufRef -> Z -> status_t.
Variable listener_keeps : nat -> option BufRef -> Z -> bool.
Variable woken : t -> option t.
Variable thread_run_status : status_t.
Variable thread_exit_status : status_t.
Variable processFrame : BufRef -> BufRef -> option ProcUnitSettings -> status_t.

Lemma notifyListeners_events (u : t) (buf : option BufRef)
    (s : option ProcUnitSettings) (err : Z) :
  (notifyListeners listener_status u buf s err).2 =
  notifications (mListeners u) buf s err.
Proof. reflexivity. Qed.

(** X1. Listeners are notified in the order they were attached, each once
    per attachment: after [attachListener l] a notification reaches the
    listeners attached before and then [l], and the returned status is the
    bitwise or of what the old listeners and [l] return.  No listener
    means status [OK] and no call. *)
Theorem attachListener_then_notify (u : t) (l : nat) (buf : option BufRef)
    (s : option ProcUnitSettings) (err : Z) :
  let u' := (attachListener l u).2 in
  (attachListener l u).1 = OK ∧
  mListeners u' = mListeners u ++ [l] ∧
  (notifyListeners listener_status u' buf s err).2 =
    (notifyListeners listener_status u buf s err).2 ++ [EvNotify l buf s err] ∧
  (notifyListeners listener_status u' buf s err).1 =
    Z.lor (notifyListeners listener_status u buf s err).1
          (listener_status l buf err) ∧
  (mListeners u = [] ->
   notifyListeners listener_status u buf s err = (OK, [])).
Proof.
  cbn. split; [done|]. split; [done|]. split; [by rewrite map_app|].
  split; [by rewrite fold_left_app|].
  intros H. unfold notifyListeners. by rewrite H.
Qed.

Lemma flush_events_length (L : list nat) (q : list (option BufRef)) :
  length (concat (map (fun b => notifications L b None (-1)) q)) =
  (length q * length L)%nat.
Proof.
  induction q as [|b q IH]; [done|].
  cbn [map concat length]. rewrite length_app, IH.
  unfold notifications. rewrite length_map. lia.
Qed.

Lemma reset_cur_out_fields (copies : bool) (u : t) :
  let u1 := reset_cur_out copies u in
  mCurPostProcBufOut u1 = None ∧
  mInBufferPool u1 = mInBufferPool u ∧ mOutBufferPool u1 = mOutBufferPool u ∧
  mCurPostProcBufIn u1 = mCurPostProcBufIn u ∧
  mCurProcSettings u1 = mCurProcSettings u ∧
  mThreadRunning u1 = mThreadRunning u ∧ mBufType u1 = mBufType u ∧
  mEnable u1 = mEnable u ∧ mSyncProcess u1 = mSyncProcess u ∧
  mListeners u1 = mListeners u.
Proof.
  unfold reset_cur_out.
  destruct (mCurPostProcBufOut u) as [[s|b]|]; try done.
  by destruct copies.
Qed.

(** X2. [flush] empties both queues and the three current slots, and
    leaves the running flag, the regime, the enabled and synchronous flags
    and the listeners alone.  It calls every listener once for every
    queued output buffer, with null settings and error -1, oldest buffer
    first; queued inputs and the buffers in the current slots are dropped
    without a call.  An item of the pool that the destination slot held
    goes back to the pool, behind the items that are there, and can be
    acquired again; without such an item the pool is as before.  A second
    [flush] finds nothing to do. *)
Theorem flush_notifies_queued_outputs (u : t) :
  let r := flush listener_status u in
  let u1 := r.1.2 in
  let p := PostProcBufferPools.mPostProcItemsPool (mInternalBufPool u) in
  let p1 := PostProcBufferPools.mPostProcItemsPool (mInternalBufPool u1) in
  r.1.1 = OK ∧
  mInBufferPool u1 = [] ∧ mOutBufferPool u1 = [] ∧
  mCurPostProcBufIn u1 = None ∧ mCurProcSettings u1 = None ∧
  mCurPostProcBufOut u1 = None ∧
  mThreadRunning u1 = mThreadRunning u ∧ mBufType u1 = mBufType u ∧
  mEnable u1 = mEnable u ∧ mSyncProcess u1 = mSyncProcess u ∧
  mListeners u1 = mListeners u ∧
  PostProcBufferPools.mBufferPoolSize (mInternalBufPool u1) =
    PostProcBufferPools.mBufferPoolSize (mInternalBufPool u) ∧
  SharedItemPool.slots p1 = SharedItemPool.slots p ∧
  SharedItemPool.available p1 =
    SharedItemPool.available p ++
    match mCurPostProcBufOut u with
    | Some (Item s) => [s]
    | _ => []
    end ∧
  (∀ s, mCurPostProcBufOut u = Some (Item s) ->
        SharedItemPool.available p = [] ->
        (PostProcBufferPools.acquireItem (mInternalBufPool u)).1 = None ∧
        (PostProcBufferPools.acquireItem (mInternalBufPool u1)).1 = Some s) ∧
  ((∀ s, mCurPostProcBufOut u ≠ Some (Item s)) ->
   mInternalBufPool u1 = mInternalBufPool u) ∧
  r.2 = concat (map (fun b => notifications (mListeners u) b None (-1))
                    (mOutBufferPool u)) ∧
  length r.2 = (length (mOutBufferPool u) * length (mListeners u))%nat ∧
  flush listener_status u1 = (OK, u1, []).
Proof.
  destruct u as [[size [sl av]] bt en sy run ty inq outq cin cs cout ls].
  destruct cout as [[s|b]|]; cbn.
  - repeat split; try done.
    + by subst av.
    + simplify_eq. done.
    + intros H. by destruct (H s).
    + exact (flush_events_length ls outq).
  - rewrite app_nil_r. repeat split; try done. exact (flush_events_length ls outq).
  - rewrite app_nil_r. repeat split; try done. exact (flush_events_length ls outq).
Qed.

(** *** The wait of [prepareProcess] *)

Lemma prepareProcess_waits (u : t) :
  mThreadRunning u = true -> mInBufferPool u = [] -> prepareProcess u = Waits.
Proof. intros Hrun Hq. unfold prepareProcess. by rewrite Hrun, Hq. Qed.

Lemma prepareProcess_no_wait (u : t) :
  mInBufferPool u ≠ [] -> prepareProcess u = prepareProcess_resume u.
Proof.
  intros Hq. unfold prepareProcess.
  rewrite (bool_decide_eq_false_2 _ Hq). by rewrite andb_false_r.
Qed.

Lemma prepareProcess_resume_not_waits (u : t) :
  prepareProcess_resume u ≠ Waits.
Proof.
  unfold prepareProcess_resume.
  destruct (mThreadRunning u); cbn [negb]; [|done].
  destruct (mInBufferPool u) as [|[b s] rest]; [done|].
  destruct (mCurPostProcBufOut _); [done|].
  by destruct (mCurPostProcBufOut _).
Qed.

Lemma doProcess_woken (u u' : t) (fuel : nat) :
  mThreadRunning u = true -> mInBufferPool u = [] -> woken u = Some u' ->
  (mThreadRunning u' = true -> mInBufferPool u' = [] ->
   doProcess STATUS_NEED_NEXT_INPUT_FRAME listener_status listener_keeps
             woken processFrame (S fuel) u = ProcUndefined) ∧
  (mInBufferPool u' ≠ [] ->
   doProcess STATUS_NEED_NEXT_INPUT_FRAME listener_status listener_keeps
             woken processFrame (S fuel) u =
   doProcess STATUS_NEED_NEXT_INPUT_FRAME listener_status listener_keeps
             woken processFrame (S fuel) u') ∧
  (mThreadRunning u' = false -> mCurPostProcBufIn u' = None ->
   doProcess STATUS_NEED_NEXT_INPUT_FRAME listener_status listener_keeps
             woken processFrame (S fuel) u = ProcReturns OK u' []).
Proof.
  intros Hrun Hq Hw.
  assert (Hprep : prepareProcess_woken woken u = prepareProcess_resume u').
  { unfold prepareProcess_woken.
    by rewrite (prepareProcess_waits u Hrun Hq), Hw. }
  unfold doProcess. cbn [doProcess_loop]. rewrite Hprep.
  split; [|split].
  - intros Hrun' Hq'. unfold prepareProcess_resume. by rewrite Hrun', Hq'.
  - intros Hq'. unfold prepareProcess_woken.
    rewrite (prepareProcess_no_wait u' Hq').
    pose proof (prepareProcess_resume_not_waits u') as Hnw.
    by destruct (prepareProcess_resume u').
  - intros Hrun' Hin'. unfold prepareProcess_resume. rewrite Hrun'.
    cbn [negb]. unfold process_prepared. rewrite Hin', Hrun'. done.
Qed.

(** X3. What [doProcess] does when its wait is over.  [prepareProcess]
    looks at the input queue once, before the wait, and takes the first
    element of the queue after it.  A thread that waited on an empty
    queue and finds the unit running with the queue still empty reads the
    first element of an empty vector: so it goes after a wake-up that
    nothing caused, and after a push that is followed by a [flush] before
    the thread has the lock again.  With a frame in the queue the thread
    goes on as a call that did not have to wait, and after a [stop] it
    returns [OK] without a call to anybody. *)
Theorem doProcess_after_wait (u u' : t) (fuel : nat) :
  mThreadRunning u = true ->
  mInBufferPool u = [] ->
  woken u = Some u' ->
  let run :=
    doProcess STATUS_NEED_NEXT_INPUT_FRAME listener_status listener_keeps
              woken processFrame (S fuel) in
  (mThreadRunning u' = true -> mInBufferPool u' = [] ->
   run u = ProcUndefined) ∧
  (u' = u -> run u = ProcUndefined) ∧
  (∀ buf s err fuel' u1 e1,
     mEnable u = true -> mSyncProcess u = false ->
     notifyNewFrame STATUS_NEED_NEXT_INPUT_FRAME listener_status
                    listener_keeps woken processFrame fuel' buf s err u =
       ProcReturns OK u1 e1 ->
     mInBufferPool u1 = [(buf, s)] ∧
     (u' = u1 -> run u = run u1) ∧
     (u' = (flush listener_status u1).1.2 -> run u = ProcUndefined)) ∧
  (mInBufferPool u' ≠ [] -> run u = run u') ∧
  (mCurPostProcBufIn u = None ->
   u' = (stop thread_exit_status u).1.2 -> run u = ProcReturns OK u' []).
Proof.
  intros Hrun Hq Hw run.
  destruct (doProcess_woken u u' fuel Hrun Hq Hw) as (Hundef & Hgo & Hstop).
  split; [exact Hundef|]. split.
  { intros ->. by apply Hundef. }
  split.
  { intros buf s err fuel' u1 e1 Hen Hsy. unfold notifyNewFrame.
    rewrite Hrun, Hen, Hsy, Hq. cbn [negb app]. intros [= <- _].
    split; [done|]. split.
    - intros ->. by apply Hgo.
    - intros ->. apply Hundef.
      + pose proof (reset_cur_out_fields false
                      (set_cur_settings None
                         (set_cur_in None
                            (set_outq [] (set_inq [] (set_inq [(buf, s)] u))))))
          as (_ & _ & _ & _ & _ & Hr & _).
        cbn [flush fst snd]. rewrite Hr. exact Hrun.
      + pose proof (reset_cur_out_fields false
                      (set_cur_settings None
                         (set_cur_in None
                            (set_outq [] (set_inq [] (set_inq [(buf, s)] u))))))
          as (_ & Hr & _).
        cbn [flush fst snd]. rewrite Hr. done. }
  split; [exact Hgo|].
  intros Hin ->. apply Hstop.
  - unfold stop. by rewrite Hrun.
  - unfold stop. by rewrite Hrun.
Qed.

(** *** The worker thread *)

Lemma cycle_step {A : Type} (ds : list A) (k : nat) (d : A) :
  ds !! k = Some d ->
  drop k ds ++ take k ds = d :: (drop (S k) ds ++ take k ds) ∧
  (drop (S k) ds ++ take k ds) ++ [d] =
  drop (S k mod length ds) ds ++ take (S k mod length ds) ds.
Proof.
  intros Hk. pose proof (lookup_lt_Some _ _ _ Hk) as Hlt. split.
  - by rewrite (drop_S _ _ _ Hk).
  - rewrite <- app_assoc, <- (take_S_r _ _ _ Hk).
    destruct (decide (S k = length ds)) as [Heq|Hne].
    + rewrite Heq, Nat.Div0.mod_same, drop_all, firstn_all, drop_0, take_0.
      by rewrite app_nil_r.
    + by rewrite Nat.mod_small by lia.
Qed.

Lemma served_nil
    (recycle : BufRef -> Z -> bool) (L : list nat)
    (q : list (BufRef * option ProcUnitSettings)) :
  served processFrame recycle L q [] = ([], []).
Proof. induction q as [|[b s] q IH]; [done | exact IH]. Qed.

(** A supply that gets nothing back is used up from the front. *)
Lemma served_without_recycling (recycle : BufRef -> Z -> bool) (L : list nat)
    (q : list (BufRef * option ProcUnitSettings)) :
  (∀ d e, recycle d e = false) ->
  ∀ ds, served processFrame recycle L q ds =
        (paired_notifications processFrame L q ds, drop (length q) ds).
Proof.
  intros Hno. induction q as [|[b s] q IH]; intros ds; [done|].
  destruct ds as [|d ds]; cbn [served paired_notifications length drop].
  - by rewrite served_nil.
  - by rewrite Hno, IH.
Qed.

(** A supply that gets everything back goes round. *)
Lemma served_with_recycling (recycle : BufRef -> Z -> bool) (L : list nat)
    (ds : list BufRef) (q : list (BufRef * option ProcUnitSettings)) :
  (∀ d e, recycle d e = true) ->
  ∀ k, (k < length ds)%nat ->
    served processFrame recycle L q (drop k ds ++ take k ds) =
    (concat
       (imap (fun i '(b, s) =>
                match ds !! ((k + i) mod length ds)%nat with
                | Some d =>
                    notifications L (Some d) s (processFrame b d s)
                | None => []
                end) q),
     drop ((k + length q) mod length ds) ds ++
     take ((k + length q) mod length ds) ds).
Proof.
  intros Hall. induction q as [|[b s] q IH]; intros k Hk.
  - cbn. by rewrite Nat.add_0_r, Nat.mod_small.
  - destruct (lookup_lt_is_Some_2 ds k Hk) as [d Hd].
    destruct (cycle_step ds k d Hd) as [Hhead Htail].
    rewrite Hhead. cbn [served]. rewrite Hall, Htail.
    rewrite IH by (apply Nat.mod_upper_bound; lia).
    cbn [imap concat fst snd length].
    rewrite Nat.add_0_r, (Nat.mod_small k) by done. rewrite Hd.
    f_equal.
    + f_equal. f_equal. apply imap_ext. intros i [b' s'] _. cbn.
      by rewrite Nat.Div0.add_mod_idemp_l, Nat.add_succ_comm.
    + by rewrite Nat.Div0.add_mod_idemp_l, Nat.add_succ_comm.
Qed.

Hypothesis need_next_is_not_ok : STATUS_NEED_NEXT_INPUT_FRAME ≠ OK.
Hypothesis kernel_never_asks_next :
  ∀ b d s, processFrame b d s ≠ STATUS_NEED_NEXT_INPUT_FRAME.
Hypothesis listeners_return_ok : ∀ l b e, listener_status l b e = OK.
Hypothesis nobody_wakes : ∀ v, woken v = None.

Lemma notifyListeners_ok (u : t) (buf : option BufRef)
    (s : option ProcUnitSettings) (err : Z) :
  (notifyListeners listener_status u buf s err).1 = OK.
Proof.
  unfold notifyListeners. cbn [fst].
  induction (mListeners u) as [|l L IH] using rev_ind; [done|].
  by rewrite fold_left_app, IH; cbn; rewrite listeners_return_ok.
Qed.

(** One call of [doProcess] on a ready unit: the oldest input meets the
    oldest destination, or is dropped when there is none. *)
Lemma doProcess_ready_step (L : list nat) (b : BufRef)
    (s : option ProcUnitSettings) (q : list (BufRef * option ProcUnitSettings))
    (ds : list BufRef) (u : t) (fuel : nat) :
  ready u L ((b, s) :: q) ds ->
  ∃ st u',
    doProcess STATUS_NEED_NEXT_INPUT_FRAME listener_status listener_keeps
              woken processFrame (S fuel) u =
      ProcReturns st u'
        (match ds with
         | d :: _ => notifications L (Some d) s (processFrame b d s)
         | [] => []
         end) ∧
    ready u' L q
      (match ds with
       | d :: ds' =>
           if recycled listener_keeps (mBufType u) L d (processFrame b d s)
           then ds' ++ [d] else ds'
       | [] => []
       end) ∧
    mBufType u' = mBufType u.
Proof.
  intros (Hrun & HL & Hout & Hq & Hsup).
  assert (Hok : (OK =? STATUS_NEED_NEXT_INPUT_FRAME) = false)
    by (apply Z.eqb_neq; congruence).
  cbn [map] in Hq.
  set (u1 := set_inq (map (fun '(b, s) => (Some b, s)) q)
               (set_cur_settings s (set_cur_in (Some b) u))).
  assert (Hprep : prepareProcess_woken woken u =
                  match mCurPostProcBufOut (obtain_output u1) with
                  | Some _ => Returns (obtain_output u1)
                  | None =>
                      Returns (set_cur_settings None
                                 (set_cur_in None (obtain_output u1)))
                  end).
  { unfold prepareProcess_woken.
    rewrite prepareProcess_no_wait by (by rewrite Hq).
    unfold prepareProcess_resume. rewrite Hrun, Hq. cbn [negb].
    fold u1. assert (mCurPostProcBufOut u1 = None) as -> by exact Hout.
    by destruct (mCurPostProcBufOut (obtain_output u1)). }
  unfold doProcess. cbn [doProcess_loop]. rewrite Hprep. clear Hprep.
  assert (Hdone : ∀ (st : status_t) (v : t) (evs : list Event),
            mThreadRunning v = true -> st = OK ->
            (if mThreadRunning v && (st =? STATUS_NEED_NEXT_INPUT_FRAME)
             then doProcess_loop STATUS_NEED_NEXT_INPUT_FRAME listener_status
                    listener_keeps woken processFrame fuel st v ([] ++ evs)
             else ProcReturns st v ([] ++ evs)) = ProcReturns OK v evs).
  { intros st v evs Hv ->. by rewrite Hv, Hok. }
  assert (Hrelay : ∀ (d : BufRef) (v : t),
            mCurPostProcBufIn v = Some b -> mCurPostProcBufOut v = Some d ->
            mCurProcSettings v = s -> mListeners v = L ->
            process_prepared STATUS_NEED_NEXT_INPUT_FRAME listener_status
                             listener_keeps processFrame OK v =
            (OK,
             set_cur_settings None
               (set_cur_in None
                  (reset_cur_out
                     (existsb (fun l => listener_keeps l (Some d)
                                          (processFrame b d s)) L) v)),
             notifications L (Some d) s (processFrame b d s))).
  { intros d v Hin Ho Hs HLv. unfold process_prepared. rewrite Hin, Ho, Hs.
    unfold relayToNextProcUnit.
    pose proof (kernel_never_asks_next b d s) as Hk.
    apply Z.eqb_neq in Hk. rewrite Hk.
    pose proof (notifyListeners_ok v (mCurPostProcBufOut v)
                  (mCurProcSettings v) (processFrame b d s)) as Hst.
    unfold notifyListeners in *. cbn [fst] in Hst. rewrite Hst.
    unfold kept_by_listeners. by rewrite Ho, Hs, HLv. }
  destruct Hsup as [[Hbt Hsup]|[Hbt Hsup]].
  - (* External *)
    assert (Hob : obtain_output u1 =
                  match ds with
                  | [] => u1
                  | d :: ds' => set_outq (map Some ds') (set_cur_out (Some d) u1)
                  end).
    { unfold obtain_output. cbn [mBufType u1 set_inq set_cur_settings
                                 set_cur_in mOutBufferPool].
      rewrite Hbt, Hsup. by destruct ds. }
    rewrite Hob. clear Hob. destruct ds as [|d ds].
    + assert (mCurPostProcBufOut u1 = None) as -> by exact Hout.
      unfold process_prepared.
      cbn [mCurPostProcBufIn mCurPostProcBufOut set_cur_settings set_cur_in].
      rewrite (Hdone OK (set_cur_settings None (set_cur_in None u1)) []
                 Hrun eq_refl).
      eexists _, _. split; [reflexivity|]. split; [|done].
      split; [done|]. split; [done|]. split; [done|]. split; [done|].
      left. by split.
    + cbn [mCurPostProcBufOut set_outq set_cur_out].
      rewrite (Hrelay d (set_outq (map Some ds) (set_cur_out (Some d) u1))
                 eq_refl eq_refl eq_refl HL).
      cbv beta iota.
      pose proof (reset_cur_out_fields
                    (existsb (fun l => listener_keeps l (Some d)
                                         (processFrame b d s)) L)
                    (set_outq (map Some ds) (set_cur_out (Some d) u1)))
        as (Ho & Hi & Hoq & _ & _ & Hr & Hb & _ & _ & Hl).
      match goal with
      | |- context [ProcReturns OK ?v ([] ++ _)] =>
          rewrite (Hdone OK v _ (eq_trans Hr Hrun) eq_refl)
      end.
      eexists _, _. split; [reflexivity|].
      unfold recycled. rewrite Hbt.
      rewrite bool_decide_eq_false_2 by done. cbn [andb].
      split; [|exact (eq_trans Hb Hbt)].
      split; [exact (eq_trans Hr Hrun)|]. split; [exact (eq_trans Hl HL)|].
      split; [exact Ho|]. split; [exact Hi|].
      left. split; [exact (eq_trans Hb Hbt) | exact Hoq].
  - (* Internal *)
    set (p := PostProcBufferPools.mPostProcItemsPool (mInternalBufPool u))
      in *.
    set (size := PostProcBufferPools.mBufferPoolSize (mInternalBufPool u)).
    assert (Hob : obtain_output u1 =
                  match SharedItemPool.available p with
                  | [] => set_cur_out None
                            (set_pool (PostProcBufferPools.mk size p) u1)
                  | slot :: rest =>
                      set_cur_out (Some (Item slot))
                        (set_pool
                           (PostProcBufferPools.mk size
                              (SharedItemPool.mk (SharedItemPool.slots p)
                                                 rest)) u1)
                  end).
    { unfold obtain_output, PostProcBufferPools.acquireItem,
        SharedItemPool.acquireItem.
      cbn [mBufType u1 set_inq set_cur_settings set_cur_in mInternalBufPool].
      rewrite Hbt. fold p size. by destruct (SharedItemPool.available p). }
    rewrite Hob. clear Hob. subst ds.
    destruct (SharedItemPool.available p) as [|slot av] eqn:Hav.
    + cbn [mCurPostProcBufOut set_cur_out].
      unfold process_prepared.
      cbn [mCurPostProcBufIn mCurPostProcBufOut set_cur_settings set_cur_in].
      match goal with
      | |- context [ProcReturns OK ?v ([] ++ _)] =>
          rewrite (Hdone OK v [] Hrun eq_refl)
      end.
      eexists _, _. split; [reflexivity|]. split; [|done].
      split; [done|]. split; [done|]. split; [done|]. split; [done|].
      right. split; [done|].
      cbn [mInternalBufPool set_cur_settings set_cur_in set_cur_out set_pool
           PostProcBufferPools.mPostProcItemsPool map].
      by rewrite Hav.
    + cbn [mCurPostProcBufOut set_cur_out map].
      match goal with
      | |- context [process_prepared _ _ _ _ _ ?v] =>
          rewrite (Hrelay (Item slot) v eq_refl eq_refl eq_refl HL)
      end.
      cbv beta iota.
      match goal with
      | |- context [reset_cur_out ?k ?v] =>
          pose proof (reset_cur_out_fields k v)
            as (Ho & Hi & Hoq & _ & _ & Hr & Hb & _ & _ & Hl)
      end.
      match goal with
      | |- context [ProcReturns OK ?v ([] ++ _)] =>
          rewrite (Hdone OK v _ (eq_trans Hr Hrun) eq_refl)
      end.
      eexists _, _. split; [reflexivity|].
      split; [|exact Hb].
      split; [exact (eq_trans Hr Hrun)|]. split; [exact (eq_trans Hl HL)|].
      split; [exact Ho|]. split; [exact Hi|].
      right. split; [exact (eq_trans Hb Hbt)|].
      unfold recycled. rewrite Hbt, bool_decide_eq_true_2 by done.
      cbn [andb]. unfold reset_cur_out, item_returned.
      cbn [mCurPostProcBufOut set_cur_out].
      destruct (existsb _ L);
        cbn [negb mInternalBufPool set_cur_settings set_cur_in set_cur_out
             set_pool PostProcBufferPools.mPostProcItemsPool
             SharedItemPool.releaseItem SharedItemPool.available];
        by rewrite ?map_app.
Qed.

Lemma messageThreadLoop_ready (L : list nat)
    (q : list (BufRef * option ProcUnitSettings)) :
  ∀ (ds : list BufRef) (u : t) (acc : list Event) (fuel : nat),
    ready u L q ds ->
    (length q + 2 <= fuel)%nat ->
    ∃ u',
      messageThreadLoop STATUS_NEED_NEXT_INPUT_FRAME listener_status
                        listener_keeps woken processFrame fuel u acc =
        LoopWaits u'
          (acc ++ (served processFrame
                          (recycled listener_keeps (mBufType u) L) L q ds).1) ∧
      ready u' L []
            (served processFrame
                    (recycled listener_keeps (mBufType u) L) L q ds).2.
Proof.
  induction q as [|[b s] q IH]; intros ds u acc fuel Hready Hfuel.
  - exists u. split; [|done].
    destruct Hready as (Hrun & _ & _ & Hq & _).
    destruct fuel as [|[|fuel]]; [cbn in Hfuel; lia | cbn in Hfuel; lia|].
    cbn [messageThreadLoop]. rewrite Hrun. cbn [negb].
    unfold doProcess. cbn [doProcess_loop]. unfold prepareProcess_woken.
    rewrite (prepareProcess_waits u Hrun Hq), nobody_wakes.
    by rewrite !app_nil_r.
  - destruct fuel as [|[|fuel]]; [cbn in Hfuel; lia | cbn in Hfuel; lia|].
    destruct (doProcess_ready_step L b s q ds u fuel Hready)
      as (st & u1 & Hdo & Hready1 & Hbt).
    destruct (IH _ u1
                 (acc ++ match ds with
                         | d :: _ =>
                             notifications L (Some d) s (processFrame b d s)
                         | [] => []
                         end) (S fuel) Hready1) as (u' & Hloop & Hready');
      [cbn in Hfuel; lia|].
    rewrite Hbt in Hloop, Hready'.
    exists u'. split.
    + cbn [messageThreadLoop] in *.
      destruct Hready as (Hrun & _). rewrite Hrun. cbn [negb].
      rewrite Hdo, Hloop. f_equal.
      destruct ds as [|d ds]; cbn [served fst].
      * by rewrite !served_nil, !app_nil_r.
      * by rewrite <- app_assoc.
    + destruct ds as [|d ds]; cbn [served snd] in *; [|done].
      by rewrite served_nil in *.
Qed.

(** X4. The worker thread serves its queue in order.  A running unit with
    an empty destination slot, [n] queued inputs and the destinations [ds]
    at hand (queued external buffers of an External unit, available pool
    items of an Internal unit), whose kernel never asks for the next input
    and whose listeners answer [OK], with nobody else at work on the unit:
    the thread loop gives every input the oldest destination at hand and
    calls every listener once with the kernel status of the pair, in input
    order; an input that finds no destination is dropped without a call;
    at the end the thread waits on the empty queue.  A destination is at
    hand again, behind the others, when it is an item of the pool that no
    listener kept.  So an External unit, or a unit whose listeners keep
    what they get, serves the first [length ds] inputs and drops the
    rest, and an Internal unit whose listeners keep nothing serves every
    input, going round its items.  An item that a listener kept is at
    hand again when the listener gave it back. *)
Theorem thread_loop_in_order (L : list nat)
    (q : list (BufRef * option ProcUnitSettings)) (ds : list BufRef) (u : t)
    (fuel : nat) :
  ready u L q ds ->
  (length q + 2 <= fuel)%nat ->
  let result :=
    served processFrame (recycled listener_keeps (mBufType u) L) L q ds in
  (∃ u',
     messageThreadLoop STATUS_NEED_NEXT_INPUT_FRAME listener_status
                       listener_keeps woken processFrame fuel u [] =
       LoopWaits u' result.1 ∧
     ready u' L [] result.2) ∧
  (mBufType u = kPostProcBufTypeExt ∨
   (∀ d e, existsb (fun l => listener_keeps l (Some d) e) L = true) ->
   result = (paired_notifications processFrame L q ds,
             drop (length q) ds)) ∧
  (mBufType u = kPostProcBufTypeInt ->
   (∀ l d e, listener_keeps l d e = false) ->
   ds ≠ [] ->
   result = (round_robin_notifications processFrame L q ds,
             rotate (length q) ds)) ∧
  (mBufType u = kPostProcBufTypeInt ->
   ∀ s, ready (item_returned s u) L q (ds ++ [Item s])).
Proof.
  intros Hready Hfuel result. split; [|split; [|split]].
  4:{ intros Hbt s. destruct Hready as (Hrun & HL & Hout & Hq & Hsup).
      repeat split; try done. right. split; [done|].
      destruct Hsup as [[Hext _]|[_ ->]]; [congruence|].
      cbn. by rewrite map_app. }
  - destruct (messageThreadLoop_ready L q ds u [] fuel Hready Hfuel)
      as (u' & H & Hr).
    by exists u'.
  - intros Hno. apply served_without_recycling. intros d e. unfold recycled.
    destruct Hno as [-> | Hkeep]; [done|].
    by rewrite Hkeep, andb_false_r.
  - intros Hbt Hkeep Hds.
    assert (Hlen : (0 < length ds)%nat) by (destruct ds; [done | cbn; lia]).
    assert (Hall : ∀ d e, recycled listener_keeps (mBufType u) L d e = true).
    { intros d e. unfold recycled.
      rewrite Hbt, bool_decide_eq_true_2 by done.
      cbn [andb]. apply negb_true_iff.
      clear Hready. induction L as [|l L IH]; [done|]. cbn. by rewrite Hkeep. }
    pose proof (served_with_recycling
                  (recycled listener_keeps (mBufType u) L) L ds q Hall
                  0%nat Hlen) as Hs.
    rewrite drop_0, take_0, app_nil_r in Hs.
    subst result. rewrite Hs. reflexivity.
Qed.

(** *** [stop] and the pool *)

Lemma unlock_item_unlocked (b : PostProcBuffer) : unlocked (unlock_item b).
Proof.
  unfold unlocked, unlock_item. destruct (cambuf b) as [c|] eqn:Hc.
  - destruct (cb_locked c) eqn:Hl; cbn; [done|]. by rewrite Hc.
  - by rewrite Hc.
Qed.

Lemma unlock_item_of_unlocked (b : PostProcBuffer) :
  unlocked b -> unlock_item b = b.
Proof.
  unfold unlocked, unlock_item. destruct (cambuf b) as [c|]; [|done].
  by intros ->.
Qed.

Lemma unlock_item_same_buffer (b : PostProcBuffer) :
  index (unlock_item b) = index b ∧ request (unlock_item b) = request b ∧
  cambuf_get (unlock_item b) = cambuf_get b.
Proof.
  unfold unlock_item, cambuf_get. destruct (cambuf b) as [c|] eqn:Hc.
  - destruct (cb_locked c); cbn; by rewrite ?Hc.
  - by rewrite Hc.
Qed.

Lemma stop_loop_cons (n : nat) (sl : list PostProcBuffer) (s : nat)
    (rest : list nat) :
  stop_loop (S n) (SharedItemPool.mk sl (s :: rest)) =
  stop_loop n (SharedItemPool.mk (alter unlock_item s sl) (rest ++ [s])).
Proof. reflexivity. Qed.

Lemma stop_loop_nil (n : nat) (sl : list PostProcBuffer) :
  stop_loop n (SharedItemPool.mk sl []) = SharedItemPool.mk sl [].
Proof. induction n as [|n IH]; [done|]. cbn. exact IH. Qed.

Lemma alter_unlock_lookup (sl : list PostProcBuffer) (s k : nat) :
  alter unlock_item s sl !! k =
  if decide (s = k) then unlock_item <$> sl !! k else sl !! k.
Proof.
  destruct (decide (s = k)) as [->|Hne].
  - apply list_lookup_alter_eq.
  - by apply list_lookup_alter_ne.
Qed.

Lemma stop_loop_shape (n : nat) :
  ∀ (sl : list PostProcBuffer) (av : list nat),
    let r := stop_loop n (SharedItemPool.mk sl av) in
    length (SharedItemPool.slots r) = length sl ∧
    Permutation (SharedItemPool.available r) av ∧
    ∀ k, (SharedItemPool.slots r !! k = sl !! k ∨
          SharedItemPool.slots r !! k = unlock_item <$> sl !! k) ∧
         (k ∉ av -> SharedItemPool.slots r !! k = sl !! k).
Proof.
  induction n as [|n IH]; intros sl av; [cbn; by eauto|].
  destruct av as [|s rest].
  - rewrite stop_loop_nil. cbn. by eauto.
  - rewrite stop_loop_cons.
    destruct (IH (alter unlock_item s sl) (rest ++ [s])) as (Hl & Hp & Hk).
    cbn zeta. split; [by rewrite Hl, length_alter|].
    split; [by rewrite Hp, Permutation_app_comm|].
    intros k. destruct (Hk k) as [Hsame Hout]. rewrite alter_unlock_lookup in Hsame.
    split.
    + destruct (decide (s = k)) as [->|Hne].
      * right. destruct Hsame as [->| ->]; [done|].
        destruct (sl !! k) as [x|]; [|done]. cbn. f_equal.
        apply unlock_item_of_unlocked, unlock_item_unlocked.
      * exact Hsame.
    + intros Hnotin. rewrite Hout.
      * rewrite alter_unlock_lookup. rewrite decide_False; [done|].
        intros ->. apply Hnotin. by left.
      * intros Hin. apply Hnotin. apply elem_of_app in Hin as [Hin|Hin].
        -- by right.
        -- apply list_elem_of_singleton in Hin. subst. by left.
Qed.

Lemma stop_loop_unlocks (n : nat) :
  ∀ (sl : list PostProcBuffer) (av : list nat) (k : nat) (x : PostProcBuffer),
    SharedItemPool.slots (stop_loop n (SharedItemPool.mk sl av)) !! k = Some x ->
    (k ∈ take n av ∨ (∀ y, sl !! k = Some y -> unlocked y)) ->
    unlocked x.
Proof.
  induction n as [|n IH]; intros sl av k x Hx Hk.
  - cbn in Hx. destruct Hk as [Hk|Hk]; [|by apply Hk].
    rewrite take_0 in Hk. by apply elem_of_nil in Hk.
  - destruct av as [|s rest].
    + rewrite stop_loop_nil in Hx. cbn in Hx.
      destruct Hk as [Hk|Hk]; [|by apply Hk].
      rewrite take_nil in Hk. by apply elem_of_nil in Hk.
    + rewrite stop_loop_cons in Hx. apply (IH _ _ _ _ Hx).
      assert (Hpres : (∀ y, sl !! k = Some y -> unlocked y) ->
                      ∀ y, alter unlock_item s sl !! k = Some y -> unlocked y).
      { intros Hu y. rewrite alter_unlock_lookup.
        destruct (decide (s = k)); [|by apply Hu].
        destruct (sl !! k); [|done]. intros [= <-]. apply unlock_item_unlocked. }
      destruct Hk as [Hk|Hk]; [|right; by apply Hpres].
      cbn [take] in Hk. apply elem_of_cons in Hk as [->|Hk].
      * right. intros y. rewrite alter_unlock_lookup, decide_True by done.
        destruct (sl !! s); [|done]. intros [= <-]. apply unlock_item_unlocked.
      * left. apply list_elem_of_lookup in Hk as [i Hi].
        apply list_elem_of_lookup. exists i.
        apply lookup_take_Some in Hi as [Hi Hlt].
        apply lookup_take_Some. split; [|done].
        by apply lookup_app_l_Some.
Qed.

(** X5. [stop] on a running unit clears the running flag, wakes the worker
    and joins it, and returns what the join returns. Of the internal pool it
    unlocks exactly the items that are in the pool at that moment (at most
    four): every such item ends up unlocked, an item that is handed out
    keeps its lock, no item changes in anything but the lock, and the pool
    holds the same items afterwards. The queues and the current slots are
    not touched. The item pool, which is not among the sources, hands out
    its items oldest first, as the loops over the pool presuppose. *)
Theorem stop_unlocks_pool (u : t) :
  mThreadRunning u = true ->
  (length (SharedItemPool.available
             (PostProcBufferPools.mPostProcItemsPool (mInternalBufPool u)))
   <= kDefaultAllocBufferNums)%nat ->
  let r := stop thread_exit_status u in
  let u1 := r.1.2 in
  let p := PostProcBufferPools.mPostProcItemsPool (mInternalBufPool u) in
  let p1 := PostProcBufferPools.mPostProcItemsPool (mInternalBufPool u1) in
  r.1.1 = thread_exit_status ∧
  r.2 = [EvConditionNotifyAll; EvThreadRequestExitAndWait] ∧
  mThreadRunning u1 = false ∧
  mInBufferPool u1 = mInBufferPool u ∧ mOutBufferPool u1 = mOutBufferPool u ∧
  mCurPostProcBufIn u1 = mCurPostProcBufIn u ∧
  mCurPostProcBufOut u1 = mCurPostProcBufOut u ∧
  length (SharedItemPool.slots p1) = length (SharedItemPool.slots p) ∧
  Permutation (SharedItemPool.available p1) (SharedItemPool.available p) ∧
  (∀ k x, k ∈ SharedItemPool.available p ->
          SharedItemPool.slots p1 !! k = Some x -> unlocked x) ∧
  (∀ k, k ∉ SharedItemPool.available p ->
        SharedItemPool.slots p1 !! k = SharedItemPool.slots p !! k) ∧
  (∀ k, SharedItemPool.slots p1 !! k = SharedItemPool.slots p !! k ∨
        SharedItemPool.slots p1 !! k = unlock_item <$> SharedItemPool.slots p !! k).
Proof.
  intros Hrun Hlen. unfold stop. rewrite Hrun. cbn [negb fst snd].
  cbn [mInternalBufPool set_pool set_running mThreadRunning mInBufferPool
       mOutBufferPool mCurPostProcBufIn mCurPostProcBufOut
       PostProcBufferPools.mPostProcItemsPool].
  destruct (mInternalBufPool u) as [size [sl av]].
  cbn [PostProcBufferPools.mPostProcItemsPool SharedItemPool.available
       SharedItemPool.slots] in *.
  destruct (stop_loop_shape kDefaultAllocBufferNums sl av) as (Hl & Hp & Hk).
  repeat split; try done.
  - intros k x Hin Hx. apply (stop_loop_unlocks _ _ _ _ _ Hx). left.
    by rewrite take_ge.
  - intros k Hk'. by apply Hk.
  - intros k. by apply Hk.
Qed.

(** *** [prepare] of a unit *)

Variable allocateHandleBuffer : FrameInfo -> nat -> option CameraBuffer.

Lemma prepare_internal (u : t) (outfmt : FrameInfo) (c : nat -> CameraBuffer) :
  (∀ i, (i < kDefaultAllocBufferNums)%nat ->
        allocateHandleBuffer outfmt i = Some (c i)) ->
  mBufType u = kPostProcBufTypeInt ->
  prepare allocateHandleBuffer true outfmt u =
    (OK, set_pool
           (PostProcBufferPools.mk 4
              (SharedItemPool.mk
                 [filled 0 (c 0%nat); filled 1 (c 1%nat);
                  filled 2 (c 2%nat); filled 3 (c 3%nat)]
                 [0; 1; 2; 3]%nat)) u).
Proof.
  intros Halloc Hbt. unfold prepare, allocCameraBuffer. rewrite Hbt. cbn.
  rewrite !Halloc by (unfold kDefaultAllocBufferNums; lia).
  reflexivity.
Qed.

(** X6. [prepare] of an Internal unit whose four buffers can be allocated
    returns [OK] with a pool of four items, all available, item [i] having
    index [i] and holding the [i]-th allocated buffer, locked. For a unit of
    another regime [prepare] returns [OK] and leaves the unit as it is,
    without allocating. The item pool, which is not among the sources, hands
    out its items oldest first, as the loops over the pool presuppose. *)
Theorem prepare_fills_internal_pool (u : t) (outfmt : FrameInfo)
    (c : nat -> CameraBuffer) :
  (∀ i, (i < kDefaultAllocBufferNums)%nat ->
        allocateHandleBuffer outfmt i = Some (c i)) ->
  (mBufType u = kPostProcBufTypeInt ->
   prepare allocateHandleBuffer true outfmt u =
     (OK, set_pool
            (PostProcBufferPools.mk 4
               (SharedItemPool.mk
                  [filled 0 (c 0%nat); filled 1 (c 1%nat);
                   filled 2 (c 2%nat); filled 3 (c 3%nat)]
                  [0; 1; 2; 3]%nat)) u)) ∧
  (mBufType u ≠ kPostProcBufTypeInt ->
   prepare allocateHandleBuffer true outfmt u = (OK, u)).
Proof.
  intros Halloc. split.
  - by apply prepare_internal.
  - intros Hbt. unfold prepare. destruct (mBufType u); congruence.
Qed.

(** X7. [prepare] of an Internal unit fails with [UNKNOWN_ERROR] when the
    pool items could not be set up, before any buffer is allocated, and with
    [NO_MEMORY] at the first buffer that cannot be allocated. In the second
    case nothing is undone: the pool keeps its four items, and the buffers
    allocated before the failure stay in their items, locked. The item pool,
    which is not among the sources, hands out its items oldest first, as the
    loops over the pool presuppose. *)
Theorem prepare_failure_keeps_buffers (u : t) (outfmt : FrameInfo)
    (c : nat -> CameraBuffer) (j : nat) :
  mBufType u = kPostProcBufTypeInt ->
  (j < kDefaultAllocBufferNums)%nat ->
  (∀ i, (i < j)%nat -> allocateHandleBuffer outfmt i = Some (c i)) ->
  allocateHandleBuffer outfmt j = None ->
  (prepare allocateHandleBuffer false outfmt u).1 = UNKNOWN_ERROR ∧
  let r := prepare allocateHandleBuffer true outfmt u in
  let p := PostProcBufferPools.mPostProcItemsPool (mInternalBufPool r.2) in
  r.1 = NO_MEMORY ∧
  length (SharedItemPool.slots p) = 4%nat ∧
  length (SharedItemPool.available p) = 4%nat ∧
  ∀ i, (i < 4)%nat ->
       SharedItemPool.slots p !! i =
       Some (if decide (i < j)%nat then filled i (c i)
             else mkPostProcBuffer (Z.of_nat i) None 0).
Proof.
  intros Hbt Hj Hbefore Hfail. unfold kDefaultAllocBufferNums in Hj.
  split; [unfold prepare; by rewrite Hbt|].
  unfold prepare, allocCameraBuffer. rewrite Hbt.
  destruct j as [|[|[|[|j]]]]; [| | | |lia].
  all: cbn.
  all: rewrite ?Hbefore by lia; cbn.
  all: rewrite ?Hbefore by lia; cbn.
  all: rewrite ?Hbefore by lia; cbn.
  all: rewrite Hfail; cbn.
  all: repeat split; try done.
  all: intros [|[|[|[|i]]]] Hi; try lia; reflexivity.
Qed.

(** X8. A whole life of an Internal unit: [prepare] with four buffers
    allocated, [start], [stop]. The worker thread is started once and joined
    once, the unit is not running at the end, and the pool holds its four
    items in the original order, each with its buffer, now unlocked. The
    item pool, which is not among the sources, hands out its items oldest
    first, as the loops over the pool presuppose. *)
Theorem prepare_start_stop (u : t) (outfmt : FrameInfo)
    (c : nat -> CameraBuffer) :
  mBufType u = kPostProcBufTypeInt ->
  mThreadRunning u = false ->
  (∀ i, (i < kDefaultAllocBufferNums)%nat ->
        allocateHandleBuffer outfmt i = Some (c i)) ->
  let u1 := (prepare allocateHandleBuffer true outfmt u).2 in
  let started := start thread_run_status u1 in
  let stopped := stop thread_exit_status started.1.2 in
  started.1.1 = thread_run_status ∧ started.2 = [EvThreadRun] ∧
  stopped.1.1 = thread_exit_status ∧
  stopped.2 = [EvConditionNotifyAll; EvThreadRequestExitAndWait] ∧
  mThreadRunning stopped.1.2 = false ∧
  mInternalBufPool stopped.1.2 =
    PostProcBufferPools.mk 4
      (SharedItemPool.mk
         [released 0 (c 0%nat); released 1 (c 1%nat);
          released 2 (c 2%nat); released 3 (c 3%nat)]
         [0; 1; 2; 3]%nat).
Proof.
  intros Hbt Hrun Halloc.
  rewrite (prepare_internal u outfmt c Halloc Hbt). cbn [snd].
  unfold start, stop. cbn [mThreadRunning set_pool]. rewrite Hrun.
  cbn. repeat split.
Qed.

(** *** Pushing frames *)

Lemma push_frames_async (fuel : nat)
    (fs : list (BufRef * option ProcUnitSettings)) :
  ∀ u : t,
    mThreadRunning u = true -> mEnable u = true -> mSyncProcess u = false ->
    push_frames STATUS_NEED_NEXT_INPUT_FRAME listener_status listener_keeps
                woken processFrame fuel fs u =
    Some (set_inq (mInBufferPool u ++ map (fun '(b, s) => (Some b, s)) fs) u,
          repeat EvConditionNotifyAll (length fs)).
Proof.
  induction fs as [|[b s] fs IH]; intros u Hrun Hen Hsy.
  - cbn. rewrite app_nil_r. by destruct u.
  - cbn [push_frames]. unfold notifyNewFrame. rewrite Hrun, Hen, Hsy.
    cbn [negb]. rewrite IH by done. cbn. do 2 f_equal.
    by rewrite <- app_assoc.
Qed.

(** X9. Frames pushed into a running, enabled, asynchronous unit come
    out in the order they went in.  Each push returns [OK] after queueing
    the frame and signalling the condition; the worker thread then serves
    the frames in push order from the destinations at hand and notifies
    the listeners pair by pair, an item of the pool that no listener kept
    being at hand again. *)
Theorem pushed_frames_are_served_in_order (L : list nat)
    (fs : list (BufRef * option ProcUnitSettings)) (ds : list BufRef)
    (u : t) (fuel fuel' : nat) :
  ready u L [] ds ->
  mEnable u = true ->
  mSyncProcess u = false ->
  (length fs + 2 <= fuel')%nat ->
  let result :=
    served processFrame (recycled listener_keeps (mBufType u) L) L fs ds in
  ∃ u1 u2,
    push_frames STATUS_NEED_NEXT_INPUT_FRAME listener_status listener_keeps
                woken processFrame fuel fs u =
      Some (u1, repeat EvConditionNotifyAll (length fs)) ∧
    mInBufferPool u1 = map (fun '(b, s) => (Some b, s)) fs ∧
    messageThreadLoop STATUS_NEED_NEXT_INPUT_FRAME listener_status
                      listener_keeps woken processFrame fuel' u1 [] =
      LoopWaits u2 result.1 ∧
    ready u2 L [] result.2.
Proof.
  intros Hready Hen Hsy Hfuel result.
  pose proof Hready as (Hrun & HL & Hout & Hq & Hsup).
  rewrite (push_frames_async fuel fs u Hrun Hen Hsy).
  set (u1 := set_inq _ u).
  assert (Hready1 : ready u1 L fs ds).
  { subst u1. rewrite Hq. split; [done|]. split; [done|]. split; [done|].
    split; [done|]. destruct Hsup as [[? ?]|[? ?]]; [by left | by right]. }
  destruct (messageThreadLoop_ready L fs ds u1 [] fuel' Hready1 Hfuel)
    as (u2 & Hloop & Hr2).
  exists u1, u2. split; [done|]. split; [by destruct Hready1 as (_&_&_&?&_)|].
  done.
Qed.

(** X10. The gates of [notifyNewFrame].  A stopped unit returns [OK]
    and drops the frame without a trace.  A running but disabled unit
    hands the frame, settings and error on to its listeners and stays as
    it is.  A running, enabled, synchronous unit does not take the frame
    at all: it runs [doProcess] on its own queue, and waits if that queue
    is empty; the caller stays in the wait when nothing wakes it, and
    reads the first element of an empty vector when it is woken with the
    unit running and the queue still empty. *)
Theorem notifyNewFrame_gates (u : t) (buf : option BufRef)
    (s : option ProcUnitSettings) (err : Z) (fuel : nat) :
  (mThreadRunning u = false ->
   notifyNewFrame STATUS_NEED_NEXT_INPUT_FRAME listener_status listener_keeps
                  woken processFrame fuel buf s err u = ProcReturns OK u []) ∧
  (mThreadRunning u = true -> mEnable u = false ->
   notifyNewFrame STATUS_NEED_NEXT_INPUT_FRAME listener_status listener_keeps
                  woken processFrame fuel buf s err u =
     ProcReturns (notifyListeners listener_status u buf s err).1 u
                 (notifications (mListeners u) buf s err)) ∧
  (mThreadRunning u = true -> mEnable u = true -> mSyncProcess u = true ->
   notifyNewFrame STATUS_NEED_NEXT_INPUT_FRAME listener_status listener_keeps
                  woken processFrame fuel buf s err u =
     doProcess STATUS_NEED_NEXT_INPUT_FRAME listener_status listener_keeps
               woken processFrame fuel u ∧
   (mInBufferPool u = [] ->
    prepareProcess u = Waits ∧
    (woken u = None ->
     notifyNewFrame STATUS_NEED_NEXT_INPUT_FRAME listener_status
                    listener_keeps woken processFrame (S fuel) buf s err u =
       ProcWaits u []) ∧
    (∀ u', woken u = Some u' ->
           mThreadRunning u' = true -> mInBufferPool u' = [] ->
           notifyNewFrame STATUS_NEED_NEXT_INPUT_FRAME listener_status
                          listener_keeps woken processFrame (S fuel) buf s
                          err u = ProcUndefined))).
Proof.
  unfold notifyNewFrame. split; [|split].
  - by intros ->.
  - by intros -> ->.
  - intros Hrun Hen Hsy. rewrite Hrun, Hen, Hsy. cbn [negb]. split; [done|].
    intros Hq. split; [by apply prepareProcess_waits|]. split.
    + intros Hw. unfold doProcess. cbn [doProcess_loop].
      unfold prepareProcess_woken.
      by rewrite (prepareProcess_waits u Hrun Hq), Hw.
    + intros u' Hw Hrun' Hq'.
      by apply (doProcess_woken u u' fuel Hrun Hq Hw).
Qed.

End Facts.

End UnitMoreFacts.

(** ** The handler: when a group is made, and when none is needed *)

Module HandlerMoreFacts.

Import OutputBuffersHandler.

Section Facts.

Variable frame_listener_status : PostProcBuffer -> Z -> status_t.

Lemma need_sync_false (k : Z) (out : list PostProcBuffer) :
  Some k ∉ map cambuf_get out ->
  existsb (fun o => bool_decide (cambuf_get o = Some k)) out = false.
Proof.
  intros Hnin. apply not_true_is_false. intros Hex.
  apply existsb_exists in Hex as (o & Ho & Heq).
  apply bool_decide_eq_true_1 in Heq. apply Hnin.
  apply list_elem_of_fmap. exists o. split; [done|].
  by apply list_elem_of_In.
Qed.

(** X11. [addSyncBuffersIfNeed] makes a group exactly when the pipeline
    has several streams, the frame has at least two output buffers, the
    camera buffer of the input has a buffer handle and is the camera
    buffer of some output; otherwise the handler stays as it is.  The
    group lists all output buffers of the frame and counts them, and the
    table then maps the camera buffer of every output to that group, all
    other entries being as before. *)
Theorem addSyncBuffersIfNeed_group (h : t) (inb : PostProcBuffer)
    (c : CameraBuffer) (out : list PostProcBuffer) :
  cambuf inb = Some c ->
  let wanted :=
    mMayNeedSyncStreamsOutput h = true ∧ (2 <= length out)%nat ∧
    cb_hasHandle c = true ∧ Some (cb_addr c) ∈ map cambuf_get out in
  (¬ wanted -> addSyncBuffersIfNeed inb out h = Some h) ∧
  (wanted ->
   ∃ h',
     addSyncBuffersIfNeed inb out h = Some h' ∧
     mMayNeedSyncStreamsOutput h' = true ∧
     items h' = items h ++ [mkSyncItem out (Z.of_nat (length out))] ∧
     ∀ k, mCamBufToSyncItemMap h' !! k =
          if bool_decide (k ∈ map cambuf_get out)
          then Some (length (items h))
          else mCamBufToSyncItemMap h !! k).
Proof.
  intros Hc wanted. subst wanted. unfold addSyncBuffersIfNeed. rewrite Hc.
  split.
  - intros Hnot.
    destruct (mMayNeedSyncStreamsOutput h) eqn:Hmay; cbn [andb]; [|done].
    destruct (1 <? Z.of_nat (length out)) eqn:Hlen; [|done].
    apply Z.ltb_lt in Hlen.
    destruct (cb_hasHandle c) eqn:Hh; [|done].
    destruct (decide (Some (cb_addr c) ∈ map cambuf_get out)) as [Hin|Hnin].
    + exfalso. apply Hnot. repeat split; try done. lia.
    + by rewrite need_sync_false.
  - intros (Hmay & Hlen & Hh & Hin). rewrite Hmay, Hh.
    replace (1 <? Z.of_nat (length out)) with true
      by (symmetry; apply Z.ltb_lt; lia).
    cbn [andb]. rewrite HandlerFacts.need_sync_true by done.
    eexists. split; [reflexivity|]. cbn. split; [done|]. split; [done|].
    intros k. apply HandlerFacts.insert_all_lookup.
Qed.

(** X12. In a pipeline with a single stream the handler is transparent:
    whatever its table holds, every terminal delivery goes to the frame
    listener at once, in the order of the deliveries, and the handler
    does not change. *)
Theorem single_stream_deliveries_pass_through (h : t) (ds : list Delivery) :
  mMayNeedSyncStreamsOutput h = false ->
  deliveries frame_listener_status ds h = Some (h, ds).
Proof.
  intros Hmay. induction ds as [|[[b s] e] ds IH]; [done|].
  cbn [deliveries]. unfold notifyNewFrame. rewrite Hmay. cbn [negb].
  by rewrite IH.
Qed.

End Facts.

End HandlerMoreFacts.

(** ** The builder: what every unit and every stream gets *)

Module BuilderMoreFacts.

Import PostProcessUnit PostProcessPipeLine BuilderSpec.

Lemma grown_refl (inf : FrameInfo) (n : UnitNode) : grown inf n n.
Proof. repeat split; try done; [by exists []; rewrite app_nil_r | by left]. Qed.

Lemma grown_trans (inf : FrameInfo) (a b c : UnitNode) :
  grown inf a b -> grown inf b c -> grown inf a c.
Proof.
  intros (H1 & H2 & H3 & H4 & [m1 H5] & H6) (G1 & G2 & G3 & G4 & [m2 G5] & G6).
  repeat split; try congruence.
  - exists (m1 ++ m2). by rewrite G5, H5, app_assoc.
  - destruct G6 as [G6|G6]; [rewrite G6; exact H6 | by right].
Qed.

Lemma grown_add_listener (inf : FrameInfo) (l : Listener) (n : UnitNode) :
  grown inf n (add_listener l n).
Proof. repeat split; try done; [by exists [l] | by left]. Qed.

Lemma grown_mark_prepared (inf : FrameInfo) (n : UnitNode) :
  grown inf n (mark_prepared inf n).
Proof. repeat split; try done; [by exists []; rewrite app_nil_r | by right]. Qed.

Lemma alter_grown (inf : FrameInfo) (f : UnitNode -> UnitNode) (i : nat)
    (l : list UnitNode) (k : nat) (n0 n : UnitNode) :
  (∀ x, grown inf x (f x)) ->
  grown inf n0 n -> l !! k = Some n ->
  ∃ n', alter f i l !! k = Some n' ∧ grown inf n0 n'.
Proof.
  intros Hf Hg Hk. destruct (decide (i = k)) as [->|Hne].
  - rewrite list_lookup_alter_eq, Hk. eexists. split; [done|].
    eapply grown_trans; [exact Hg | apply Hf].
  - rewrite list_lookup_alter_ne by done. by exists n.
Qed.

Lemma alter_grown_ex (inf : FrameInfo) (f : UnitNode -> UnitNode) (i : nat)
    (l : list UnitNode) (k : nat) (n0 : UnitNode) :
  (∀ x, grown inf x (f x)) ->
  (∃ n, l !! k = Some n ∧ grown inf n0 n) ->
  ∃ n', alter f i l !! k = Some n' ∧ grown inf n0 n'.
Proof. intros Hf (n & Hk & Hg). by eapply alter_grown. Qed.

(** What creating and linking one unit does to the pipeline. *)
Lemma link_created_spec (inf : FrameInfo) (stream : camera3_stream_t)
    (last_proc_unit : bool) (to : option nat) (new : UnitNode) (p : t) :
  let id := length (units p) in
  let p' := link_created inf stream last_proc_unit id to
              (set_units (units p ++ [new]) p) in
  length (units p') = S id ∧
  (∀ k n, units p !! k = Some n ->
          ∃ n', units p' !! k = Some n' ∧ grown inf n n') ∧
  (∃ n', units p' !! id = Some n' ∧ grown inf new n' ∧
         unit_prepared n' = Some inf ∧
         (last_proc_unit = true -> ToHandler ∈ unit_listeners n')) ∧
  mStreamToProcUnitMap p' =
    (if last_proc_unit
     then <[stream_addr stream := id]> (mStreamToProcUnitMap p)
     else mStreamToProcUnitMap p) ∧
  mMayNeedSyncStreamsOutput p' = mMayNeedSyncStreamsOutput p.
Proof.
  intros id p'. subst p'. unfold link_created, linkPostProcUnit.
  assert (Hnew : (units p ++ [new]) !! id = Some new)
    by (subst id; apply list_lookup_middle; done).
  assert (Hold : ∀ k n, units p !! k = Some n ->
                        (units p ++ [new]) !! k = Some n).
  { intros k n Hk. by apply lookup_app_l_Some. }
  destruct to as [t'|]; destruct last_proc_unit;
    cbn -[alter]; unfold prepare_unit, attachListener, set_map, set_units;
    cbn -[alter]; rewrite ?length_alter, ?length_app; cbn [length].
  all: split; [subst id; lia|].
  all: split.
  all: try (intros k n Hk; apply Hold in Hk;
            repeat (apply alter_grown_ex;
                    [first [apply grown_add_listener
                           |apply grown_mark_prepared] |]);
            exists n; split; [exact Hk | apply grown_refl]).
  all: (split; [|split; reflexivity]).
  all: rewrite list_lookup_alter_eq.
  - (* predecessor, last unit *)
    rewrite list_lookup_alter_eq.
    destruct (alter_grown inf (add_listener (ToUnit id)) t'
                (alter (add_listener (ToUnit id)) t' (units p ++ [new])) id
                new) with (n := match decide (t' = id) with
                                | left _ => add_listener (ToUnit id) new
                                | right _ => new end)
      as (n1 & Hn1 & Hg1).
    { apply grown_add_listener. }
    { destruct (decide _); [apply grown_add_listener | apply grown_refl]. }
    { destruct (decide (t' = id)) as [->|Hne].
      - by rewrite list_lookup_alter_eq, Hnew.
      - by rewrite list_lookup_alter_ne. }
    rewrite Hn1. cbn. eexists. split; [done|]. split; [|split; [done|]].
    + eapply grown_trans; [exact Hg1|].
      eapply grown_trans; [apply (grown_add_listener inf ToHandler)|].
      apply grown_mark_prepared.
    + intros _. cbn. apply elem_of_app. right. by left.
  - (* predecessor, not last *)
    destruct (alter_grown inf (add_listener (ToUnit id)) t'
                (units p ++ [new]) id new new) as (n1 & Hn1 & Hg1).
    { apply grown_add_listener. } { apply grown_refl. } { exact Hnew. }
    rewrite Hn1. cbn. eexists. split; [done|]. split; [|split; [done|done]].
    eapply grown_trans; [exact Hg1 | apply grown_mark_prepared].
  - (* first level, last unit *)
    rewrite list_lookup_alter_eq, Hnew. cbn. eexists. split; [done|].
    split; [|split; [done|]].
    + eapply grown_trans; [apply (grown_add_listener inf ToHandler)|].
      apply grown_mark_prepared.
    + intros _. cbn. apply elem_of_app. right. by left.
  - (* first level, not last *)
    rewrite Hnew. cbn. eexists. split; [done|].
    split; [apply grown_mark_prepared | done].
Qed.

Section Builder.

Variable T : PostProcessTypes.
Variable CHROME_BOARD : bool.

(** *** Every unit is prepared, with the input format *)




Lemma fold_left_preserves_in {A B : Type} (P : A -> Prop) (f : A -> B -> A)
    (l : list B) :
  (∀ a b, b ∈ l -> P a -> P (f a b)) -> ∀ a, P a -> P (fold_left f l a).
Proof.
  induction l as [|b l IH]; intros Hf a Ha; cbn; [done|].
  apply IH.
  - intros a' b' Hb'. apply Hf. by right.
  - apply Hf; [by left | done].
Qed.





(** *** When post-processing is needed *)

Lemma exclude_lor (a b : Z) :
  exclude_no_buffer T (Z.lor a b) =
  Z.lor (exclude_no_buffer T a) (exclude_no_buffer T b).
Proof. unfold exclude_no_buffer. apply Z.land_lor_distr_l. Qed.

Lemma exclude_lor_l (a b : Z) :
  exclude_no_buffer T a ≠ 0 -> exclude_no_buffer T (Z.lor a b) ≠ 0.
Proof. rewrite exclude_lor, Z.lor_eq_0_iff. tauto. Qed.

Lemma exclude_lor_r (a b : Z) :
  exclude_no_buffer T b ≠ 0 -> exclude_no_buffer T (Z.lor a b) ≠ 0.
Proof. rewrite exclude_lor, Z.lor_eq_0_iff. tauto. Qed.

Lemma analyze_stream_keeps (inf : FrameInfo) (zoom : Q) (common : Z)
    (s : camera3_stream_t) :
  exclude_no_buffer T common ≠ 0 ->
  exclude_no_buffer T (analyze_stream T CHROME_BOARD inf zoom common s).2 ≠ 0.
Proof.
  intros H. unfold analyze_stream. cbn [snd].
  destruct (negb (Qle_bool zoom 1)), (negb (getRotationDegrees _ s =? 0));
    auto using exclude_lor_l.
Qed.

Lemma analyze_stream_adds (inf : FrameInfo) (zoom : Q) (common : Z)
    (s : camera3_stream_t) :
  (Qle_bool zoom 1 = false ∧
   exclude_no_buffer T (kPostProcessTypeDigitalZoom T) ≠ 0) ∨
  (getRotationDegrees CHROME_BOARD s ≠ 0 ∧
   exclude_no_buffer T (kPostProcessTypeCropRotationScale T) ≠ 0) ->
  exclude_no_buffer T (analyze_stream T CHROME_BOARD inf zoom common s).2 ≠ 0.
Proof.
  unfold analyze_stream. cbn [snd]. intros [[Hz Hb]|[Hr Hb]].
  - rewrite Hz. cbn [negb]. by apply exclude_lor_r.
  - apply Z.eqb_neq in Hr. rewrite Hr. cbn [negb].
    destruct (negb (Qle_bool zoom 1)); [apply exclude_lor_l|];
      by apply exclude_lor_r.
Qed.

Lemma analyze_streams_keeps (inf : FrameInfo) (zoom : Q)
    (streams : list camera3_stream_t) :
  ∀ common,
    exclude_no_buffer T common ≠ 0 ->
    exclude_no_buffer T
      (analyze_streams T CHROME_BOARD inf zoom streams common).2 ≠ 0.
Proof.
  induction streams as [|s rest IH]; intros common H; [done|].
  cbn [analyze_streams].
  pose proof (analyze_stream_keeps inf zoom common s H) as H1.
  destruct (analyze_stream T CHROME_BOARD inf zoom common s) as [ty c1].
  specialize (IH c1 H1).
  by destruct (analyze_streams T CHROME_BOARD inf zoom rest c1).
Qed.

Lemma analyze_streams_adds (inf : FrameInfo) (zoom : Q)
    (streams : list camera3_stream_t) :
  ∀ common,
    (streams ≠ [] ∧ Qle_bool zoom 1 = false ∧
     exclude_no_buffer T (kPostProcessTypeDigitalZoom T) ≠ 0) ∨
    ((∃ s, s ∈ streams ∧ getRotationDegrees CHROME_BOARD s ≠ 0) ∧
     exclude_no_buffer T (kPostProcessTypeCropRotationScale T) ≠ 0) ->
    exclude_no_buffer T
      (analyze_streams T CHROME_BOARD inf zoom streams common).2 ≠ 0.
Proof.
  induction streams as [|s rest IH]; intros common H.
  - destruct H as [[? _]|[(s & Hs & _) _]]; [done | by apply elem_of_nil in Hs].
  - cbn [analyze_streams].
    assert (Hcase :
      exclude_no_buffer T
        (analyze_stream T CHROME_BOARD inf zoom common s).2 ≠ 0 ∨
      ((∃ s', s' ∈ rest ∧ getRotationDegrees CHROME_BOARD s' ≠ 0) ∧
       exclude_no_buffer T (kPostProcessTypeCropRotationScale T) ≠ 0)).
    { destruct H as [(_ & Hz & Hb)|[(s' & Hs' & Hr) Hb]].
      - left. apply analyze_stream_adds. by left.
      - apply elem_of_cons in Hs' as [->|Hs'].
        + left. apply analyze_stream_adds. by right.
        + right. split; [by exists s' | done]. }
    destruct (analyze_stream T CHROME_BOARD inf zoom common s) as [ty c1].
    cbn [snd] in Hcase.
    destruct Hcase as [Hc|Hc].
    + pose proof (analyze_streams_keeps inf zoom rest c1 Hc) as H1.
      by destruct (analyze_streams T CHROME_BOARD inf zoom rest c1).
    + specialize (IH c1 (or_intror Hc)).
      by destruct (analyze_streams T CHROME_BOARD inf zoom rest c1).
Qed.

(** X14. [prepare] reports that post-processing is needed whenever the
    device can zoom digitally (maximal digital zoom above 1.0) or one of
    the requested streams is rotated, provided the type in question needs
    a buffer, and this whatever the sizes and formats of the streams. *)
Theorem prepare_needs_postprocess (inf : FrameInfo) (zoom : Q)
    (streams : list camera3_stream_t) (p p' : t) (st : status_t)
    (need : bool) :
  prepare T CHROME_BOARD inf zoom streams p = Some (st, need, p') ->
  ((1 < zoom)%Q ∧
   exclude_no_buffer T (kPostProcessTypeDigitalZoom T) ≠ 0) ∨
  ((∃ s, s ∈ streams ∧ getRotationDegrees CHROME_BOARD s ≠ 0) ∧
   exclude_no_buffer T (kPostProcessTypeCropRotationScale T) ≠ 0) ->
  need = true.
Proof.
  unfold prepare. destruct streams as [|stream0 rest]; [discriminate|].
  intros Hprep Hwhy.
  assert (Hc : exclude_no_buffer T
                 (analyze_streams T CHROME_BOARD inf zoom (stream0 :: rest) 0).2
               ≠ 0).
  { apply analyze_streams_adds. destruct Hwhy as [[Hz Hb]|Hr]; [left|by right].
    split; [done|]. split; [|done].
    apply not_true_is_false. intros Hle. apply Qle_bool_iff in Hle.
    by apply Qlt_not_le in Hz. }
  destruct (analyze_streams T CHROME_BOARD inf zoom (stream0 :: rest) 0)
    as [spp0 common].
  cbn [snd] in Hc. injection Hprep as _ <- _.
  apply Z.eqb_neq in Hc. by rewrite Hc.
Qed.

(** *** Every stream gets a terminal unit *)

Lemma shiftl_1_pos (i : Z) : 0 <= i -> 0 < Z.shiftl 1 i.
Proof. intros Hi. rewrite Z.shiftl_1_l. by apply Z.pow_pos_nonneg. Qed.

Lemma bit_land_inj (a i : Z) :
  0 <= a -> 0 <= i -> Z.land (Z.shiftl 1 a) (Z.shiftl 1 i) ≠ 0 -> a = i.
Proof.
  intros Ha Hi Hland. destruct (decide (a = i)) as [|Hne]; [done|].
  exfalso. apply Hland. apply Z.bits_inj'. intros n Hn.
  rewrite Z.land_spec, !Z.shiftl_1_l, !Z.pow2_bits_eqb, Z.bits_0 by done.
  destruct (Z.eqb_spec a n), (Z.eqb_spec i n); cbn; congruence.
Qed.

Lemma stream_range_elem (i : Z) :
  i ∈ stream_range T ↔
  MAX_COMMON_PROC_UNIT_SHIFT T < i < MAX_STREAM_PROC_UNIT_SHIFT T.
Proof. unfold stream_range. rewrite elem_of_seqZ. lia. Qed.

Lemma good_bit (x : Z) :
  0 <= MAX_COMMON_PROC_UNIT_SHIFT T ->
  stream_bit T x -> recognized T x -> good_type T x.
Proof.
  intros Hmc (a & Ha & ->) Hrec. split.
  - exists a. split; [by apply stream_range_elem|].
    rewrite Z.land_diag. pose proof (shiftl_1_pos a). lia.
  - intros i Hi Hland. apply stream_range_elem in Hi.
    apply bit_land_inj in Hland as <-; [done | lia | lia].
Qed.

Lemma good_lor (x y : Z) : good_type T x -> good_type T y -> good_type T (Z.lor x y).
Proof.
  intros [(i & Hi & Hx) Hrx] [_ Hry]. split.
  - exists i. split; [done|]. rewrite Z.land_lor_distr_l, Z.lor_eq_0_iff. tauto.
  - intros j Hj. rewrite Z.land_lor_distr_l, Z.lor_eq_0_iff. intros Hne.
    destruct (decide (Z.land x (Z.shiftl 1 j) = 0)) as [Hx0|Hx0].
    + apply Hry; [done|]. tauto.
    + by apply Hrx.
Qed.

Lemma good_type_nonzero (ty : Z) : good_type T ty -> ty ≠ 0.
Proof. intros [(i & _ & Hi) _] ->. by rewrite Z.land_0_l in Hi. Qed.

(** The types [prepare] works with once the copy type is added. *)
Lemma analyzed_type_good (inf : FrameInfo) (zoom : Q) (common : Z)
    (s : camera3_stream_t) :
  stream_types_ok T ->
  let ty := (analyze_stream T CHROME_BOARD inf zoom common s).1 in
  good_type T (if ty =? 0 then Z.lor ty (kPostProcessTypeCopy T) else ty).
Proof.
  intros (Hmc & HS & HJ & HC). cbn zeta. unfold analyze_stream. cbn [fst].
  assert (GS : good_type T (kPostProcessTypeScaleAndRotation T))
    by (apply good_bit; [done | done | by left]).
  assert (GJ : good_type T (kPostProcessTypeJpegEncoder T))
    by (apply good_bit; [done | done | by right; left]).
  assert (GC : good_type T (kPostProcessTypeCopy T))
    by (apply good_bit; [done | done | by right; right]).
  destruct (format s =? HAL_PIXEL_FORMAT_BLOB);
    destruct (negb (wrap32 (width s * height s) =?
                    wrap32 (fi_width inf * fi_height inf)));
    rewrite ?Z.lor_0_l.
  - pose proof (good_type_nonzero _ (good_lor _ _ GJ GS)) as Hne.
    apply Z.eqb_neq in Hne. rewrite Hne. by apply good_lor.
  - pose proof (good_type_nonzero _ GJ) as Hne.
    apply Z.eqb_neq in Hne. by rewrite Hne.
  - pose proof (good_type_nonzero _ GS) as Hne.
    apply Z.eqb_neq in Hne. by rewrite Hne.
  - by rewrite Z.eqb_refl.
Qed.

Lemma last_set_bit_found (from to mask : Z) :
  (∃ i, i ∈ seqZ from (to - from) ∧ Z.land mask (Z.shiftl 1 i) ≠ 0) ->
  ∃ i0, i0 ∈ seqZ from (to - from) ∧
        last_set_bit from to mask = Z.shiftl 1 i0 ∧
        Z.land mask (Z.shiftl 1 i0) ≠ 0.
Proof.
  unfold last_set_bit. generalize (seqZ from (to - from)) as l.
  induction l as [|x l IH] using rev_ind; intros (i & Hi & Hbit).
  - by apply elem_of_nil in Hi.
  - rewrite fold_left_app. cbn [fold_left].
    destruct (Z.land mask (Z.shiftl 1 x) =? 0) eqn:Hx; cbn [negb].
    + apply Z.eqb_eq in Hx. apply elem_of_app in Hi as [Hi|Hi].
      * destruct IH as (i0 & Hi0 & Heq & Hb0); [by exists i|].
        exists i0. split; [apply elem_of_app; by left | done].
      * apply list_elem_of_singleton in Hi. subst. done.
    + apply Z.eqb_neq in Hx. exists x. split; [|done].
      apply elem_of_app. right. by left.
Qed.

Lemma stream_unit_of_recognized (x : Z) (bt : PostProcBufType) :
  recognized T x -> ∃ name cls, stream_unit_of T x bt = Some (name, cls, bt).
Proof.
  unfold stream_unit_of. intros Hrec.
  destruct (Z.eqb_spec x (kPostProcessTypeScaleAndRotation T)); [by eauto|].
  destruct (Z.eqb_spec x (kPostProcessTypeJpegEncoder T)); [by eauto|].
  destruct (Z.eqb_spec x (kPostProcessTypeCopy T)); [by eauto|].
  by destruct Hrec as [?|[?|?]].
Qed.

Lemma stream_unit_of_buftype (x : Z) (bt bt' : PostProcBufType)
    (name : string) (cls : UnitClass) :
  stream_unit_of T x bt = Some (name, cls, bt') -> bt' = bt.
Proof.
  unfold stream_unit_of.
  repeat (destruct (_ =? _); [by intros [= _ _ <-]|]). done.
Qed.

Lemma link_created_terminals (inf : FrameInfo) (stream : camera3_stream_t)
    (last : bool) (to : option nat) (new : UnitNode) (p : t) :
  (last = true -> unit_buftype new = kPostProcBufTypeExt) ->
  terminals_ok p ->
  let p' := link_created inf stream last (length (units p)) to
              (set_units (units p ++ [new]) p) in
  terminals_ok p' ∧
  (last = true ->
   mStreamToProcUnitMap p' !! stream_addr stream = Some (length (units p))) ∧
  (∀ k, is_Some (mStreamToProcUnitMap p !! k) ->
        is_Some (mStreamToProcUnitMap p' !! k)).
Proof.
  intros Hbt Hp p'. subst p'.
  destruct (link_created_spec inf stream last to new p)
    as (Hlen & Hold & (n' & Hn' & Hg' & _ & Hh) & Hmap & _).
  assert (Holdkey : ∀ key id0, mStreamToProcUnitMap p !! key = Some id0 ->
            ∃ n, units (link_created inf stream last (length (units p)) to
                          (set_units (units p ++ [new]) p)) !! id0 = Some n ∧
                 unit_buftype n = kPostProcBufTypeExt ∧
                 ToHandler ∈ unit_listeners n).
  { intros key id0 Hkey. destruct (Hp key id0 Hkey) as (n & Hn & Hext & Hin).
    destruct (Hold id0 n Hn) as (n1 & Hn1 & (_ & _ & _ & Hb & [more Hl] & _)).
    exists n1. split; [done|]. split; [congruence|].
    rewrite Hl. apply elem_of_app. by left. }
  unfold terminals_ok. rewrite Hmap. destruct last.
  - split; [|split].
    + intros key id0. rewrite lookup_insert. case_decide as Hk.
      * intros [= <-]. exists n'. split; [done|].
        destruct Hg' as (_ & _ & _ & Hb & _). split; [|by apply Hh].
        rewrite Hb. by apply Hbt.
      * apply Holdkey.
    + intros _. apply lookup_insert_eq.
    + intros k Hk. rewrite lookup_insert. by case_decide.
  - split; [exact Holdkey|]. split; [done|]. done.
Qed.

Lemma link_common_step_terminals (inf : FrameInfo)
    (stream0 : camera3_stream_t) (common : Z) (st : Linking) (i : Z) :
  1 <= i -> terminals_ok (pipe st) ->
  terminals_ok (pipe (link_common_step T inf stream0 common 0 st i)).
Proof.
  intros Hi Hst. unfold link_common_step.
  assert (Hlast : (0 =? Z.shiftl 1 i) = false).
  { apply Z.eqb_neq. pose proof (shiftl_1_pos i). lia. }
  rewrite Hlast.
  destruct (Z.land common (Z.shiftl 1 i) =? 0); [done|].
  destruct (common_unit_of T (Z.shiftl 1 i) kPostProcBufTypeInt)
    as [[[name cls] bt]|]; [|done].
  unfold make_unit.
  destruct (Z.shiftl 1 i =? kPostProcessTypeFaceDetection T); cbn [pipe].
  - by apply (link_created_terminals inf stream0 false None
                (mkUnitNode name cls common bt [] None) (pipe st)).
  - by apply (link_created_terminals inf stream0 false (procunit_main_last st)
                (mkUnitNode name cls common bt [] None) (pipe st)).
Qed.

Lemma link_stream_step_terminals (inf : FrameInfo) (stream : camera3_stream_t)
    (ty last_level : Z) (sl : StreamLinking) (i : Z) :
  terminals_ok (pipe (linking sl)) ->
  let sl' := link_stream_step T inf stream ty last_level sl i in
  terminals_ok (pipe (linking sl')) ∧
  keeps_streams (pipe (linking sl)) (pipe (linking sl')) ∧
  (Z.land ty (Z.shiftl 1 i) ≠ 0 -> recognized T (Z.shiftl 1 i) ->
   last_level = Z.shiftl 1 i ->
   is_Some (mStreamToProcUnitMap (pipe (linking sl')) !! stream_addr stream)).
Proof.
  intros Hsl sl'. subst sl'. unfold link_stream_step.
  destruct (Z.eqb_spec (Z.land ty (Z.shiftl 1 i)) 0) as [Hz|Hnz].
  { split; [done|]. split; [by intros k|]. done. }
  destruct (stream_unit_of T (Z.shiftl 1 i)
              (if last_level =? Z.shiftl 1 i then kPostProcBufTypeExt
               else kPostProcBufTypeInt)) as [[[name cls] bt]|] eqn:E.
  - apply stream_unit_of_buftype in E as Hbt. unfold make_unit.
    cbn [linking pipe].
    destruct (link_created_terminals inf stream (last_level =? Z.shiftl 1 i)
                (procunit_stream_last sl)
                (mkUnitNode name cls ty bt [] None) (pipe (linking sl)))
      as (H1 & H2 & H3); [|done|].
    { intros Hl. cbn [unit_buftype]. subst bt. by rewrite Hl. }
    split; [done|]. split; [done|].
    intros _ _ ->. rewrite H2; [by eexists | apply Z.eqb_refl].
  - split; [done|]. split; [by intros k|].
    intros _ Hrec _.
    destruct (stream_unit_of_recognized (Z.shiftl 1 i)
                (if last_level =? Z.shiftl 1 i then kPostProcBufTypeExt
                 else kPostProcBufTypeInt) Hrec) as (name & cls & E').
    congruence.
Qed.

Lemma link_stream_steps_terminals (inf : FrameInfo) (stream : camera3_stream_t)
    (ty last_level : Z) (l : list Z) (sl : StreamLinking) :
  terminals_ok (pipe (linking sl)) ->
  let sl' := fold_left (link_stream_step T inf stream ty last_level) l sl in
  terminals_ok (pipe (linking sl')) ∧
  keeps_streams (pipe (linking sl)) (pipe (linking sl')).
Proof.
  revert sl. induction l as [|i l IH]; intros sl Hsl; cbn [fold_left].
  - split; [done | by intros k].
  - destruct (link_stream_step_terminals inf stream ty last_level sl i Hsl)
      as (H1 & H2 & _).
    destruct (IH _ H1) as (H3 & H4). split; [done|].
    intros k Hk. by apply H4, H2.
Qed.

(** One round of the loop over the streams registers the stream. *)
Lemma link_stream_registers (inf : FrameInfo) (st : Linking)
    (s : camera3_stream_t) (ty : Z) :
  good_type T ty -> terminals_ok (pipe st) ->
  let st' := link_stream T inf st (s, ty) in
  terminals_ok (pipe st') ∧ keeps_streams (pipe st) (pipe st') ∧
  is_Some (mStreamToProcUnitMap (pipe st') !! stream_addr s).
Proof.
  intros [Hex Hrec] Hst st'. subst st'. unfold link_stream.
  destruct (last_set_bit_found (MAX_COMMON_PROC_UNIT_SHIFT T + 1)
              (MAX_STREAM_PROC_UNIT_SHIFT T) ty Hex)
    as (i0 & Hi0 & Hlast & Hbit).
  fold (stream_range T) in Hi0.
  destruct (list_elem_of_split _ _ Hi0) as (l1 & l2 & Hsplit).
  rewrite Hsplit, fold_left_app. cbn [fold_left].
  set (sl0 := mkStreamLinking st (procunit_main_last st)).
  set (ll := last_set_bit (MAX_COMMON_PROC_UNIT_SHIFT T + 1)
                          (MAX_STREAM_PROC_UNIT_SHIFT T) ty) in *.
  destruct (link_stream_steps_terminals inf s ty ll l1 sl0 Hst) as (A1 & A2).
  destruct (link_stream_step_terminals inf s ty ll
              (fold_left (link_stream_step T inf s ty ll) l1 sl0) i0 A1)
    as (B1 & B2 & B3).
  destruct (link_stream_steps_terminals inf s ty ll l2 _ B1) as (C1 & C2).
  split; [done|]. split.
  - intros k Hk. by apply C2, B2, A2.
  - apply C2, B3; [done | by apply Hrec | done].
Qed.

Lemma link_streams_register (inf : FrameInfo)
    (spp : list (camera3_stream_t * Z)) (st : Linking) :
  (∀ s ty, (s, ty) ∈ spp -> good_type T ty) ->
  terminals_ok (pipe st) ->
  let st' := fold_left (link_stream T inf) spp st in
  terminals_ok (pipe st') ∧ keeps_streams (pipe st) (pipe st') ∧
  (∀ s ty, (s, ty) ∈ spp ->
           is_Some (mStreamToProcUnitMap (pipe st') !! stream_addr s)).
Proof.
  revert st. induction spp as [|[s ty] spp IH]; intros st Hgood Hst;
    cbn [fold_left].
  - split; [done|]. split; [by intros k|].
    intros s ty Hin. by apply elem_of_nil in Hin.
  - destruct (link_stream_registers inf st s ty) as (A1 & A2 & A3);
      [apply (Hgood s ty); by left | done |].
    destruct (IH (link_stream T inf st (s, ty))) as (B1 & B2 & B3);
      [intros s' ty' Hin; apply (Hgood s' ty'); by right | done |].
    split; [done|]. split; [intros k Hk; by apply B2, A2|].
    intros s' ty' Hin. apply elem_of_cons in Hin as [[= -> ->]|Hin].
    + by apply B2.
    + by apply (B3 s' ty').
Qed.

Lemma analyze_streams_types (inf : FrameInfo) (zoom : Q)
    (streams : list camera3_stream_t) (common : Z) :
  (analyze_streams T CHROME_BOARD inf zoom streams common).1 =
  map (fun s => (s, (analyze_stream T CHROME_BOARD inf zoom 0 s).1)) streams.
Proof.
  revert common. induction streams as [|s rest IH]; intros common; [done|].
  cbn [analyze_streams map].
  destruct (analyze_stream T CHROME_BOARD inf zoom common s) as [ty c'] eqn:E.
  specialize (IH c').
  destruct (analyze_streams T CHROME_BOARD inf zoom rest c') as [l c''].
  cbn [fst] in *. rewrite IH. f_equal. f_equal.
  unfold analyze_stream in *. by injection E as <- _.
Qed.

Lemma fold_lor_zero {A : Type} (f : A -> Z) (l : list A) (acc : Z) :
  fold_left (fun a x => Z.lor a (f x)) l acc = 0 ->
  acc = 0 ∧ ∀ x, x ∈ l -> f x = 0.
Proof.
  revert acc. induction l as [|y l IH]; intros acc H; cbn [fold_left] in H.
  - split; [done|]. intros x Hx. by apply elem_of_nil in Hx.
  - apply IH in H as [H1 H2]. apply Z.lor_eq_0_iff in H1 as [-> Hy].
    split; [done|]. intros x Hx. apply elem_of_cons in Hx as [->|Hx]; auto.
Qed.

Lemma prepare_terminals_ok (inf : FrameInfo) (zoom : Q)
    (streams : list camera3_stream_t) (p' : t) (st : status_t)
    (need : bool) :
  stream_types_ok T ->
  (1 < length streams)%nat ∨
  exclude_no_buffer T (analysis T CHROME_BOARD inf zoom streams).2 = 0 ->
  prepare T CHROME_BOARD inf zoom streams empty = Some (st, need, p') ->
  terminals_ok p' ∧
  ∀ s, s ∈ streams ->
       is_Some (mStreamToProcUnitMap p' !! stream_addr s).
Proof.
  intros Hok Hcopy. unfold prepare, analysis in *.
  destruct streams as [|stream0 rest]; [discriminate|].
  pose proof (analyze_streams_types inf zoom (stream0 :: rest) 0) as Htypes.
  destruct (analyze_streams T CHROME_BOARD inf zoom (stream0 :: rest) 0)
    as [spp0 common].
  cbn [fst snd] in Htypes, Hcopy. intros [= _ _ <-].
  assert (Hlen : length spp0 = length (stream0 :: rest))
    by (by rewrite Htypes, length_map).
  set (spp := add_copy T (exclude_no_buffer T common) spp0).
  assert (Hspp : spp =
            map (fun s => (s, let ty := (analyze_stream T CHROME_BOARD inf
                                           zoom 0 s).1 in
                              if ty =? 0
                              then Z.lor ty (kPostProcessTypeCopy T)
                              else ty)) (stream0 :: rest)).
  { subst spp. unfold add_copy. rewrite Hlen.
    assert ((1 <? Z.of_nat (length (stream0 :: rest))) ||
            ((Z.of_nat (length (stream0 :: rest)) =? 1) &&
             (exclude_no_buffer T common =? 0)) = true) as ->.
    { destruct Hcopy as [Hl|Hz].
      - apply orb_true_iff. left. apply Z.ltb_lt. lia.
      - rewrite Hz. cbn [length] in *. destruct rest; cbn [length].
        + reflexivity.
        + apply orb_true_iff. left. apply Z.ltb_lt. lia. }
    rewrite Htypes, map_map. apply map_ext. intros a. cbn zeta.
    by destruct (_ =? 0). }
  assert (Hgood : ∀ s' ty, (s', ty) ∈ spp -> good_type T ty).
  { intros s' ty. rewrite Hspp. intros Hin.
    apply list_elem_of_fmap in Hin as (x & [= -> ->] & _).
    exact (analyzed_type_good inf zoom 0 x Hok). }
  assert (Hnz : fold_left (fun acc sm => Z.lor acc sm.2) spp 0 ≠ 0).
  { intros Hz. apply fold_lor_zero in Hz as [_ Hz].
    assert (Hin : (stream0,
                   let ty := (analyze_stream T CHROME_BOARD inf zoom 0
                                stream0).1 in
                   if ty =? 0 then Z.lor ty (kPostProcessTypeCopy T)
                   else ty) ∈ spp) by (rewrite Hspp; by left).
    pose proof (Hgood _ _ Hin) as Hg. apply good_type_nonzero in Hg.
    apply Hg. by apply (Hz _ Hin). }
  apply Z.eqb_neq in Hnz. rewrite Hnz.
  match goal with
  | |- terminals_ok (pipe (fold_left _ _ ?st1)) ∧ _ =>
      destruct (link_streams_register inf spp st1 Hgood) as (A1 & _ & A3)
  end.
  { apply (fold_left_preserves_in (fun st => terminals_ok (pipe st))).
    - intros a b Hb. apply link_common_step_terminals.
      unfold common_range in Hb. apply elem_of_seqZ in Hb. lia.
    - intros key id Hk. cbn in Hk. by rewrite lookup_empty in Hk. }
  split; [done|]. intros s Hs.
  apply (A3 s (let ty := (analyze_stream T CHROME_BOARD inf zoom 0 s).1 in
               if ty =? 0 then Z.lor ty (kPostProcessTypeCopy T) else ty)).
  rewrite Hspp. apply list_elem_of_fmap. by exists s.
Qed.


(** X15. When more than one stream is requested, or the common
    processing needs no buffer, [prepare] gives every requested stream a
    terminal unit: the stream map has an entry for the stream, the unit
    it names is of External regime, so that it writes into the buffers of
    the request, and the output buffers handler listens to it.  This
    holds for any header values in which the three stream types are
    single bits between the two shift bounds. *)
Theorem prepare_gives_every_stream_a_terminal (inf : FrameInfo) (zoom : Q)
    (streams : list camera3_stream_t) (p' : t) (st : status_t)
    (need : bool) :
  stream_types_ok T ->
  (1 < length streams)%nat ∨
  exclude_no_buffer T (analysis T CHROME_BOARD inf zoom streams).2 = 0 ->
  prepare T CHROME_BOARD inf zoom streams empty = Some (st, need, p') ->
  ∀ s, s ∈ streams -> has_terminal p' s.
Proof.
  intros Hok Hcopy Hprep s Hs.
  destruct (prepare_terminals_ok inf zoom streams p' st need Hok Hcopy Hprep)
    as [Hterm Hkeys].
  destruct (Hkeys s Hs) as [id Hid].
  destruct (Hterm _ _ Hid) as (n & Hn & Hext & Hh).
  by exists id, n.
Qed.

(** *** Listeners between units *)

Lemma attached_in_alter_add (l : Listener) (k : nat) (us : list UnitNode)
    (q id : nat) :
  attached_in (alter (add_listener l) k us) q id =
  (attached_in us q id +
   if decide (q = k ∧ (k < length us)%nat ∧ l = ToUnit id) then 1 else 0)%nat.
Proof.
  unfold attached_in. destruct (decide (q = k)) as [->|Hne].
  - rewrite list_lookup_alter_eq. destruct (us !! k) as [n|] eqn:Hn; cbn.
    + apply lookup_lt_Some in Hn. rewrite filter_app, length_app.
      rewrite filter_cons, filter_nil.
      destruct (decide (l = ToUnit id)); case_decide; cbn; try lia; tauto.
    + apply lookup_ge_None in Hn. case_decide; [lia | done].
  - rewrite list_lookup_alter_ne by done.
    case_decide; [tauto | lia].
Qed.

Lemma attached_in_alter_prepared (f : FrameInfo) (k : nat)
    (us : list UnitNode) (q id : nat) :
  attached_in (alter (mark_prepared f) k us) q id = attached_in us q id.
Proof.
  unfold attached_in. destruct (decide (q = k)) as [->|Hne].
  - rewrite list_lookup_alter_eq. by destruct (us !! k).
  - by rewrite list_lookup_alter_ne.
Qed.

Lemma attached_in_snoc (new : UnitNode) (us : list UnitNode) (q id : nat) :
  unit_listeners new = [] ->
  attached_in (us ++ [new]) q id = attached_in us q id.
Proof.
  intros Hnew. unfold attached_in.
  destruct (decide (q < length us)%nat) as [Hlt|Hge].
  - by rewrite lookup_app_l.
  - rewrite (proj2 (lookup_ge_None us q)) by lia.
    destruct (decide (q = length us)) as [->|Hne].
    + rewrite list_lookup_middle by done. by rewrite Hnew.
    + rewrite (proj2 (lookup_ge_None (us ++ [new]) q)); [done|].
      rewrite length_app. cbn. lia.
Qed.

Lemma link_created_attachments (inf : FrameInfo) (stream : camera3_stream_t)
    (last : bool) (to : option nat) (new : UnitNode) (p : t) :
  unit_listeners new = [] ->
  known to p -> levels_ok p -> attachments_ok p ->
  attachments_ok (link_created inf stream last (length (units p)) to
                    (set_units (units p ++ [new]) p)).
Proof.
  intros Hnew Hto Hlv Hat id'.
  set (id := length (units p)).
  destruct (proj2 (Hlv id) (Nat.le_refl _)) as (_ & HM & HL).
  assert (Hfresh : ∀ q, attached_in (units p) q id = 0%nat).
  { destruct (Hat id) as (pred & Hoth & Hpred).
    unfold attached_to in *. rewrite HM, HL in Hpred.
    intros q. destruct (decide (q = pred)) as [->|Hq]; [done | by apply Hoth]. }
  destruct (Hat id') as (pred & Hoth & Hpred). unfold attached_to in *.
  exists (if decide (id' = id) then default 0%nat to else pred).
  unfold link_created, linkPostProcUnit.
  destruct to as [t'|]; [pose proof (Hto t' eq_refl) as Ht'|]; destruct last;
    cbn -[alter count_in];
    unfold prepare_unit, attachListener, set_map, set_units;
    cbn -[alter count_in];
    (split; [intros q Hq|]);
    rewrite ?attached_in_alter_prepared, ?attached_in_alter_add,
            ?attached_in_alter_prepared, ?attached_in_alter_add,
            ?length_alter, ?length_app, ?BuilderFacts.count_in_snoc;
    rewrite (attached_in_snoc new) by done;
    cbn [length]; fold id;
    repeat case_decide; destruct_and?; simplify_eq; cbn [default] in *;
    rewrite ?Hfresh, ?HM, ?HL in *;
    try (rewrite Hoth by done);
    try lia; try (exfalso; naive_solver lia).
Qed.

Lemma link_common_step_linked (inf : FrameInfo) (stream0 : camera3_stream_t)
    (common last_level : Z) (st : Linking) (i : Z) :
  linked_ok st ->
  linked_ok (link_common_step T inf stream0 common last_level st i).
Proof.
  intros (Hlv & Hat & Hk). unfold link_common_step.
  destruct (Z.land common (Z.shiftl 1 i) =? 0); [done|].
  destruct (common_unit_of T _ _) as [[[name cls] bt]|]; [|done].
  unfold make_unit.
  destruct (Z.shiftl 1 i =? kPostProcessTypeFaceDetection T);
    (split; [|split]); cbn [pipe procunit_main_last].
  - by apply BuilderFacts.link_created_levels_ok.
  - by apply link_created_attachments.
  - apply BuilderFacts.link_created_known. by left.
  - by apply BuilderFacts.link_created_levels_ok.
  - by apply link_created_attachments.
  - apply BuilderFacts.link_created_known. by right.
Qed.

Lemma link_stream_step_linked (inf : FrameInfo) (stream : camera3_stream_t)
    (ty last_level : Z) (sl : StreamLinking) (i : Z) :
  stream_linked_ok sl ->
  stream_linked_ok (link_stream_step T inf stream ty last_level sl i).
Proof.
  intros ((Hlv & Hat & Hk) & Hs). unfold link_stream_step.
  destruct (Z.land ty (Z.shiftl 1 i) =? 0); [done|].
  destruct (stream_unit_of T _ _) as [[[name cls] bt]|]; [|done].
  unfold make_unit.
  (split; [split; [|split]|]);
    cbn [pipe linking procunit_main_last procunit_stream_last].
  - by apply BuilderFacts.link_created_levels_ok.
  - by apply link_created_attachments.
  - apply BuilderFacts.link_created_known. by left.
  - apply BuilderFacts.link_created_known. by right.
Qed.

Lemma link_stream_linked (inf : FrameInfo) (st : Linking)
    (proc_map : camera3_stream_t * Z) :
  linked_ok st -> linked_ok (link_stream T inf st proc_map).
Proof.
  intros Hst. destruct proc_map as [stream ty]. unfold link_stream.
  apply (BuilderFacts.fold_left_preserves stream_linked_ok).
  - intros sl i. apply link_stream_step_linked.
  - split; [done|]. by destruct Hst as (_ & _ & Hk).
Qed.

Lemma count_in_elem (l : list nat) (id : nat) :
  id ∈ l -> (1 <= count_in l id)%nat.
Proof.
  intros Hin. unfold count_in.
  assert (Hf : id ∈ filter (λ x, x = id) l) by (by apply list_elem_of_filter).
  destruct (filter _ l); [by apply elem_of_nil in Hf | cbn; lia].
Qed.

Lemma prepare_attachments_ok (inf : FrameInfo) (zoom : Q)
    (streams : list camera3_stream_t) (p' : t) (st : status_t)
    (need : bool) :
  prepare T CHROME_BOARD inf zoom streams empty = Some (st, need, p') ->
  attachments_ok p'.
Proof.
  unfold prepare. destruct streams as [|stream0 rest]; [discriminate|].
  destruct (analyze_streams T CHROME_BOARD inf zoom (stream0 :: rest) 0)
    as [spp0 common].
  intros [= _ _ <-].
  match goal with
  | |- attachments_ok (pipe ?st2) =>
      enough (Hok : linked_ok st2) by (by destruct Hok as (_ & Hat & _))
  end.
  apply (BuilderFacts.fold_left_preserves linked_ok).
  { intros a b. apply link_stream_linked. }
  apply (BuilderFacts.fold_left_preserves linked_ok).
  { intros a b. apply link_common_step_linked. }
  split; [|split]; cbn [pipe procunit_main_last].
  - intros x. split; intros Hx; cbn in *; [lia | done].
  - intros x. exists 0%nat. split; [|done].
    intros q _. unfold attached_to, attached_in. cbn. by rewrite lookup_nil.
  - intros k Hk. discriminate.
Qed.

(** X16. After [prepare] on a new pipeline a unit is a listener of one
    unit at most, its predecessor, and it is attached there once for each
    entry it has in the middle and last buckets.  A unit of the last
    bucket is therefore attached twice to its predecessor, and a unit of
    the first bucket is attached to no unit. *)
Theorem prepare_attaches_last_units_twice (inf : FrameInfo) (zoom : Q)
    (streams : list camera3_stream_t) (p' : t) (st : status_t)
    (need : bool) (id : nat) :
  prepare T CHROME_BOARD inf zoom streams empty = Some (st, need, p') ->
  ∃ pred,
    (∀ q, q ≠ pred -> attached_to p' q id = 0%nat) ∧
    attached_to p' pred id =
      (count_in (mMiddleLevel p') id + count_in (mLastLevel p') id)%nat ∧
    (id ∈ mLastLevel p' -> attached_to p' pred id = 2%nat) ∧
    (id ∈ mFirstLevel p' -> attached_to p' pred id = 0%nat).
Proof.
  intros Hprep.
  pose proof (BuilderFacts.prepare_levels_ok T CHROME_BOARD _ _ _ _ _ _ _
                BuilderFacts.levels_ok_empty Hprep) as Hlv.
  destruct (prepare_attachments_ok _ _ _ _ _ _ Hprep id)
    as (pred & Hoth & Hpred).
  exists pred. split; [done|]. split; [done|].
  destruct (Hlv id) as [Hold Hnew].
  destruct (decide (id < length (units p'))%nat) as [Hlt|Hge].
  - specialize (Hold Hlt).
    split; intros Hin; apply count_in_elem in Hin; lia.
  - assert (Hge' : (length (units p') <= id)%nat) by lia.
    specialize (Hnew Hge').
    split; intros Hin; apply count_in_elem in Hin; lia.
Qed.

(** *** What the kernels of the created units do *)

Lemma link_created_units_made (inf : FrameInfo) (common : Z)
    (spp : list (camera3_stream_t * Z)) (stream : camera3_stream_t)
    (last : bool) (to : option nat) (new : UnitNode) (p : t) :
  made T common spp (mName new) (unit_class new) (unit_type new) ->
  units_made T common spp p ->
  units_made T common spp
    (link_created inf stream last (length (units p)) to
       (set_units (units p ++ [new]) p)).
Proof.
  intros Hnew Hp.
  destruct (link_created_spec inf stream last to new p)
    as (Hlen & Hold & (n' & Hn' & Hg' & _) & _).
  intros k n Hk.
  destruct (decide (k < length (units p))%nat) as [Hlt|Hge].
  - destruct (lookup_lt_is_Some_2 _ _ Hlt) as [n0 Hn0].
    destruct (Hold k n0 Hn0) as (n1 & Hn1 & (Hname & Hcls & Hty & _)).
    rewrite Hk in Hn1. injection Hn1 as <-.
    rewrite Hname, Hcls, Hty. by apply (Hp k).
  - assert (k = length (units p)) as ->.
    { apply lookup_lt_Some in Hk. lia. }
    rewrite Hk in Hn'. injection Hn' as <-.
    destruct Hg' as (-> & -> & -> & _). done.
Qed.

Lemma link_common_step_units_made (inf : FrameInfo) (common : Z)
    (spp : list (camera3_stream_t * Z)) (stream0 : camera3_stream_t)
    (last : Z) (st : Linking) (i : Z) :
  units_made T common spp (pipe st) ->
  units_made T common spp
    (pipe (link_common_step T inf stream0 common last st i)).
Proof.
  intros Hst. unfold link_common_step.
  destruct (Z.eqb_spec (Z.land common (Z.shiftl 1 i)) 0) as [|Hbit]; [done|].
  destruct (common_unit_of T _ _) as [[[name cls] bt]|] eqn:E; [|done].
  unfold make_unit.
  destruct (Z.shiftl 1 i =? kPostProcessTypeFaceDetection T); cbn [pipe];
    (apply link_created_units_made; [|done]);
    left; eexists i, _, bt; done.
Qed.

Lemma link_stream_units_made (inf : FrameInfo) (common : Z)
    (spp : list (camera3_stream_t * Z)) (st : Linking)
    (proc_map : camera3_stream_t * Z) :
  proc_map ∈ spp ->
  units_made T common spp (pipe st) ->
  units_made T common spp (pipe (link_stream T inf st proc_map)).
Proof.
  intros Hin Hst. destruct proc_map as [stream ty]. unfold link_stream.
  apply (BuilderFacts.fold_left_preserves
           (fun sl => units_made T common spp (pipe (linking sl)))).
  - intros sl i Hsl. unfold link_stream_step.
    destruct (Z.eqb_spec (Z.land ty (Z.shiftl 1 i)) 0) as [|Hbit]; [done|].
    destruct (stream_unit_of T _ _) as [[[name cls] bt]|] eqn:E; [|done].
    unfold make_unit. cbn [pipe linking].
    apply link_created_units_made; [|done].
    right. eexists stream, i, _, bt. done.
  - exact Hst.
Qed.

Lemma prepare_units_made (inf : FrameInfo) (zoom : Q)
    (streams : list camera3_stream_t) (p' : t) (st : status_t)
    (need : bool) :
  prepare T CHROME_BOARD inf zoom streams empty = Some (st, need, p') ->
  units_made T (analysis T CHROME_BOARD inf zoom streams).2
             (analysis T CHROME_BOARD inf zoom streams).1 p'.
Proof.
  unfold prepare, analysis.
  destruct streams as [|stream0 rest]; [discriminate|].
  destruct (analyze_streams T CHROME_BOARD inf zoom (stream0 :: rest) 0)
    as [spp0 common].
  intros [= _ _ <-]. cbn [fst snd].
  apply (fold_left_preserves_in
           (fun st => units_made T common _ (pipe st))).
  { intros a b Hb. by apply link_stream_units_made. }
  apply (BuilderFacts.fold_left_preserves
           (fun st => units_made T common _ (pipe st))).
  { intros a b. apply link_common_step_units_made. }
  intros k n Hk. cbn in Hk. by rewrite lookup_nil in Hk.
Qed.

(** The streams of the analysis and their types. *)
Lemma analysis_elem (inf : FrameInfo) (zoom : Q)
    (streams : list camera3_stream_t) (s : camera3_stream_t) (ty : Z) :
  (s, ty) ∈ (analysis T CHROME_BOARD inf zoom streams).1 ->
  s ∈ streams ∧
  (ty = (analyze_stream T CHROME_BOARD inf zoom 0 s).1 ∨
   ((analyze_stream T CHROME_BOARD inf zoom 0 s).1 = 0 ∧
    ty = kPostProcessTypeCopy T)).
Proof.
  unfold analysis.
  pose proof (analyze_streams_types inf zoom streams 0) as Htypes.
  destruct (analyze_streams T CHROME_BOARD inf zoom streams 0)
    as [spp0 common].
  cbn [fst] in *. subst spp0. unfold add_copy.
  destruct (_ || _).
  - rewrite map_map. intros Hin.
    apply list_elem_of_fmap in Hin as (x & Heq & Hx).
    remember (analyze_stream T CHROME_BOARD inf zoom 0 x).1 as t0 eqn:Ht0.
    destruct (Z.eqb_spec t0 0) as [Hz|Hnz]; injection Heq as -> ->;
      rewrite <- Ht0.
    + split; [done|]. right. split; [done|]. by rewrite Hz.
    + split; [done|]. by left.
  - intros Hin. apply list_elem_of_fmap in Hin as (x & Heq & Hx).
    remember (analyze_stream T CHROME_BOARD inf zoom 0 x).1 as t0 eqn:Ht0.
    injection Heq as -> ->. rewrite <- Ht0.
    split; [done|]. by left.
Qed.

Lemma bit_land_zero (a i : Z) :
  0 <= a -> 0 <= i -> a ≠ i -> Z.land (Z.shiftl 1 a) (Z.shiftl 1 i) = 0.
Proof.
  intros Ha Hi Hne.
  destruct (decide (Z.land (Z.shiftl 1 a) (Z.shiftl 1 i) = 0)) as [|Hnz];
    [done|].
  by apply bit_land_inj in Hnz.
Qed.

Lemma common_unit_of_name (x : Z) (bt bt' : PostProcBufType)
    (name : string) (cls : UnitClass) :
  common_unit_of T x bt = Some (name, cls, bt') ->
  (name = "digitalzoom"%string ∧ cls = ClsDigitalZoom) ∨
  (name = "uvnr"%string ∧ cls = ClsPostProcessUnit) ∨
  (name = "CropRotationScale"%string ∧ cls = ClsPostProcessUnit) ∨
  (name = "SoftwareLsc"%string ∧ cls = ClsSwLsc) ∨
  (name = "faceDetection"%string ∧ cls = ClsPostProcessUnit).
Proof.
  unfold common_unit_of.
  repeat (destruct (_ =? _); [intros [= <- <- _]; tauto|]). done.
Qed.

Lemma stream_unit_of_name (x : Z) (bt bt' : PostProcBufType)
    (name : string) (cls : UnitClass) :
  stream_unit_of T x bt = Some (name, cls, bt') ->
  (name = "ScaleRotation"%string ∧ cls = ClsPostProcessUnit ∧
   x = kPostProcessTypeScaleAndRotation T) ∨
  (name = "JpegEnc"%string ∧ cls = ClsJpegEnc) ∨
  (name = "MemCopy"%string ∧ cls = ClsPostProcessUnit).
Proof.
  unfold stream_unit_of.
  destruct (Z.eqb_spec x (kPostProcessTypeScaleAndRotation T));
    [intros [= <- <- _]; tauto|].
  repeat (destruct (_ =? _); [intros [= <- <- _]; tauto|]). done.
Qed.

Section Kernels.

Variable data : CameraBuffer -> Z.

(** X17. The unit named ScaleRotation that [prepare] makes belongs to a
    requested stream whose size differs from the input, is of the base
    class, and carries the whole type of that stream.  For a stream that
    is not a BLOB stream this is the scale type, and the kernel of the
    unit crops and scales.  For a BLOB stream it is the scale type
    together with the JPEG type, which the kernel recognises as neither
    of its two types: it returns [OK] without touching the destination
    buffer.  The header values are any in which the three stream types are
    different single bits between the two shift bounds. *)
Theorem scale_unit_of_blob_stream_is_idle (inf : FrameInfo) (zoom : Q)
    (streams : list camera3_stream_t) (p' : t) (st : status_t)
    (need : bool) (k : nat) (n : UnitNode) (inb out : PostProcBuffer) :
  stream_types_ok T ->
  kPostProcessTypeScaleAndRotation T ≠ kPostProcessTypeJpegEncoder T ->
  kPostProcessTypeScaleAndRotation T ≠ kPostProcessTypeCopy T ->
  prepare T CHROME_BOARD inf zoom streams empty = Some (st, need, p') ->
  units p' !! k = Some n ->
  mName n = "ScaleRotation"%string ->
  unit_class n = ClsPostProcessUnit ∧
  ∃ s, s ∈ streams ∧
       wrap32 (width s * height s) ≠ wrap32 (fi_width inf * fi_height inf) ∧
       (format s ≠ HAL_PIXEL_FORMAT_BLOB ->
        unit_type n = kPostProcessTypeScaleAndRotation T) ∧
       (format s = HAL_PIXEL_FORMAT_BLOB ->
        unit_type n = Z.lor (kPostProcessTypeJpegEncoder T)
                            (kPostProcessTypeScaleAndRotation T) ∧
        BaseKernel.processFrame T data (unit_type n) inb out =
          Some (OK, BaseKernel.Idle)).
Proof.
  intros (Hmc & (b & Hb & HS) & (a & Ha & HJ) & (c & Hc & HC)) HSJ HSC
         Hprep Hk Hname.
  assert (Hab : a ≠ b) by (intros ->; congruence).
  assert (Hcb : c ≠ b) by (intros ->; congruence).
  assert (HlJS : Z.land (kPostProcessTypeJpegEncoder T)
                        (kPostProcessTypeScaleAndRotation T) = 0)
    by (rewrite HJ, HS; apply bit_land_zero; lia).
  assert (HlCS : Z.land (kPostProcessTypeCopy T)
                        (kPostProcessTypeScaleAndRotation T) = 0)
    by (rewrite HC, HS; apply bit_land_zero; lia).
  assert (HJ0 : kPostProcessTypeJpegEncoder T ≠ 0)
    by (rewrite HJ; pose proof (shiftl_1_pos a); lia).
  assert (HS0 : kPostProcessTypeScaleAndRotation T ≠ 0)
    by (rewrite HS; pose proof (shiftl_1_pos b); lia).
  destruct (prepare_units_made _ _ _ _ _ _ Hprep k n Hk)
    as [(i & bt & bt' & _ & E & _)|(s & i & bt & bt' & Hin & Hbit & E)].
  { apply common_unit_of_name in E. rewrite Hname in E.
    destruct E as [[E _]|[[E _]|[[E _]|[[E _]|[E _]]]]]; discriminate. }
  apply stream_unit_of_name in E. rewrite Hname in E.
  destruct E as [(_ & Hcls & Hi)|[[E _]|[E _]]]; [|discriminate..].
  split; [done|]. rewrite Hi in Hbit.
  apply analysis_elem in Hin as [Hs Hty]. exists s. split; [done|].
  unfold analyze_stream in Hty. cbn [fst] in Hty.
  destruct (Z.eqb_spec (format s) HAL_PIXEL_FORMAT_BLOB) as [Hblob|Hblob];
    destruct (Z.eqb_spec (wrap32 (width s * height s))
                         (wrap32 (fi_width inf * fi_height inf)))
      as [Hsize|Hsize]; cbn [negb] in Hty; rewrite ?Z.lor_0_l in Hty.
  - exfalso. destruct Hty as [Hty|[? _]]; [|done].
    rewrite Hty in Hbit. by apply Hbit.
  - split; [done|]. split; [done|]. intros _.
    destruct Hty as [Hty|[Hz _]].
    2:{ apply Z.lor_eq_0_iff in Hz as [? _]. done. }
    split; [done|]. unfold BaseKernel.processFrame. rewrite Hty.
    assert (Z.lor (kPostProcessTypeJpegEncoder T)
                  (kPostProcessTypeScaleAndRotation T) ≠
            kPostProcessTypeCopy T) as HneC.
    { intros Heq.
      assert (Z.land (kPostProcessTypeScaleAndRotation T)
                     (Z.lor (kPostProcessTypeJpegEncoder T)
                            (kPostProcessTypeScaleAndRotation T)) =
              kPostProcessTypeScaleAndRotation T) as Hx.
      { rewrite Z.land_lor_distr_r, Z.land_diag.
        rewrite (Z.land_comm (kPostProcessTypeScaleAndRotation T)), HlJS.
        apply Z.lor_0_l. }
      rewrite Heq, Z.land_comm, HlCS in Hx. done. }
    assert (Z.lor (kPostProcessTypeJpegEncoder T)
                  (kPostProcessTypeScaleAndRotation T) ≠
            kPostProcessTypeScaleAndRotation T) as HneS.
    { intros Heq.
      assert (Z.land (kPostProcessTypeJpegEncoder T)
                     (Z.lor (kPostProcessTypeJpegEncoder T)
                            (kPostProcessTypeScaleAndRotation T)) =
              kPostProcessTypeJpegEncoder T) as Hx.
      { rewrite Z.land_lor_distr_r, Z.land_diag, HlJS. apply Z.lor_0_r. }
      rewrite Heq, HlJS in Hx. done. }
    apply Z.eqb_neq in HneC, HneS. by rewrite HneC, HneS.
  - exfalso. destruct Hty as [Hty|[_ Hty]]; rewrite Hty in Hbit.
    + by rewrite Z.land_0_l in Hbit.
    + by apply Hbit.
  - split; [done|]. split; [|done]. intros _.
    by destruct Hty as [Hty|[? _]].
Qed.

(** X18. The unit named CropRotationScale that [prepare] makes for the
    common types is of the base class and carries the whole common type.
    When the copy type and the scale type share no bit with the rotation
    and zoom types, the kernel of the unit recognises that type as
    neither of its two: it returns [OK] and leaves the destination as it
    is. *)
Theorem rotation_unit_is_idle (inf : FrameInfo) (zoom : Q)
    (streams : list camera3_stream_t) (p' : t) (st : status_t)
    (need : bool) (k : nat) (n : UnitNode) (inb out : PostProcBuffer) :
  stream_types_ok T ->
  Z.land (kPostProcessTypeCopy T)
         (Z.lor (kPostProcessTypeCropRotationScale T)
                (kPostProcessTypeDigitalZoom T)) = 0 ->
  Z.land (kPostProcessTypeScaleAndRotation T)
         (Z.lor (kPostProcessTypeCropRotationScale T)
                (kPostProcessTypeDigitalZoom T)) = 0 ->
  prepare T CHROME_BOARD inf zoom streams empty = Some (st, need, p') ->
  units p' !! k = Some n ->
  mName n = "CropRotationScale"%string ->
  unit_class n = ClsPostProcessUnit ∧
  unit_type n = (analysis T CHROME_BOARD inf zoom streams).2 ∧
  BaseKernel.processFrame T data (unit_type n) inb out =
    Some (OK, BaseKernel.Idle).
Proof.
  intros (Hmc & (b & Hb & HS) & _ & (c & Hc & HC)) HlC HlS Hprep Hk Hname.
  assert (HC0 : kPostProcessTypeCopy T ≠ 0)
    by (rewrite HC; pose proof (shiftl_1_pos c); lia).
  assert (HS0 : kPostProcessTypeScaleAndRotation T ≠ 0)
    by (rewrite HS; pose proof (shiftl_1_pos b); lia).
  assert (Hwithin : ∀ x,
            Z.land x (Z.lor (kPostProcessTypeCropRotationScale T)
                            (kPostProcessTypeDigitalZoom T)) = 0 ->
            Z.land x (analysis T CHROME_BOARD inf zoom streams).2 = 0).
  { intros x Hx. rewrite Z.land_lor_distr_r in Hx.
    apply Z.lor_eq_0_iff in Hx as [Hx1 Hx2].
    unfold analysis.
    assert (Hgen : ∀ l c0, Z.land x c0 = 0 ->
              Z.land x (analyze_streams T CHROME_BOARD inf zoom l c0).2 = 0).
    { induction l as [|s l IH]; intros c0 Hc0; [done|].
      cbn [analyze_streams].
      assert (Z.land x (analyze_stream T CHROME_BOARD inf zoom c0 s).2 = 0)
        as Hstep.
      { unfold analyze_stream. cbn [snd].
        destruct (negb (getRotationDegrees _ s =? 0)),
                 (negb (Qle_bool zoom 1));
          rewrite ?Z.land_lor_distr_r, ?Hc0, ?Hx1, ?Hx2; done. }
      destruct (analyze_stream T CHROME_BOARD inf zoom c0 s) as [ty c1].
      specialize (IH c1 Hstep).
      by destruct (analyze_streams T CHROME_BOARD inf zoom l c1). }
    specialize (Hgen streams 0 (Z.land_0_r x)).
    by destruct (analyze_streams T CHROME_BOARD inf zoom streams 0). }
  destruct (prepare_units_made _ _ _ _ _ _ Hprep k n Hk)
    as [(i & bt & bt' & _ & E & Hty)|(s & i & bt & bt' & _ & _ & E)].
  2:{ apply stream_unit_of_name in E.
      destruct E as [(E & _)|[[E _]|[E _]]]; rewrite E in Hname;
        discriminate. }
  apply common_unit_of_name in E.
  assert (Hcls : unit_class n = ClsPostProcessUnit).
  { destruct E as [[E _]|[[_ E]|[[_ E]|[[E _]|[_ E]]]]]; [|done|done| |done];
      rewrite E in Hname; discriminate. }
  split; [done|]. split; [done|].
  unfold BaseKernel.processFrame. rewrite Hty.
  assert ((analysis T CHROME_BOARD inf zoom streams).2 ≠
          kPostProcessTypeCopy T) as H1.
  { intros Heq. pose proof (Hwithin _ HlC) as Hx.
    rewrite Heq, Z.land_diag in Hx. done. }
  assert ((analysis T CHROME_BOARD inf zoom streams).2 ≠
          kPostProcessTypeScaleAndRotation T) as H2.
  { intros Heq. pose proof (Hwithin _ HlS) as Hx.
    rewrite Heq, Z.land_diag in Hx. done. }
  apply Z.eqb_neq in H1, H2. by rewrite H1, H2.
Qed.

(** X19. No stream makes [prepare] ask for noise reduction, software
    lens shading or face detection: the common type is made of the
    rotation type and the zoom type only.  When the types of the header
    for uvnr, lens shading and face detection share no bit with these
    two, every unit of the prepared pipeline is one of digitalzoom,
    CropRotationScale, ScaleRotation, JpegEnc and MemCopy. *)
Theorem prepare_makes_five_kinds_of_units (inf : FrameInfo) (zoom : Q)
    (streams : list camera3_stream_t) (p' : t) (st : status_t)
    (need : bool) (k : nat) (n : UnitNode) :
  Z.land (kPostprocessTypeUvnr T)
         (Z.lor (kPostProcessTypeCropRotationScale T)
                (kPostProcessTypeDigitalZoom T)) = 0 ->
  Z.land (kPostProcessTypeSwLsc T)
         (Z.lor (kPostProcessTypeCropRotationScale T)
                (kPostProcessTypeDigitalZoom T)) = 0 ->
  Z.land (kPostProcessTypeFaceDetection T)
         (Z.lor (kPostProcessTypeCropRotationScale T)
                (kPostProcessTypeDigitalZoom T)) = 0 ->
  prepare T CHROME_BOARD inf zoom streams empty = Some (st, need, p') ->
  units p' !! k = Some n ->
  mName n ∈ ["digitalzoom"; "CropRotationScale"; "ScaleRotation";
             "JpegEnc"; "MemCopy"]%string.
Proof.
  intros Hu Hl Hf Hprep Hk.
  assert (Hwithin : ∀ x,
            Z.land x (Z.lor (kPostProcessTypeCropRotationScale T)
                            (kPostProcessTypeDigitalZoom T)) = 0 ->
            Z.land (analysis T CHROME_BOARD inf zoom streams).2 x = 0).
  { intros x Hx. rewrite Z.land_comm. rewrite Z.land_lor_distr_r in Hx.
    apply Z.lor_eq_0_iff in Hx as [Hx1 Hx2].
    unfold analysis.
    assert (Hgen : ∀ l c0, Z.land x c0 = 0 ->
              Z.land x (analyze_streams T CHROME_BOARD inf zoom l c0).2 = 0).
    { induction l as [|s l IH]; intros c0 Hc0; [done|].
      cbn [analyze_streams].
      assert (Z.land x (analyze_stream T CHROME_BOARD inf zoom c0 s).2 = 0)
        as Hstep.
      { unfold analyze_stream. cbn [snd].
        destruct (negb (getRotationDegrees _ s =? 0)),
                 (negb (Qle_bool zoom 1));
          rewrite ?Z.land_lor_distr_r, ?Hc0, ?Hx1, ?Hx2; done. }
      destruct (analyze_stream T CHROME_BOARD inf zoom c0 s) as [ty c1].
      specialize (IH c1 Hstep).
      by destruct (analyze_streams T CHROME_BOARD inf zoom l c1). }
    specialize (Hgen streams 0 (Z.land_0_r x)).
    by destruct (analyze_streams T CHROME_BOARD inf zoom streams 0). }
  destruct (prepare_units_made _ _ _ _ _ _ Hprep k n Hk)
    as [(i & bt & bt' & Hbit & E & _)|(s & i & bt & bt' & _ & _ & E)].
  - unfold common_unit_of in E.
    destruct (Z.eqb_spec (Z.shiftl 1 i) (kPostProcessTypeDigitalZoom T));
      [injection E as <- _ _; set_solver|].
    destruct (Z.eqb_spec (Z.shiftl 1 i) (kPostprocessTypeUvnr T)) as [Hx|].
    { exfalso. apply Hbit. rewrite Hx. by apply Hwithin. }
    destruct (Z.eqb_spec (Z.shiftl 1 i) (kPostProcessTypeCropRotationScale T));
      [injection E as <- _ _; set_solver|].
    destruct (Z.eqb_spec (Z.shiftl 1 i) (kPostProcessTypeSwLsc T)) as [Hx|].
    { exfalso. apply Hbit. rewrite Hx. by apply Hwithin. }
    destruct (Z.eqb_spec (Z.shiftl 1 i) (kPostProcessTypeFaceDetection T))
      as [Hx|]; [|done].
    exfalso. apply Hbit. rewrite Hx. by apply Hwithin.
  - apply stream_unit_of_name in E.
    destruct E as [(-> & _)|[[-> _]|[-> _]]]; set_solver.
Qed.

End Kernels.

End Builder.

End BuilderMoreFacts.

(** ** The pipeline at run time *)

Module RuntimeFacts.

Import PostProcessUnit PipelineRuntime.

Lemma bool_decide_snoc_ne (id x : nat) (ids : list nat) :
  id ≠ x -> bool_decide (id ∈ ids ++ [x]) = bool_decide (id ∈ ids).
Proof.
  intros Hne. apply bool_decide_ext.
  rewrite elem_of_app, list_elem_of_singleton. tauto.
Qed.

Lemma first_entries_snoc (l : list nat) (x : nat) :
  first_entries (l ++ [x]) =
  if bool_decide (x ∈ l) then first_entries l else first_entries l ++ [x].
Proof.
  induction l as [|a l IH]; [done|].
  cbn [app first_entries]. rewrite IH.
  destruct (decide (x = a)) as [->|Hne].
  - rewrite (bool_decide_eq_true_2 (a ∈ a :: l)) by (by left).
    destruct (bool_decide (a ∈ l)); [done|].
    rewrite filter_app, filter_cons_False, filter_nil, app_nil_r; [done|].
    by intros H.
  - assert (bool_decide (x ∈ a :: l) = bool_decide (x ∈ l)) as ->.
    { apply bool_decide_ext. rewrite elem_of_cons. intuition congruence. }
    destruct (bool_decide (x ∈ l)); [done|].
    by rewrite filter_app, filter_cons_True, filter_nil.
Qed.

Lemma acted_on_snoc (active : PostProcessUnit.t -> bool)
    (us : list PostProcessUnit.t) (ids : list nat) (x : nat) :
  acted_on active us (ids ++ [x]) =
  if from_option active false (us !! x) && negb (bool_decide (x ∈ ids))
  then acted_on active us ids ++ [x]
  else acted_on active us ids.
Proof.
  unfold acted_on. rewrite filter_app, filter_cons, filter_nil.
  destruct (from_option active false (us !! x)) eqn:Hx; cbn [andb].
  - rewrite decide_True by done. rewrite first_entries_snoc.
    assert (bool_decide
              (x ∈ filter (λ id, from_option active false (us !! id) = true)
                     ids) = bool_decide (x ∈ ids)) as ->.
    { apply bool_decide_ext. rewrite list_elem_of_filter. tauto. }
    by destruct (bool_decide (x ∈ ids)).
  - rewrite decide_False by done. by rewrite app_nil_r.
Qed.

Section Visits.

(** An operation that acts on a unit once: on an [active] unit it does
    [g] and makes the calls [e], after which the unit is not active. *)
Variable op : nat -> PostProcessUnit.t ->
              status_t * PostProcessUnit.t * list Event.
Variable active : PostProcessUnit.t -> bool.
Variable g : PostProcessUnit.t -> PostProcessUnit.t.
Variable st : nat -> status_t.
Variable e : list Event.
Hypothesis op_idle : ∀ id u, active u = false -> op id u = (OK, u, []).
Hypothesis op_active : ∀ id u, active u = true -> op id u = (st id, g u, e).
Hypothesis g_idle : ∀ u, active (g u) = false.

Lemma visit_levels (ids : list nat) (us0 : list PostProcessUnit.t) :
  ∃ ks us,
    fold_left (visit op) ids (OK, us0, []) =
      (fold_left (fun s id => Z.lor s (st id)) ks OK, us,
       flat_map (fun id => map (pair id) e) ks) ∧
    ks = acted_on active us0 ids ∧
    NoDup ks ∧
    (∀ id, id ∈ ks ↔ id ∈ ids ∧ ∃ u, us0 !! id = Some u ∧ active u = true) ∧
    length us = length us0 ∧
    (∀ id u, us0 !! id = Some u ->
       us !! id =
       Some (if bool_decide (id ∈ ids) && active u then g u else u)).
Proof.
  induction ids as [|x ids IH] using rev_ind.
  - exists [], us0. cbn. split; [done|]. split; [done|].
    split; [constructor|]. split.
    { intros id. split; [intros H | intros [H _]]; by apply elem_of_nil in H. }
    split; [done|]. intros id u Hu.
    by rewrite bool_decide_eq_false_2 by apply not_elem_of_nil.
  - destruct IH as (ks & us & Hfold & Hord & Hnd & Hks & Hlen & Hus).
    rewrite acted_on_snoc, <- Hord.
    rewrite fold_left_app, Hfold. cbn [fold_left]. unfold visit at 1.
    cbn [fst snd].
    destruct (us0 !! x) as [u|] eqn:Hx.
    + rewrite (Hus x u Hx).
      set (ux := if bool_decide (x ∈ ids) && active u then g u else u).
      assert (Hxlt : (x < length us)%nat)
        by (rewrite Hlen; by apply lookup_lt_Some in Hx).
      destruct (active ux) eqn:Hact.
      * assert (ux = u ∧ active u = true ∧ x ∉ ids) as (Hux & Hau & Hnin).
        { subst ux.
          destruct (bool_decide (x ∈ ids)) eqn:Hb; destruct (active u) eqn:Ha;
            cbn in *; try (rewrite g_idle in Hact; discriminate);
            try congruence.
          split; [done|]. split; [done|]. by apply bool_decide_eq_false_1 in Hb. }
        rewrite Hux, (op_active x u Hau).
        exists (ks ++ [x]), (<[x := g u]> us).
        split. { rewrite fold_left_app, flat_map_app. cbn. by rewrite app_nil_r. }
        split.
        { cbn [from_option]. rewrite Hau.
          by rewrite bool_decide_eq_false_2. }
        split.
        { apply NoDup_app. split; [done|]. split; [|apply NoDup_singleton].
          intros y Hy Hy'. apply list_elem_of_singleton in Hy' as ->.
          apply Hks in Hy as [Hy _]. done. }
        split.
        { intros id. rewrite !elem_of_app, !list_elem_of_singleton, Hks.
          split.
          - intros [[H1 H2]| ->]; [by split; [left|] | split; [by right | eauto]].
          - intros [[H1| ->] H2]; [left; by split | by right]. }
        split; [by rewrite length_insert|].
        intros id u' Hu'. destruct (decide (id = x)) as [->|Hne].
        -- rewrite list_lookup_insert_eq by done.
           assert (u' = u) as -> by congruence.
           rewrite bool_decide_eq_true_2 by (apply elem_of_app; right; by left).
           by rewrite Hau.
        -- rewrite list_lookup_insert_ne by done. rewrite (Hus id u' Hu').
           by rewrite bool_decide_snoc_ne.
      * rewrite (op_idle x ux Hact), Z.lor_0_r, app_nil_r.
        rewrite list_insert_id by (by rewrite (Hus x u Hx)).
        exists ks, us. split; [done|]. split.
        { cbn [from_option]. subst ux.
          destruct (active u) eqn:Hau; [|done].
          destruct (bool_decide (x ∈ ids)); [done|].
          cbn in Hact. congruence. }
        split; [done|]. split.
        { intros id. rewrite elem_of_app, list_elem_of_singleton, Hks.
          split; [intros [H1 H2]; split; [by left | done]|].
          intros [[H1| ->] H2]; [by split|].
          destruct H2 as (u' & Hu' & Ha'). assert (u' = u) as -> by congruence.
          subst ux. rewrite Ha', andb_true_r in Hact.
          destruct (bool_decide (x ∈ ids)) eqn:Hb; [|congruence].
          apply bool_decide_eq_true_1 in Hb. split; [done | eauto]. }
        split; [done|].
        intros id u' Hu'. rewrite (Hus id u' Hu').
        destruct (decide (id = x)) as [->|Hne].
        -- assert (u' = u) as -> by congruence.
           rewrite (bool_decide_eq_true_2 (x ∈ ids ++ [x]))
             by (apply elem_of_app; right; by left).
           subst ux. destruct (bool_decide (x ∈ ids)); [done|].
           cbn in *. by rewrite Hact.
        -- by rewrite bool_decide_snoc_ne.
    + assert (us !! x = None) as ->.
      { apply lookup_ge_None. rewrite Hlen. by apply lookup_ge_None. }
      exists ks, us. split; [done|]. split; [done|].
      split; [done|]. split.
      { intros id. rewrite elem_of_app, list_elem_of_singleton, Hks.
        split; [intros [H1 H2]; split; [by left | done]|].
        intros [[H1| ->] H2]; [by split|].
        destruct H2 as (u' & Hu' & _). congruence. }
      split; [done|].
      intros id u' Hu'. rewrite (Hus id u' Hu').
      destruct (decide (id = x)) as [->|Hne]; [congruence|].
      by rewrite bool_decide_snoc_ne.
Qed.

End Visits.

Section Runtime.

Variable thread_run_status : nat -> status_t.
Variable thread_exit_status : nat -> status_t.
Variable stream_of : CameraBuffer -> option Z.

(** X20. [start] of the pipeline starts the worker thread of every unit
    of the level arrays that is not running, once: a unit that sits in
    two arrays, as the last units do, is visited twice, and the second
    visit finds it running.  The units are started in the order of their
    first entries, first level first ([to_start]); the status is the
    bitwise or of what the started threads return, [OK] when all units
    were running; units outside the arrays are not touched. *)
Theorem pipeline_start_runs_each_thread_once (r : t) :
  ∃ ks us,
    start thread_run_status r =
      (fold_left (fun s id => Z.lor s (thread_run_status id)) ks OK,
       mk (layout r) us, map (fun id => (id, EvThreadRun)) ks) ∧
    ks = to_start r ∧
    NoDup ks ∧
    (∀ id, id ∈ ks ↔
           id ∈ all_levels (layout r) ∧
           ∃ u, objects r !! id = Some u ∧ mThreadRunning u = false) ∧
    length us = length (objects r) ∧
    (∀ id u, objects r !! id = Some u ->
       us !! id =
       Some (if bool_decide (id ∈ all_levels (layout r)) then started u
             else u)).
Proof.
  destruct (visit_levels
              (fun id => PostProcessUnit.start (thread_run_status id))
              (fun u => negb (mThreadRunning u)) (set_running true)
              thread_run_status [EvThreadRun])
    with (ids := all_levels (layout r)) (us0 := objects r)
    as (ks & us & Hfold & Hord & Hnd & Hks & Hlen & Hus).
  { intros id u Hu. unfold PostProcessUnit.start.
    by destruct (mThreadRunning u). }
  { intros id u Hu. unfold PostProcessUnit.start.
    by destruct (mThreadRunning u). }
  { done. }
  exists ks, us. unfold start. rewrite Hfold. cbn [fst snd].
  split. { f_equal. }
  split; [done|]. split; [done|]. split.
  { intros id. rewrite Hks. split; intros (H1 & u & H2 & H3);
      (split; [done|]); exists u; (split; [done|]);
      by destruct (mThreadRunning u). }
  split; [done|]. intros id u Hu. rewrite (Hus id u Hu). unfold started.
  by destruct (bool_decide _), (mThreadRunning u).
Qed.

Lemma stopped_not_running (u : PostProcessUnit.t) :
  mThreadRunning (stopped u) = false.
Proof.
  unfold stopped, PostProcessUnit.stop.
  by destruct (mThreadRunning u) eqn:E.
Qed.

(** X21. [stop] of the pipeline stops every running unit of the level
    arrays once: the worker is woken and joined once per unit, also for a
    unit that sits in two arrays, in the order of the first entries, first
    level first ([to_stop]); the status is the bitwise or of what the
    joins return.  Afterwards no unit of the arrays is running, and units
    outside the arrays are as before. *)
Theorem pipeline_stop_joins_each_thread_once (r : t) :
  ∃ ks us,
    stop thread_exit_status r =
      (fold_left (fun s id => Z.lor s (thread_exit_status id)) ks OK,
       mk (layout r) us,
       flat_map (fun id => [(id, EvConditionNotifyAll);
                            (id, EvThreadRequestExitAndWait)]) ks) ∧
    ks = to_stop r ∧
    NoDup ks ∧
    (∀ id, id ∈ ks ↔
           id ∈ all_levels (layout r) ∧
           ∃ u, objects r !! id = Some u ∧ mThreadRunning u = true) ∧
    length us = length (objects r) ∧
    (∀ id u, objects r !! id = Some u ->
       us !! id =
       Some (if bool_decide (id ∈ all_levels (layout r)) then stopped u
             else u)) ∧
    (∀ id u, id ∈ all_levels (layout r) -> us !! id = Some u ->
       mThreadRunning u = false).
Proof.
  destruct (visit_levels
              (fun id => PostProcessUnit.stop (thread_exit_status id))
              mThreadRunning stopped thread_exit_status
              [EvConditionNotifyAll; EvThreadRequestExitAndWait])
    with (ids := all_levels (layout r)) (us0 := objects r)
    as (ks & us & Hfold & Hord & Hnd & Hks & Hlen & Hus).
  { intros id u Hu. unfold PostProcessUnit.stop. by rewrite Hu. }
  { intros id u Hu. unfold stopped, PostProcessUnit.stop. by rewrite Hu. }
  { apply stopped_not_running. }
  exists ks, us. unfold stop. rewrite Hfold. cbn [fst snd].
  split; [done|]. split; [done|].
  split; [done|]. split; [done|]. split; [done|].
  assert (Hall : ∀ id u, objects r !! id = Some u ->
            us !! id =
            Some (if bool_decide (id ∈ all_levels (layout r)) then stopped u
                  else u)).
  { intros id u Hu. rewrite (Hus id u Hu).
    destruct (bool_decide _); [|done]. cbn.
    destruct (mThreadRunning u) eqn:E; [done|].
    unfold stopped, PostProcessUnit.stop. by rewrite E. }
  split; [done|].
  intros id u Hin Hu.
  destruct (objects r !! id) as [u0|] eqn:Hu0.
  - rewrite (Hall id u0 Hu0), bool_decide_eq_true_2 in Hu by done.
    injection Hu as <-. apply stopped_not_running.
  - apply lookup_ge_None in Hu0. apply lookup_lt_Some in Hu. lia.
Qed.

Lemma addOutputBuffer_unit (b : option BufRef) (u : PostProcessUnit.t) :
  PostProcessUnit.addOutputBuffer b u =
  if decide (mBufType u = kPostProcBufTypeExt)
  then (OK, set_outq (mOutBufferPool u ++ [b]) u)
  else (UNKNOWN_ERROR, u).
Proof.
  unfold PostProcessUnit.addOutputBuffer.
  by destruct (mBufType u); case_decide.
Qed.

Lemma routed_filter_snoc (r : t) (out : list PostProcBuffer)
    (b : PostProcBuffer) (id : nat) :
  filter (fun b => routed stream_of r b = Some id) (out ++ [b]) =
  filter (fun b => routed stream_of r b = Some id) out ++
  if bool_decide (routed stream_of r b = Some id) then [b] else [].
Proof.
  rewrite filter_app, filter_cons, filter_nil.
  by destruct (decide (routed stream_of r b = Some id));
    [rewrite bool_decide_eq_true_2 | rewrite bool_decide_eq_false_2].
Qed.

Lemma addOutputBuffer_fold (out : list PostProcBuffer) (r : t) :
  (∀ b s, b ∈ out -> stream_of_buffer stream_of b = Some s ->
     ∃ id, PostProcessPipeLine.mStreamToProcUnitMap (layout r) !! s = Some id ∧
           is_Some (objects r !! id)) ->
  ∃ st us,
    fold_left
      (addOutputBuffer_step stream_of
         (PostProcessPipeLine.mStreamToProcUnitMap (layout r)))
      out (Some (OK, objects r)) = Some (st, us) ∧
    length us = length (objects r) ∧
    (∀ id u, objects r !! id = Some u ->
       us !! id =
       Some (if decide (mBufType u = kPostProcBufTypeExt)
             then set_outq
                    (mOutBufferPool u ++
                     map (fun b => Some (Ext b))
                         (filter (fun b => routed stream_of r b = Some id) out))
                    u
             else u)) ∧
    (st = OK ∨ st = UNKNOWN_ERROR) ∧
    (st = OK ↔
     ∀ b id u, b ∈ out -> routed stream_of r b = Some id ->
               objects r !! id = Some u -> mBufType u = kPostProcBufTypeExt).
Proof.
  induction out as [|b out IH] using rev_ind; intros Hroute.
  - exists OK, (objects r). cbn. split; [done|]. split; [done|]. split.
    { intros id u Hu. rewrite app_nil_r. by destruct u; case_decide. }
    split; [by left|]. split; [|done].
    intros _ b id u Hb. by apply elem_of_nil in Hb.
  - destruct IH as (st & us & Hfold & Hlen & Hus & Hst & Hok).
    { intros b' s Hb'. apply Hroute. apply elem_of_app. by left. }
    rewrite fold_left_app, Hfold. cbn [fold_left addOutputBuffer_step].
    destruct (stream_of_buffer stream_of b) as [s|] eqn:Hs.
    + destruct (Hroute b s) as (idb & Hm & ub & Hub);
        [apply elem_of_app; right; by left | done |].
      assert (Hrb : routed stream_of r b = Some idb)
        by (unfold routed; by rewrite Hs).
      assert (Hsame : filter (fun b => routed stream_of r b = Some idb)
                             (out ++ [b]) =
                      filter (fun b => routed stream_of r b = Some idb) out
                      ++ [b]).
      { by rewrite routed_filter_snoc, bool_decide_eq_true_2. }
      assert (Hother : ∀ id, id ≠ idb ->
                filter (fun b => routed stream_of r b = Some id) (out ++ [b]) =
                filter (fun b => routed stream_of r b = Some id) out).
      { intros id Hne. rewrite routed_filter_snoc, bool_decide_eq_false_2.
        - by rewrite app_nil_r.
        - congruence. }
      rewrite Hm, (Hus idb ub Hub), addOutputBuffer_unit.
      assert (Hlt : (idb < length us)%nat)
        by (rewrite Hlen; by apply lookup_lt_Some in Hub).
      destruct (decide (mBufType ub = kPostProcBufTypeExt)) as [Hext|Hext].
      * rewrite decide_True by done. rewrite Z.lor_0_r.
        eexists st, _. split; [done|]. split; [by rewrite length_insert|].
        split.
        { intros id u Hu. destruct (decide (id = idb)) as [->|Hne].
          - rewrite list_lookup_insert_eq by done.
            assert (u = ub) as -> by congruence.
            rewrite decide_True by done. rewrite Hsame.
            rewrite map_app, app_assoc. done.
          - rewrite list_lookup_insert_ne by done. rewrite (Hus id u Hu).
            by rewrite Hother. }
        split; [done|]. rewrite Hok. split.
        { intros H b' id u Hb'. apply elem_of_app in Hb' as [Hb'|Hb'].
          - by apply H.
          - apply list_elem_of_singleton in Hb' as ->. intros Hr Hu.
            congruence. }
        { intros H b' id u Hb'. apply H. apply elem_of_app. by left. }
      * rewrite decide_False by done.
        eexists _, _. split; [done|]. split; [by rewrite length_insert|].
        split.
        { intros id u Hu. destruct (decide (id = idb)) as [->|Hne].
          - rewrite list_lookup_insert_eq by done.
            assert (u = ub) as -> by congruence.
            by rewrite decide_False.
          - rewrite list_lookup_insert_ne by done. rewrite (Hus id u Hu).
            by rewrite Hother. }
        split. { right. by destruct Hst as [-> | ->]. }
        split.
        { intros H. exfalso. by destruct Hst as [-> | ->]. }
        { intros H. exfalso. apply Hext. apply (H b idb ub); [|done|done].
          apply elem_of_app. right. by left. }
    + assert (Hrb : routed stream_of r b = None)
        by (unfold routed; by rewrite Hs).
      assert (Hother : ∀ id,
                filter (fun b => routed stream_of r b = Some id) (out ++ [b]) =
                filter (fun b => routed stream_of r b = Some id) out).
      { intros id. rewrite routed_filter_snoc, bool_decide_eq_false_2.
        - by rewrite app_nil_r.
        - congruence. }
      exists st, us. split; [done|]. split; [done|]. split.
      { intros id u Hu. by rewrite (Hus id u Hu), Hother. }
      split; [done|]. rewrite Hok. split.
      { intros H b' id u Hb'. apply elem_of_app in Hb' as [Hb'|Hb'].
        - by apply H.
        - apply list_elem_of_singleton in Hb' as ->. congruence. }
      { intros H b' id u Hb'. apply H. apply elem_of_app. by left. }
Qed.

Lemma addOutputBuffer_fold_none (m : gmap Z nat) (out : list PostProcBuffer) :
  fold_left (addOutputBuffer_step stream_of m) out None = None.
Proof. by induction out. Qed.

(** X22. [addOutputBuffer] of the pipeline hands every buffer of a
    request to the unit the stream map names for the stream of the
    buffer, in the order of the request; buffers without a camera buffer
    or without a stream are passed over.  A unit of External regime
    queues its buffers behind those it holds; a unit of another regime
    refuses, the status is then [UNKNOWN_ERROR], and the buffers of the
    other streams are queued all the same.  The status is [OK] exactly
    when every unit addressed is of External regime.  A buffer whose
    stream is not in the stream map makes the function go through a null
    pointer. *)
Theorem addOutputBuffer_routes_by_stream (out : list PostProcBuffer) (r : t) :
  ((∀ b s, b ∈ out -> stream_of_buffer stream_of b = Some s ->
      ∃ id, PostProcessPipeLine.mStreamToProcUnitMap (layout r) !! s = Some id ∧
            is_Some (objects r !! id)) ->
   ∃ st us,
     addOutputBuffer stream_of out r = Some (st, mk (layout r) us) ∧
     length us = length (objects r) ∧
     (∀ id u, objects r !! id = Some u ->
        us !! id =
        Some (if decide (mBufType u = kPostProcBufTypeExt)
              then set_outq
                     (mOutBufferPool u ++
                      map (fun b => Some (Ext b))
                          (filter (fun b => routed stream_of r b = Some id)
                                  out))
                     u
              else u)) ∧
     (st = OK ∨ st = UNKNOWN_ERROR) ∧
     (st = OK ↔
      ∀ b id u, b ∈ out -> routed stream_of r b = Some id ->
                objects r !! id = Some u ->
                mBufType u = kPostProcBufTypeExt)) ∧
  ((∃ b s, b ∈ out ∧ stream_of_buffer stream_of b = Some s ∧
           PostProcessPipeLine.mStreamToProcUnitMap (layout r) !! s = None) ->
   addOutputBuffer stream_of out r = None).
Proof.
  split.
  - intros Hroute.
    destruct (addOutputBuffer_fold out r Hroute)
      as (st & us & Hfold & Hrest).
    exists st, us. unfold addOutputBuffer. by rewrite Hfold.
  - intros (b & s & Hb & Hs & Hm).
    apply list_elem_of_split in Hb as (l1 & l2 & ->).
    unfold addOutputBuffer. rewrite fold_left_app. cbn [fold_left].
    assert (addOutputBuffer_step stream_of
              (PostProcessPipeLine.mStreamToProcUnitMap (layout r))
              (fold_left
                 (addOutputBuffer_step stream_of
                    (PostProcessPipeLine.mStreamToProcUnitMap (layout r)))
                 l1 (Some (OK, objects r))) b = None) as ->.
    { unfold addOutputBuffer_step at 1.
      destruct (fold_left _ l1 _) as [[st us]|]; [|done].
      by rewrite Hs, Hm. }
    by rewrite addOutputBuffer_fold_none.
Qed.

(** X23. [setPostProcUnitAsync] stores its argument in the synchronous
    flag of the unit, and [enablePostProcUnit] its argument in the
    enabled flag; both return [OK], and do nothing for a null pointer or
    a unit the pipeline does not own.  So after
    [setPostProcUnitAsync(unit, true)] a running, enabled unit is
    synchronous: [notifyNewFrame] runs the processing in the thread of
    the caller and does not queue the frame, which with an empty input
    queue means that the caller waits, for good when nothing wakes it;
    after
    [setPostProcUnitAsync(unit, false)] the frame is queued and the
    worker signalled. *)
Theorem setPostProcUnitAsync_sets_sync (r : t) (id : nat)
    (u : PostProcessUnit.t) (b : bool)
    (STATUS_NEED_NEXT_INPUT_FRAME : status_t)
    (listener_status : nat -> option BufRef -> Z -> status_t)
    (listener_keeps : nat -> option BufRef -> Z -> bool)
    (woken : PostProcessUnit.t -> option PostProcessUnit.t)
    (processFrame : BufRef -> BufRef -> option ProcUnitSettings -> status_t)
    (buf : option BufRef) (s : option ProcUnitSettings) (fuel : nat) :
  objects r !! id = Some u ->
  (id ∈ PostProcessPipeLine.mPostProcUnits (layout r) ->
   setPostProcUnitAsync (Some id) b r =
     (OK, mk (layout r) (<[id := set_sync b u]> (objects r))) ∧
   enablePostProcUnit (Some id) b r =
     (OK, mk (layout r) (<[id := set_enable b u]> (objects r)))) ∧
  (id ∉ PostProcessPipeLine.mPostProcUnits (layout r) ->
   setPostProcUnitAsync (Some id) b r = (OK, r) ∧
   enablePostProcUnit (Some id) b r = (OK, r)) ∧
  setPostProcUnitAsync None b r = (OK, r) ∧
  enablePostProcUnit None b r = (OK, r) ∧
  (mThreadRunning u = true -> mEnable u = true -> mInBufferPool u = [] ->
   prepareProcess (set_sync true u) = Waits ∧
   (woken (set_sync true u) = None ->
    notifyNewFrame STATUS_NEED_NEXT_INPUT_FRAME listener_status
                   listener_keeps woken processFrame (S fuel) buf s 0
                   (set_sync true u) =
      ProcWaits (set_sync true u) []) ∧
   notifyNewFrame STATUS_NEED_NEXT_INPUT_FRAME listener_status listener_keeps
                  woken processFrame (S fuel) buf s 0 (set_sync false u) =
     ProcReturns OK (set_inq [(buf, s)] (set_sync false u))
                 [EvConditionNotifyAll]).
Proof.
  intros Hu.
  unfold setPostProcUnitAsync, enablePostProcUnit, on_owned_unit.
  split; [|split; [|split; [done|split; [done|]]]].
  - intros Hin. rewrite bool_decide_eq_true_2 by done. by rewrite Hu.
  - intros Hnin. by rewrite bool_decide_eq_false_2 by done.
  - intros Hrun Hen Hq.
    assert (Hwait : prepareProcess (set_sync true u) = Waits).
    { unfold prepareProcess. cbn. by rewrite Hrun, Hq. }
    split; [done|]. split.
    + intros Hw. unfold notifyNewFrame, doProcess. cbn [doProcess_loop].
      unfold prepareProcess_woken. rewrite Hwait, Hw.
      cbn. by rewrite Hrun, Hen.
    + unfold notifyNewFrame. cbn. by rewrite Hrun, Hen, Hq.
Qed.

(** X24. The buffers of a request are accepted.  When [prepare] has
    built the pipeline for more than one stream, or with common
    processing that needs no buffer, and the header values are as the
    loops of [prepare] take them to be, [addOutputBuffer] returns [OK] for
    any request whose buffers belong to the requested streams: no buffer
    meets a missing map entry or a unit that refuses it, and every buffer
    with a stream ends up in the output queue of the unit the stream map
    names for its stream, a unit of External regime. *)
Theorem request_buffers_are_accepted (T : PostProcessPipeLine.PostProcessTypes)
    (CHROME_BOARD : bool) (inf : FrameInfo) (zoom : Q)
    (streams : list PostProcessPipeLine.camera3_stream_t)
    (p' : PostProcessPipeLine.t) (st : status_t) (need : bool)
    (r : t) (out : list PostProcBuffer) :
  BuilderSpec.stream_types_ok T ->
  (1 < length streams)%nat ∨
  PostProcessPipeLine.exclude_no_buffer T
    (BuilderSpec.analysis T CHROME_BOARD inf zoom streams).2 = 0 ->
  PostProcessPipeLine.prepare T CHROME_BOARD inf zoom streams
    PostProcessPipeLine.empty = Some (st, need, p') ->
  instance_of p' r ->
  (∀ b s, b ∈ out -> stream_of_buffer stream_of b = Some s ->
     ∃ stream, stream ∈ streams ∧
               PostProcessPipeLine.stream_addr stream = s) ->
  ∃ us,
    addOutputBuffer stream_of out r = Some (OK, mk p' us) ∧
    ∀ b, b ∈ out -> is_Some (stream_of_buffer stream_of b) ->
         ∃ id u, routed stream_of r b = Some id ∧ us !! id = Some u ∧
                 mBufType u = kPostProcBufTypeExt ∧
                 Some (Ext b) ∈ mOutBufferPool u.
Proof.
  intros Hok Hcopy Hprep [Hlayout Hobjs] Hout.
  destruct (BuilderMoreFacts.prepare_terminals_ok T CHROME_BOARD inf zoom
              streams p' st need Hok Hcopy Hprep) as [Hterm Hkeys].
  assert (Hroute : ∀ b s, b ∈ out -> stream_of_buffer stream_of b = Some s ->
            ∃ id u,
              PostProcessPipeLine.mStreamToProcUnitMap (layout r) !! s
                = Some id ∧
              objects r !! id = Some u ∧ mBufType u = kPostProcBufTypeExt).
  { intros b s Hb Hs. destruct (Hout b s Hb Hs) as (stream & Hin & <-).
    destruct (Hkeys stream Hin) as [id Hid].
    destruct (Hterm _ _ Hid) as (n & Hn & Hext & _).
    destruct (Forall2_lookup_l _ _ _ _ _ Hobjs Hn) as (u & Hu & Hbt).
    exists id, u. rewrite Hlayout. split; [done|]. split; [done|].
    congruence. }
  destruct (addOutputBuffer_fold out r) as (st' & us & Hfold & _ & Hus & _ & Hst).
  { intros b s Hb Hs. destruct (Hroute b s Hb Hs) as (id & u & Hm & Hu & _).
    exists id. split; [done | by exists u]. }
  assert (st' = OK) as ->.
  { apply Hst. intros b id u Hb Hr Hu. unfold routed in Hr.
    destruct (stream_of_buffer stream_of b) as [s|] eqn:Hs; [|done].
    destruct (Hroute b s Hb Hs) as (id' & u' & Hm & Hu' & Hext). congruence. }
  exists us. split.
  { unfold addOutputBuffer. by rewrite Hfold, Hlayout. }
  intros b Hb [s Hs]. destruct (Hroute b s Hb Hs) as (id & u & Hm & Hu & Hext).
  assert (Hr : routed stream_of r b = Some id)
    by (unfold routed; by rewrite Hs).
  exists id. eexists. split; [done|]. split; [by apply Hus|].
  rewrite decide_True by done. split; [done|].
  cbn [mOutBufferPool set_outq]. apply elem_of_app. right.
  apply list_elem_of_fmap. exists b. split; [done|].
  by apply list_elem_of_filter.
Qed.

End Runtime.

End RuntimeFacts.

(** ** The coefficient picture of the software lens-shading *)

Module SwLscPictureFacts.

Import PostProcessUnitSwLsc SwLscPicture.

Lemma align16_aligned (x : Z) : 0 <= x -> x mod 16 = 0 -> align16 x = x.
Proof.
  intros Hx Hm. unfold align16.
  rewrite <- Z.ldiff_land. change 15 with (Z.ones 4).
  rewrite Z.ldiff_ones_r by lia.
  rewrite Z.shiftr_div_pow2, Z.shiftl_mul_pow2 by lia.
  change (2 ^ 4) with 16.
  change (Z.ones 4) with 15.
  assert (Hq : x = 16 * (x / 16))
    by (pose proof (Z.div_mod x 16 ltac:(lia)); lia).
  assert ((x + 15) / 16 = x / 16) as ->.
  { symmetry. apply Z.div_unique with (r := 15); lia. }
  lia.
Qed.

Lemma lsc_config_sizes_aligned (w h : Z) :
  0 <= w -> w mod 16 = 0 -> 0 <= h -> h mod 16 = 0 ->
  lsc_config_sizes 1 w h =
  Some ([120; 120; 120; 120; 120; 120; 120; 120],
        [67; 68; 67; 68; 67; 68; 67; 68], 0%nat).
Proof.
  intros Hw Hwm Hh Hhm. unfold lsc_config_sizes. cbn.
  rewrite !Z.rem_mod_nonneg, Hwm, Hhm by lia. reflexivity.
Qed.

Lemma writes_elem (sizex sizey : list Z) (ymax xmax idx : Z) :
  idx ∈ calcu_coef_writes sizex sizey ymax xmax ↔
  ∃ i yb ys xb xs yo xo,
    (i = 0 ∨ i = 1) ∧ (yb, ys) ∈ spans sizey ∧ (xb, xs) ∈ spans sizex ∧
    0 <= yo < ys ∧ 0 <= xo < xs ∧
    idx = wrap32 (i * ymax * xmax + (yb + yo) * xmax + (xb + xo)).
Proof.
  unfold calcu_coef_writes. split.
  - intros H.
    apply list_elem_of_bind in H as (i & H & Hi).
    apply list_elem_of_bind in H as ([yb ys] & H & Hy).
    apply list_elem_of_bind in H as ([xb xs] & H & Hx).
    apply list_elem_of_bind in H as (yo & H & Hyo).
    apply list_elem_of_bind in H as (xo & H & Hxo).
    apply list_elem_of_singleton in H.
    apply elem_of_seqZ in Hyo, Hxo.
    exists i, yb, ys, xb, xs, yo, xo.
    repeat (split; [first [done | lia | idtac]|]); [|done].
    apply elem_of_cons in Hi as [->|Hi]; [by left|].
    apply list_elem_of_singleton in Hi. by right.
  - intros (i & yb & ys & xb & xs & yo & xo & Hi & Hy & Hx & Hyo & Hxo & ->).
    apply list_elem_of_bind. exists i. split.
    2:{ destruct Hi as [-> | ->]; [by left | right; by left]. }
    apply list_elem_of_bind. exists (yb, ys). split; [|done].
    apply list_elem_of_bind. exists (xb, xs). split; [|done].
    apply list_elem_of_bind. exists yo. split; [|apply elem_of_seqZ; lia].
    apply list_elem_of_bind. exists xo. split; [|apply elem_of_seqZ; lia].
    by apply list_elem_of_singleton.
Qed.

Lemma spans_x_default :
  Forall (fun bs => 0 <= bs.1 ∧ 0 <= bs.2 ∧ bs.1 + bs.2 <= 1920)
         (spans [120; 120; 120; 120; 120; 120; 120; 120]).
Proof. vm_compute spans. repeat (constructor; [cbn; lia|]). constructor. Qed.

Lemma spans_y_default :
  Forall (fun bs => 0 <= bs.1 ∧ 0 <= bs.2 ∧ bs.1 + bs.2 <= 1080)
         (spans [67; 68; 67; 68; 67; 68; 67; 68]).
Proof. vm_compute spans. repeat (constructor; [cbn; lia|]). constructor. Qed.

(** X25. The coefficient picture and the frame size.  [lsc_config]
    allocates two planes of the frame size for the picture, while
    [calcu_coef] fills a grid of 16 by 16 blocks whose sizes are those of
    a 1920x1080 frame whatever the frame is.  For a frame whose width
    and height are multiples of 16 (up to 16384), processed by a unit
    prepared for that size, every element written lies inside the
    allocated buffer exactly when 1079 * width + 1919 < width * height;
    in particular a frame less than 1080 lines high makes [calcu_coef]
    write behind the end of the buffer. *)
Theorem coefficient_picture_within_buffer (w h : Z) :
  0 < w <= 16384 -> w mod 16 = 0 ->
  0 < h <= 16384 -> h mod 16 = 0 ->
  ∃ ws,
    processFrame_writes (mkFrameInfo w h) w h = Some ws ∧
    ((∀ idx, idx ∈ ws -> 0 <= idx < coef_pic_elements w h) ↔
     1079 * w + 1919 < w * h) ∧
    (h < 1080 -> ∃ idx, idx ∈ ws ∧ coef_pic_elements w h <= idx).
Proof.
  intros Hw Hwm Hh Hhm. unfold processFrame_writes. cbn [fi_width fi_height].
  rewrite lsc_config_sizes_aligned by lia.
  eexists. split; [reflexivity|].
  unfold coef_pic_elements. rewrite !align16_aligned by lia.
  assert (Hw16 : wrap16 w = w) by (apply SwLscFacts.wrap16_small; lia).
  assert (Hh16 : wrap16 h = h) by (apply SwLscFacts.wrap16_small; lia).
  rewrite Hw16, Hh16.
  assert (Hlast : wrap32 (1 * h * w + (1013 + 66) * w + (1800 + 119)) ∈
                  calcu_coef_writes [120; 120; 120; 120; 120; 120; 120; 120]
                                    [67; 68; 67; 68; 67; 68; 67; 68] h w).
  { apply writes_elem. exists 1, 1013, 67, 1800, 120, 66, 119.
    split; [by right|].
    split; [vm_compute spans; repeat (first [by left | right])|].
    split; [vm_compute spans; repeat (first [by left | right])|].
    split; [lia|]. split; [lia|]. done. }
  assert (Hval : wrap32 (1 * h * w + (1013 + 66) * w + (1800 + 119)) =
                 h * w + 1079 * w + 1919).
  { unfold wrap32. rewrite Z.mod_small; [lia|].
    change (2 ^ 32) with 4294967296. nia. }
  rewrite Hval in Hlast.
  split; [split|].
  - intros Hall. specialize (Hall _ Hlast). lia.
  - intros Hsafe idx Hidx.
    apply writes_elem in Hidx
      as (i & yb & ys & xb & xs & yo & xo & Hi & Hy & Hx & Hyo & Hxo & ->).
    pose proof (proj1 (Forall_forall _ _) spans_y_default _ Hy) as Hyb.
    pose proof (proj1 (Forall_forall _ _) spans_x_default _ Hx) as Hxb.
    cbn [fst snd] in Hyb, Hxb.
    assert (0 <= i * h * w + (yb + yo) * w + (xb + xo) <=
            h * w + 1079 * w + 1919) as Hb.
    { destruct Hi as [-> | ->]; nia. }
    unfold wrap32. rewrite Z.mod_small; [lia|].
    change (2 ^ 32) with 4294967296. nia.
  - intros Hlow. exists (h * w + 1079 * w + 1919). split; [done|]. nia.
Qed.

End SwLscPictureFacts.

(** ** The buffers of the frame worker *)

Module FrameWorkerFacts.

Import FrameWorker.

Section Worker.

Variable fresh_buffer : V4L2Buffer.
Variable setBufferPool : list V4L2Buffer -> Z -> status_t * list V4L2Buffer.
Variable allocateHeapBuffer : nat -> option Z.
Variable exportFrame : nat -> Z.
Variable V4L2_META_FMT_RK_ISP1_PARAMS : Z.

Lemma allocate_loop_userptr (ptr : nat -> Z) (n : nat) :
  ∀ (i j : nat) (w : t),
    (i <= j <= i + n)%nat ->
    (i + n <= length (mBuffers w))%nat ->
    (∀ k, (i <= k < j)%nat -> allocateHeapBuffer k = Some (ptr k)) ->
    ((j < i + n)%nat -> allocateHeapBuffer j = None) ->
    ∃ w',
      allocate_loop allocateHeapBuffer exportFrame
                    V4L2_META_FMT_RK_ISP1_PARAMS V4L2_MEMORY_USERPTR n i w =
        Some (if decide (j < i + n)%nat then NO_MEMORY else OK, w') ∧
      mCameraBuffers w' =
        mCameraBuffers w ++ map (fun k => HeapBuffer (ptr k)) (seq i (j - i)) ∧
      sizeimage w' = sizeimage w ∧
      mPipelineDepth w' = mPipelineDepth w ∧
      length (mBuffers w') = length (mBuffers w) ∧
      ∀ k, mBuffers w' !! k =
           (fun b => if decide (i <= k < j)%nat
                     then setBytesused (sizeimage w) (setUserptr (ptr k) b)
                     else b) <$> mBuffers w !! k.
Proof.
  induction n as [|n IH]; intros i j w Hij Hlen Hok Hfail.
  - exists w. cbn [allocate_loop]. rewrite decide_False by lia.
    replace (j - i)%nat with 0%nat by lia. cbn [seq map].
    rewrite app_nil_r. repeat (split; [done|]).
    intros k. destruct (mBuffers w !! k); cbn; [|done].
    by rewrite decide_False by lia.
  - cbn [allocate_loop]. rewrite Z.eqb_refl.
    destruct (decide (i = j)) as [->|Hne].
    + rewrite Hfail by lia. exists w. rewrite decide_True by lia.
      replace (j - j)%nat with 0%nat by lia. cbn [seq map].
      rewrite app_nil_r. repeat (split; [done|]).
      intros k. destruct (mBuffers w !! k); cbn; [|done].
      by rewrite decide_False by lia.
    + rewrite (Hok i) by lia.
      destruct (lookup_lt_is_Some_2 (mBuffers w) i) as [b Hb]; [lia|].
      rewrite Hb.
      destruct (IH (S i) j
                  (push_camera_buffer (HeapBuffer (ptr i))
                     (set_buffers
                        (<[i := setBytesused (sizeimage w)
                                  (setUserptr (ptr i) b)]> (mBuffers w)) w)))
        as (w' & Hrun & Hcam & Hsz & Hdepth & Hl & Hbuf).
      { lia. }
      { cbn. rewrite length_insert. lia. }
      { intros k Hk. apply Hok. lia. }
      { intros Hj. apply Hfail. lia. }
      exists w'. split.
      { rewrite Hrun. f_equal. f_equal.
        destruct (decide (j < S i + n)%nat), (decide (j < i + S n)%nat);
          done || lia. }
      split.
      { rewrite Hcam. cbn [mCameraBuffers push_camera_buffer set_buffers].
        rewrite <- app_assoc. f_equal.
        replace (j - i)%nat with (S (j - S i)) by lia. done. }
      split; [by rewrite Hsz|]. split; [by rewrite Hdepth|]. split.
      { rewrite Hl. cbn. by rewrite length_insert. }
      intros k. rewrite Hbuf. cbn [mBuffers push_camera_buffer set_buffers
                                   sizeimage].
      destruct (decide (k = i)) as [->|Hki].
      * rewrite list_lookup_insert_eq by lia. rewrite Hb. cbn.
        rewrite decide_False by lia. by rewrite decide_True by lia.
      * rewrite list_lookup_insert_ne by done.
        destruct (mBuffers w !! k); cbn; [|done].
        destruct (decide (S i <= k < j)%nat), (decide (i <= k < j)%nat);
          done || lia.
Qed.

(** X26. [allocateWorkerBuffers] undoes nothing.  With heap buffers
    ([V4L2_MEMORY_USERPTR]) and a vector of V4L2 buffers at least as long
    as the pipeline is deep, the rounds before the first failing
    allocation each leave a camera buffer behind the ones the worker had,
    and the user pointer and the image size in the V4L2 buffer of the
    round; the first allocation that fails ends the function with
    [NO_MEMORY], these buffers staying in the worker, and without a
    failure the result is [OK].  A memory type that is neither user
    pointer nor memory map gives [BAD_VALUE] and no change, but only if
    the pipeline depth is not zero.  With memory mapping and a vector
    shorter than the depth the function reads behind the end of the
    vector. *)
Theorem allocateWorkerBuffers_keeps_what_it_made (w : t) (memType : Z)
    (ptr : nat -> Z) (j : nat) :
  ((j <= mPipelineDepth w <= length (mBuffers w))%nat ->
   (∀ k, (k < j)%nat -> allocateHeapBuffer k = Some (ptr k)) ->
   ((j < mPipelineDepth w)%nat -> allocateHeapBuffer j = None) ->
   ∃ w',
     allocateWorkerBuffers allocateHeapBuffer exportFrame
                           V4L2_META_FMT_RK_ISP1_PARAMS
                           V4L2_MEMORY_USERPTR w =
       Some (if decide (j < mPipelineDepth w)%nat then NO_MEMORY else OK,
             w') ∧
     mCameraBuffers w' =
       mCameraBuffers w ++ map (fun k => HeapBuffer (ptr k)) (seq 0 j) ∧
     length (mBuffers w') = length (mBuffers w) ∧
     ∀ k, mBuffers w' !! k =
          (fun b => if decide (k < j)%nat
                    then setBytesused (sizeimage w) (setUserptr (ptr k) b)
                    else b) <$> mBuffers w !! k) ∧
  (memType ≠ V4L2_MEMORY_USERPTR -> memType ≠ V4L2_MEMORY_MMAP ->
   allocateWorkerBuffers allocateHeapBuffer exportFrame
                         V4L2_META_FMT_RK_ISP1_PARAMS memType w =
     Some (if decide (mPipelineDepth w = 0%nat) then OK else BAD_VALUE, w)) ∧
  ((length (mBuffers w) < mPipelineDepth w)%nat ->
   allocateWorkerBuffers allocateHeapBuffer exportFrame
                         V4L2_META_FMT_RK_ISP1_PARAMS
                         V4L2_MEMORY_MMAP w = None).
Proof.
  split; [|split].
  - intros Hj Hok Hfail.
    destruct (allocate_loop_userptr ptr (mPipelineDepth w) 0 j w)
      as (w' & Hrun & Hcam & _ & _ & Hlen & Hbuf).
    { lia. } { lia. } { intros k Hk. apply Hok. lia. }
    { intros H. apply Hfail. lia. }
    exists w'. unfold allocateWorkerBuffers. rewrite Hrun.
    split; [done|]. split; [by rewrite Hcam, Nat.sub_0_r|].
    split; [done|]. intros k. rewrite Hbuf.
    destruct (mBuffers w !! k); cbn; [|done].
    destruct (decide (0 <= k < j)%nat), (decide (k < j)%nat); done || lia.
  - intros H1 H2. unfold allocateWorkerBuffers.
    destruct (mPipelineDepth w) as [|d]; [done|].
    cbn [allocate_loop]. apply Z.eqb_neq in H1, H2. by rewrite H1, H2.
  - intros Hshort. unfold allocateWorkerBuffers.
    assert (Hgen : ∀ n i w0,
              (length (mBuffers w0) < i + n)%nat ->
              (i <= length (mBuffers w0))%nat ->
              allocate_loop allocateHeapBuffer exportFrame
                            V4L2_META_FMT_RK_ISP1_PARAMS V4L2_MEMORY_MMAP
                            n i w0 = None).
    { induction n as [|n IH]; intros i w0 Hn Hi; [lia|].
      cbn [allocate_loop].
      change (V4L2_MEMORY_MMAP =? V4L2_MEMORY_USERPTR) with false.
      rewrite Z.eqb_refl. cbn match.
      destruct (mBuffers w0 !! i) as [b|] eqn:Hb; [|done].
      apply lookup_lt_Some in Hb.
      apply IH; cbn; rewrite length_insert; lia. }
    apply Hgen; lia.
Qed.

Lemma allocate_loop_mmap (n : nat) :
  ∀ (i : nat) (w : t),
    (i + n <= length (mBuffers w))%nat ->
    ∃ w' new,
      allocate_loop allocateHeapBuffer exportFrame
                    V4L2_META_FMT_RK_ISP1_PARAMS V4L2_MEMORY_MMAP n i w =
        Some (OK, w') ∧
      mCameraBuffers w' = mCameraBuffers w ++ new ∧
      length new = n ∧
      (∀ k, (k < n)%nat ->
            new !! k =
            slot_buffer allocateHeapBuffer exportFrame
                        V4L2_META_FMT_RK_ISP1_PARAMS V4L2_MEMORY_MMAP w
                        (i + k)) ∧
      length (mBuffers w') = length (mBuffers w) ∧
      ∀ k, mBuffers w' !! k =
           (fun b => if decide (i <= k < i + n)%nat
                     then setBytesused (sizeimage w) b else b)
           <$> mBuffers w !! k.
Proof.
  induction n as [|n IH]; intros i w Hlen.
  - exists w, []. cbn [allocate_loop]. rewrite app_nil_r.
    repeat (split; [done|]). split; [intros k Hk; lia|]. split; [done|].
    intros k. destruct (mBuffers w !! k); cbn; [|done].
    by rewrite decide_False by lia.
  - cbn [allocate_loop].
    change (V4L2_MEMORY_MMAP =? V4L2_MEMORY_USERPTR) with false.
    rewrite Z.eqb_refl. cbn match.
    destruct (lookup_lt_is_Some_2 (mBuffers w) i) as [b Hb]; [lia|].
    rewrite Hb.
    set (cb := MappedBuffer (exportFrame i) (buf_length b) (buf_offset b)
                 (if pixelformat w =? V4L2_META_FMT_RK_ISP1_PARAMS
                  then Z.lor PROT_READ PROT_WRITE else PROT_READ)).
    destruct (IH (S i)
                (push_camera_buffer cb
                   (set_buffers
                      (<[i := setBytesused (sizeimage w) b]> (mBuffers w)) w)))
      as (w' & new & Hrun & Hcam & Hnew & Hslots & Hl & Hbuf).
    { cbn. rewrite length_insert. lia. }
    exists w', (cb :: new). split; [done|]. split.
    { rewrite Hcam. cbn [mCameraBuffers push_camera_buffer set_buffers].
      by rewrite <- app_assoc. }
    split; [cbn; by rewrite Hnew|]. split.
    { intros [|k] Hk.
      - cbn [lookup list_lookup]. unfold slot_buffer.
        change (V4L2_MEMORY_MMAP =? V4L2_MEMORY_USERPTR) with false.
        cbn match. by rewrite Nat.add_0_r, Hb.
      - cbn [lookup list_lookup]. rewrite Hslots by lia.
        unfold slot_buffer.
        change (V4L2_MEMORY_MMAP =? V4L2_MEMORY_USERPTR) with false.
        cbn match.
        cbn [mBuffers push_camera_buffer set_buffers pixelformat].
        rewrite list_lookup_insert_ne by lia.
        by replace (S i + k)%nat with (i + S k)%nat by lia. }
    split. { rewrite Hl. cbn. by rewrite length_insert. }
    intros k. rewrite Hbuf.
    cbn [mBuffers push_camera_buffer set_buffers sizeimage].
    destruct (decide (k = i)) as [->|Hki].
    + rewrite list_lookup_insert_eq by lia. rewrite Hb. cbn.
      rewrite decide_False by lia. by rewrite decide_True by lia.
    + rewrite list_lookup_insert_ne by done.
      destruct (mBuffers w !! k); cbn; [|done].
      repeat case_decide; done || lia.
Qed.

(** X27. [setWorkerDeviceBuffers] followed by [allocateWorkerBuffers]
    on a memory-mapped node.  Every call of [setWorkerDeviceBuffers]
    puts as many new V4L2 buffers as the pipeline is deep behind those
    the worker holds, and hands the whole vector to the node.  If the
    node keeps the length of the vector, [allocateWorkerBuffers] then
    returns [OK]: it maps the first [mPipelineDepth] buffers of the
    vector, in order, each with the length and offset the node gave it,
    sets their used size to the image size, and leaves the other buffers
    of the vector alone. *)
Theorem mapped_worker_buffers (w : t) :
  (∀ bs m, length (setBufferPool bs m).2 = length bs) ->
  let r := setWorkerDeviceBuffers fresh_buffer setBufferPool
                                  V4L2_MEMORY_MMAP w in
  r.1 = (setBufferPool
           (mBuffers w ++ replicate (mPipelineDepth w) fresh_buffer)
           V4L2_MEMORY_MMAP).1 ∧
  length (mBuffers r.2) = (length (mBuffers w) + mPipelineDepth w)%nat ∧
  ∃ w2 new,
    allocateWorkerBuffers allocateHeapBuffer exportFrame
                          V4L2_META_FMT_RK_ISP1_PARAMS V4L2_MEMORY_MMAP r.2 =
      Some (OK, w2) ∧
    mCameraBuffers w2 = mCameraBuffers w ++ new ∧
    length new = mPipelineDepth w ∧
    (∀ k, (k < mPipelineDepth w)%nat ->
          new !! k =
          slot_buffer allocateHeapBuffer exportFrame
                      V4L2_META_FMT_RK_ISP1_PARAMS V4L2_MEMORY_MMAP r.2 k) ∧
    ∀ k, mBuffers w2 !! k =
         (fun b => if decide (k < mPipelineDepth w)%nat
                   then setBytesused (sizeimage w) b else b)
         <$> mBuffers r.2 !! k.
Proof.
  intros Hpool r. subst r. unfold setWorkerDeviceBuffers.
  specialize (Hpool (mBuffers w ++ replicate (mPipelineDepth w) fresh_buffer)
                    V4L2_MEMORY_MMAP).
  destruct (setBufferPool _ V4L2_MEMORY_MMAP) as [ret pool].
  cbn [fst snd] in *. split; [done|].
  assert (Hlen : length pool = (length (mBuffers w) + mPipelineDepth w)%nat).
  { by rewrite Hpool, length_app, length_replicate. }
  split; [done|].
  destruct (allocate_loop_mmap (mPipelineDepth w) 0 (set_buffers pool w))
    as (w2 & new & Hrun & Hcam & Hnew & Hslots & _ & Hbuf).
  { cbn. lia. }
  exists w2, new. split; [done|]. split; [done|]. split; [done|].
  split; [done|].
  intros k. rewrite Hbuf. cbn [mBuffers set_buffers sizeimage].
  destruct (pool !! k); cbn; [|done].
  repeat case_decide; done || lia.
Qed.

End Worker.

End FrameWorkerFacts.

(** ** The further properties at concrete inputs *)

Module MoreExamples.

Import Samples MoreSamples.

(** A unit as constructed has no listener: a notification returns [OK] and
    calls nobody. *)
Lemma attachListener_then_notify_example :
  (PostProcessUnit.mListeners internal_unit = []) ∧
  (PostProcessUnit.notifyListeners listeners_ok internal_unit frame_5
     no_settings 0 =
     (OK, [])).
Proof.
  assert (W1 : PostProcessUnit.mListeners internal_unit = [])
    by (reflexivity).
  exact
    (conj W1 (proj2 (proj2 (proj2 (proj2 (UnitMoreFacts.attachListener_then_notify
    listeners_ok internal_unit 1%nat frame_5 no_settings 0)))) W1)).
Defined.

(** The idle unit waits and is woken without cause. *)
Lemma doProcess_after_wait_example :
  (PostProcessUnit.mThreadRunning idle_unit = true) ∧
  (PostProcessUnit.mInBufferPool idle_unit = []) ∧
  (woken_as_is idle_unit = Some idle_unit) ∧
  (idle_unit = idle_unit) ∧
  (PostProcessUnit.doProcess need_next listeners_ok keeps_none
     woken_as_is kernel_ok 1 idle_unit =
     PostProcessUnit.ProcUndefined).
Proof.
  assert (W1 : PostProcessUnit.mThreadRunning idle_unit = true)
    by (reflexivity).
  assert (W2 : PostProcessUnit.mInBufferPool idle_unit = [])
    by (reflexivity).
  assert (W3 : woken_as_is idle_unit = Some idle_unit)
    by (reflexivity).
  assert (W4 : idle_unit = idle_unit)
    by (reflexivity).
  exact (conj W1 (conj W2 (conj W3 (conj W4 (proj1 (proj2
    (UnitMoreFacts.doProcess_after_wait need_next listeners_ok keeps_none
    woken_as_is OK kernel_ok idle_unit idle_unit 0%nat W1 W2 W3)) W4))))).
Defined.

(** The prepared Internal unit with six queued inputs and a listener that
    keeps nothing: the four items of the pool go round. *)
Lemma thread_loop_in_order_example :
  (need_next ≠ OK) ∧
  ((∀ (b d : PostProcessUnit.BufRef) (s : option ProcUnitSettings),
      kernel_ok b d s ≠ need_next)) ∧
  ((∀ (l : nat) (b : option PostProcessUnit.BufRef) (e : Z),
      listeners_ok l b e = OK)) ∧
  ((∀ v : PostProcessUnit.t, never_woken v = None)) ∧
  (WorkerThread.ready busy_internal_unit [0%nat] six_frames four_items) ∧
  ((length six_frames + 2 <= 8)%nat) ∧
  (let result :=
     WorkerThread.served kernel_ok
       (WorkerThread.recycled keeps_none
          (PostProcessUnit.mBufType busy_internal_unit) [0%nat])
       [0%nat] six_frames four_items
     in
     (∃ u' : PostProcessUnit.t,
      WorkerThread.messageThreadLoop need_next listeners_ok
        keeps_none never_woken kernel_ok 8 busy_internal_unit [] =
      WorkerThread.LoopWaits u' result.1
      ∧ WorkerThread.ready u' [0%nat] [] result.2)
     ∧ (PostProcessUnit.mBufType busy_internal_unit =
      PostProcessUnit.kPostProcBufTypeExt
      ∨ (∀ (d : PostProcessUnit.BufRef) (e : Z),
           existsb (λ l : nat, keeps_none l (Some d) e) [0%nat] =
           true)
      → result =
        (WorkerThread.paired_notifications kernel_ok [0%nat]
           six_frames four_items,
         drop (length six_frames) four_items))
     ∧ (PostProcessUnit.mBufType busy_internal_unit =
        PostProcessUnit.kPostProcBufTypeInt
        → (∀ (l : nat) (d : option PostProcessUnit.BufRef) (e : Z),
             keeps_none l d e = false)
          → four_items ≠ []
            → result =
              (WorkerThread.round_robin_notifications kernel_ok
                 [0%nat] six_frames four_items,
               rotate (length six_frames) four_items))
       ∧ (PostProcessUnit.mBufType busy_internal_unit =
          PostProcessUnit.kPostProcBufTypeInt
          → ∀ s : nat,
              WorkerThread.ready
                (PostProcessUnit.item_returned s busy_internal_unit)
                [0%nat] six_frames
                (four_items ++ [PostProcessUnit.Item s]))).
Proof.
  assert (W1 : need_next ≠ OK)
    by (vm_compute; discriminate).
  assert (W2 : (∀ (b d : PostProcessUnit.BufRef) (s : option
    ProcUnitSettings), kernel_ok b d s ≠ need_next))
    by (intros; vm_compute; discriminate).
  assert (W3 : (∀ (l : nat) (b : option PostProcessUnit.BufRef) (e : Z),
    listeners_ok l b e = OK))
    by (intros; reflexivity).
  assert (W4 : (∀ v : PostProcessUnit.t, never_woken v = None))
    by (intros; reflexivity).
  assert (W5 : WorkerThread.ready busy_internal_unit [0%nat] six_frames
    four_items)
    by (unfold WorkerThread.ready, WorkerThread.has_supply; split;
        [reflexivity|]; split; [reflexivity|]; split; [reflexivity|]; split;
        [reflexivity|]; right; split; reflexivity).
  assert (W6 : (length six_frames + 2 <= 8)%nat)
    by (simpl; lia).
  exact (conj W1 (conj W2 (conj W3 (conj W4 (conj W5 (conj W6
    ((UnitMoreFacts.thread_loop_in_order need_next listeners_ok keeps_none
    never_woken kernel_ok W1 W2 W3 W4) [0%nat] six_frames four_items
    busy_internal_unit 8%nat W5 W6))))))).
Defined.

(** A prepared and started Internal unit is stopped. *)
Lemma stop_unlocks_pool_example :
  (PostProcessUnit.mThreadRunning running_internal_unit = true) ∧
  ((length
      (SharedItemPool.available
         (PostProcBufferPools.mPostProcItemsPool
            (PostProcessUnit.mInternalBufPool running_internal_unit))) <=
     PostProcessUnit.kDefaultAllocBufferNums)%nat) ∧
  (let r := PostProcessUnit.stop OK running_internal_unit in
     let u1 := r.1.2 in
     let p :=
     PostProcBufferPools.mPostProcItemsPool
       (PostProcessUnit.mInternalBufPool running_internal_unit)
     in
     let p1 :=
     PostProcBufferPools.mPostProcItemsPool
       (PostProcessUnit.mInternalBufPool u1)
     in
     r.1.1 = OK
     ∧ r.2 =
     [PostProcessUnit.EvConditionNotifyAll;
      PostProcessUnit.EvThreadRequestExitAndWait]
     ∧ PostProcessUnit.mThreadRunning u1 = false
       ∧ PostProcessUnit.mInBufferPool u1 =
         PostProcessUnit.mInBufferPool running_internal_unit
         ∧ PostProcessUnit.mOutBufferPool u1 =
           PostProcessUnit.mOutBufferPool running_internal_unit
           ∧ PostProcessUnit.mCurPostProcBufIn u1 =
             PostProcessUnit.mCurPostProcBufIn running_internal_unit
             ∧ PostProcessUnit.mCurPostProcBufOut u1 =
               PostProcessUnit.mCurPostProcBufOut
                 running_internal_unit
               ∧ length (SharedItemPool.slots p1) =
                 length (SharedItemPool.slots p)
                 ∧ SharedItemPool.available p1
                   ≡ₚ SharedItemPool.available p
                   ∧ (∀ (k : nat) (x : PostProcBuffer),
                        k ∈ SharedItemPool.available p
                        → SharedItemPool.slots p1 !! k = Some x
                          → WorkerThread.unlocked x)
                     ∧ (∀ k : nat,
                          k ∉ SharedItemPool.available p
                          → SharedItemPool.slots p1 !! k =
                            SharedItemPool.slots p !! k)
                       ∧ ∀ k : nat,
                           SharedItemPool.slots p1 !! k =
                           SharedItemPool.slots p !! k
                           ∨ SharedItemPool.slots p1 !! k =
                             PostProcessUnit.unlock_item <$>
                             SharedItemPool.slots p !! k).
Proof.
  assert (W1 : PostProcessUnit.mThreadRunning running_internal_unit = true)
    by (reflexivity).
  assert
    (W2 : (length (SharedItemPool.available (PostProcBufferPools.mPostProcItemsPool
    (PostProcessUnit.mInternalBufPool running_internal_unit))) <=
    PostProcessUnit.kDefaultAllocBufferNums)%nat)
    by (vm_compute; lia).
  exact (conj W1 (conj W2 (UnitMoreFacts.stop_unlocks_pool OK
    running_internal_unit W1 W2))).
Defined.

(** An Internal unit as constructed is prepared, every allocation
    succeeding. *)
Lemma prepare_fills_internal_pool_example :
  ((∀ i : nat,
      (i < PostProcessUnit.kDefaultAllocBufferNums)%nat
      → alloc_ok frame_1080p i = Some (nth_cam i))) ∧
  (PostProcessUnit.mBufType internal_unit =
     PostProcessUnit.kPostProcBufTypeInt) ∧
  (PostProcessUnit.prepare alloc_ok true frame_1080p internal_unit =
     (OK,
     PostProcessUnit.set_pool
      {|
        PostProcBufferPools.mBufferPoolSize := 4;
        PostProcBufferPools.mPostProcItemsPool :=
          {|
            SharedItemPool.slots :=
              [WorkerThread.filled 0 (nth_cam 0);
               WorkerThread.filled 1 (nth_cam 1);
               WorkerThread.filled 2 (nth_cam 2);
               WorkerThread.filled 3 (nth_cam 3)];
            SharedItemPool.available := [0%nat; 1%nat; 2%nat; 3%nat]
          |}
      |} internal_unit)).
Proof.
  assert (W1 : (∀ i : nat, (i < PostProcessUnit.kDefaultAllocBufferNums)%nat →
    alloc_ok frame_1080p i = Some (nth_cam i)))
    by (intros; reflexivity).
  assert (W2 : PostProcessUnit.mBufType internal_unit =
    PostProcessUnit.kPostProcBufTypeInt)
    by (reflexivity).
  exact (conj W1 (conj W2 (proj1 (UnitMoreFacts.prepare_fills_internal_pool
    alloc_ok internal_unit frame_1080p nth_cam W1) W2))).
Defined.

(** The third allocation fails: the first two buffers stay in the pool. *)
Lemma prepare_failure_keeps_buffers_example :
  (PostProcessUnit.mBufType internal_unit =
     PostProcessUnit.kPostProcBufTypeInt) ∧
  ((2 < PostProcessUnit.kDefaultAllocBufferNums)%nat) ∧
  ((∀ i : nat,
      (i < 2)%nat → alloc_two frame_1080p i = Some (nth_cam i))) ∧
  (alloc_two frame_1080p 2 = None) ∧
  ((PostProcessUnit.prepare alloc_two false frame_1080p
      internal_unit).1 =
     UNKNOWN_ERROR
     ∧ (let r :=
        PostProcessUnit.prepare alloc_two true frame_1080p
          internal_unit
        in
      let p :=
        PostProcBufferPools.mPostProcItemsPool
          (PostProcessUnit.mInternalBufPool r.2)
        in
      r.1 = NO_MEMORY
      ∧ length (SharedItemPool.slots p) = 4%nat
        ∧ length (SharedItemPool.available p) = 4%nat
          ∧ ∀ i : nat,
              (i < 4)%nat
              → SharedItemPool.slots p !! i =
                Some
                  (if decide (i < 2)%nat is left _
                   then WorkerThread.filled i (nth_cam i)
                   else
                    {|
                      index := Z.of_nat i;
                      cambuf := None;
                      request := 0
                    |}))).
Proof.
  assert (W1 : PostProcessUnit.mBufType internal_unit =
    PostProcessUnit.kPostProcBufTypeInt)
    by (reflexivity).
  assert (W2 : (2 < PostProcessUnit.kDefaultAllocBufferNums)%nat)
    by (unfold PostProcessUnit.kDefaultAllocBufferNums; lia).
  assert (W3 : (∀ i : nat, (i < 2)%nat → alloc_two frame_1080p i = Some
    (nth_cam i)))
    by (intros i Hi; unfold alloc_two, nth_cam; destruct (Nat.ltb_spec i 2);
        [reflexivity | lia]).
  assert (W4 : alloc_two frame_1080p 2 = None)
    by (reflexivity).
  exact
    (conj W1 (conj W2 (conj W3 (conj W4 (UnitMoreFacts.prepare_failure_keeps_buffers
    alloc_two internal_unit frame_1080p nth_cam 2%nat W1 W2 W3 W4))))).
Defined.

(** The life of an Internal unit as constructed. *)
Lemma prepare_start_stop_example :
  (PostProcessUnit.mBufType internal_unit =
     PostProcessUnit.kPostProcBufTypeInt) ∧
  (PostProcessUnit.mThreadRunning internal_unit = false) ∧
  ((∀ i : nat,
      (i < PostProcessUnit.kDefaultAllocBufferNums)%nat
      → alloc_ok frame_1080p i = Some (nth_cam i))) ∧
  (let u1 :=
     (PostProcessUnit.prepare alloc_ok true frame_1080p
        internal_unit).2
     in
     let started := PostProcessUnit.start OK u1 in
     let stopped := PostProcessUnit.stop OK started.1.2 in
     started.1.1 = OK
     ∧ started.2 = [PostProcessUnit.EvThreadRun]
     ∧ stopped.1.1 = OK
       ∧ stopped.2 =
         [PostProcessUnit.EvConditionNotifyAll;
          PostProcessUnit.EvThreadRequestExitAndWait]
         ∧ PostProcessUnit.mThreadRunning stopped.1.2 = false
           ∧ PostProcessUnit.mInternalBufPool stopped.1.2 =
             {|
               PostProcBufferPools.mBufferPoolSize := 4;
               PostProcBufferPools.mPostProcItemsPool :=
                 {|
                   SharedItemPool.slots :=
                     [WorkerThread.released 0 (nth_cam 0);
                      WorkerThread.released 1 (nth_cam 1);
                      WorkerThread.released 2 (nth_cam 2);
                      WorkerThread.released 3 (nth_cam 3)];
                   SharedItemPool.available :=
                     [0%nat; 1%nat; 2%nat; 3%nat]
                 |}
             |}).
Proof.
  assert (W1 : PostProcessUnit.mBufType internal_unit =
    PostProcessUnit.kPostProcBufTypeInt)
    by (reflexivity).
  assert (W2 : PostProcessUnit.mThreadRunning internal_unit = false)
    by (reflexivity).
  assert (W3 : (∀ i : nat, (i < PostProcessUnit.kDefaultAllocBufferNums)%nat →
    alloc_ok frame_1080p i = Some (nth_cam i)))
    by (intros; reflexivity).
  exact (conj W1 (conj W2 (conj W3 (UnitMoreFacts.prepare_start_stop OK OK
    alloc_ok internal_unit frame_1080p nth_cam W1 W2 W3)))).
Defined.

(** Two frames are pushed into the idle unit, which has one output buffer:
    the first frame is served, the second dropped. *)
Lemma pushed_frames_are_served_in_order_example :
  (need_next ≠ OK) ∧
  ((∀ (b d : PostProcessUnit.BufRef) (s : option ProcUnitSettings),
      kernel_ok b d s ≠ need_next)) ∧
  ((∀ (l : nat) (b : option PostProcessUnit.BufRef) (e : Z),
      listeners_ok l b e = OK)) ∧
  ((∀ v : PostProcessUnit.t, never_woken v = None)) ∧
  (WorkerThread.ready idle_unit [0%nat] [] one_output) ∧
  (PostProcessUnit.mEnable idle_unit = true) ∧
  (PostProcessUnit.mSyncProcess idle_unit = false) ∧
  ((length two_frames + 2 <= 4)%nat) ∧
  (let result :=
     WorkerThread.served kernel_ok
       (WorkerThread.recycled keeps_none
          (PostProcessUnit.mBufType idle_unit) [0%nat])
       [0%nat] two_frames one_output
     in
     ∃ u1 u2 : PostProcessUnit.t,
     WorkerThread.push_frames need_next listeners_ok keeps_none
       never_woken kernel_ok 1 two_frames idle_unit =
     Some
       (u1,
        repeat PostProcessUnit.EvConditionNotifyAll
          (length two_frames))
     ∧ PostProcessUnit.mInBufferPool u1 =
       map (λ '(b, s), (Some b, s)) two_frames
       ∧ WorkerThread.messageThreadLoop need_next listeners_ok
           keeps_none never_woken kernel_ok 4 u1 [] =
         WorkerThread.LoopWaits u2 result.1
         ∧ WorkerThread.ready u2 [0%nat] [] result.2).
Proof.
  assert (W1 : need_next ≠ OK)
    by (vm_compute; discriminate).
  assert (W2 : (∀ (b d : PostProcessUnit.BufRef) (s : option
    ProcUnitSettings), kernel_ok b d s ≠ need_next))
    by (intros; vm_compute; discriminate).
  assert (W3 : (∀ (l : nat) (b : option PostProcessUnit.BufRef) (e : Z),
    listeners_ok l b e = OK))
    by (intros; reflexivity).
  assert (W4 : (∀ v : PostProcessUnit.t, never_woken v = None))
    by (intros; reflexivity).
  assert (W5 : WorkerThread.ready idle_unit [0%nat] [] one_output)
    by (unfold WorkerThread.ready, WorkerThread.has_supply; split;
        [reflexivity|]; split; [reflexivity|]; split; [reflexivity|]; split;
        [reflexivity|]; left; split; reflexivity).
  assert (W6 : PostProcessUnit.mEnable idle_unit = true)
    by (reflexivity).
  assert (W7 : PostProcessUnit.mSyncProcess idle_unit = false)
    by (reflexivity).
  assert (W8 : (length two_frames + 2 <= 4)%nat)
    by (simpl; lia).
  exact (conj W1 (conj W2 (conj W3 (conj W4 (conj W5 (conj W6
    (conj W7 (conj W8 ((UnitMoreFacts.pushed_frames_are_served_in_order
    need_next listeners_ok keeps_none never_woken kernel_ok W1 W2 W3 W4)
    [0%nat] two_frames one_output idle_unit 1%nat 4%nat W5 W6 W7 W8))))))))).
Defined.

(** A frame for the synchronous unit, whose input queue is empty. *)
Lemma notifyNewFrame_gates_example :
  (PostProcessUnit.mThreadRunning sync_unit = true) ∧
  (PostProcessUnit.mEnable sync_unit = true) ∧
  (PostProcessUnit.mSyncProcess sync_unit = true) ∧
  (PostProcessUnit.notifyNewFrame need_next listeners_ok keeps_none
     never_woken kernel_ok 0 frame_5 no_settings 0 sync_unit =
     PostProcessUnit.doProcess need_next listeners_ok keeps_none
     never_woken kernel_ok 0 sync_unit
     ∧ (PostProcessUnit.mInBufferPool sync_unit = []
      → PostProcessUnit.prepareProcess sync_unit =
        PostProcessUnit.Waits
        ∧ (never_woken sync_unit = None
           → PostProcessUnit.notifyNewFrame need_next listeners_ok
               keeps_none never_woken kernel_ok 1 frame_5
               no_settings 0 sync_unit =
             PostProcessUnit.ProcWaits sync_unit [])
          ∧ ∀ u' : PostProcessUnit.t,
              never_woken sync_unit = Some u'
              → PostProcessUnit.mThreadRunning u' = true
                → PostProcessUnit.mInBufferPool u' = []
                  → PostProcessUnit.notifyNewFrame need_next
                      listeners_ok keeps_none never_woken kernel_ok
                      1 frame_5 no_settings 0 sync_unit =
                    PostProcessUnit.ProcUndefined)).
Proof.
  assert (W1 : PostProcessUnit.mThreadRunning sync_unit = true)
    by (reflexivity).
  assert (W2 : PostProcessUnit.mEnable sync_unit = true)
    by (reflexivity).
  assert (W3 : PostProcessUnit.mSyncProcess sync_unit = true)
    by (reflexivity).
  exact
    (conj W1 (conj W2 (conj W3 (proj2 (proj2 (UnitMoreFacts.notifyNewFrame_gates
    need_next listeners_ok keeps_none never_woken kernel_ok sync_unit frame_5
    no_settings 0 0%nat)) W1 W2 W3)))).
Defined.

(** Two output buffers, the first on the camera buffer of the input. *)
Lemma addSyncBuffersIfNeed_group_example :
  (cambuf (buf 7 0) = Some (cam 7)) ∧
  (OutputBuffersHandler.mMayNeedSyncStreamsOutput idle_handler = true
     ∧ (2 <= length [buf 7 1; buf 8 2])%nat
     ∧ cb_hasHandle (cam 7) = true
       ∧ Some (cb_addr (cam 7)) ∈ map cambuf_get [buf 7 1; buf 8 2]) ∧
  (∃ h' : OutputBuffersHandler.t,
     OutputBuffersHandler.addSyncBuffersIfNeed 
       (buf 7 0) [buf 7 1; buf 8 2] idle_handler =
     Some h'
     ∧ OutputBuffersHandler.mMayNeedSyncStreamsOutput h' = true
       ∧ OutputBuffersHandler.items h' =
         OutputBuffersHandler.items idle_handler ++
         [{|
            OutputBuffersHandler.sync_buffers := [buf 7 1; buf 8 2];
            OutputBuffersHandler.sync_nums :=
              Z.of_nat (length [buf 7 1; buf 8 2])
          |}]
         ∧ ∀ k : option Z,
             OutputBuffersHandler.mCamBufToSyncItemMap h' !! k =
             (if bool_decide (k ∈ map cambuf_get [buf 7 1; buf 8 2])
              then
               Some (length (OutputBuffersHandler.items idle_handler))
              else
               OutputBuffersHandler.mCamBufToSyncItemMap idle_handler
               !! k)).
Proof.
  assert (W1 : cambuf (buf 7 0) = Some (cam 7))
    by (reflexivity).
  assert (W2 : OutputBuffersHandler.mMayNeedSyncStreamsOutput idle_handler =
    true ∧ (2 <= length [buf 7 1; buf 8 2])%nat ∧ cb_hasHandle (cam 7) = true
    ∧ Some (cb_addr (cam 7)) ∈ map cambuf_get [buf 7 1; buf 8 2])
    by (split; [reflexivity|]; split; [simpl; lia|]; split; [reflexivity|];
        simpl; left).
  exact (conj W1 (conj W2 (proj2 (HandlerMoreFacts.addSyncBuffersIfNeed_group
    idle_handler (buf 7 0) (cam 7) [buf 7 1; buf 8 2] W1) W2))).
Defined.

(** Two deliveries to the handler of a pipeline with one stream. *)
Lemma single_stream_deliveries_pass_through_example :
  (OutputBuffersHandler.mMayNeedSyncStreamsOutput single_handler = false) ∧
  (OutputBuffersHandler.deliveries listener_ok two_deliveries
     single_handler =
     Some (single_handler, two_deliveries)).
Proof.
  assert (W1 : OutputBuffersHandler.mMayNeedSyncStreamsOutput single_handler =
    false)
    by (reflexivity).
  exact (conj W1 (HandlerMoreFacts.single_stream_deliveries_pass_through
    listener_ok single_handler two_deliveries W1)).
Defined.


(** A device with a maximal digital zoom of 4. *)
Lemma prepare_needs_postprocess_example :
  (PostProcessPipeLine.prepare sample_types false frame_1080p 4
     [stream_720p] PostProcessPipeLine.empty =
     Some (OK, true, zoom_scale_pipeline)) ∧
  ((1 < 4)%Q
     ∧ PostProcessPipeLine.exclude_no_buffer sample_types
       (PostProcessPipeLine.kPostProcessTypeDigitalZoom sample_types)
     ≠ 0
     ∨ (∃ s : PostProcessPipeLine.camera3_stream_t,
        s ∈ [stream_720p]
        ∧ PostProcessPipeLine.getRotationDegrees false s ≠ 0)
     ∧ PostProcessPipeLine.exclude_no_buffer sample_types
         (PostProcessPipeLine.kPostProcessTypeCropRotationScale
            sample_types)
       ≠ 0) ∧
  (true = true).
Proof.
  assert (W1 : PostProcessPipeLine.prepare sample_types false frame_1080p 4
    [stream_720p] PostProcessPipeLine.empty = Some
    (OK, true, zoom_scale_pipeline))
    by (vm_compute; reflexivity).
  assert (W2 : (1 < 4)%Q ∧ PostProcessPipeLine.exclude_no_buffer sample_types
    (PostProcessPipeLine.kPostProcessTypeDigitalZoom sample_types) ≠ 0 ∨
    (∃ s : PostProcessPipeLine.camera3_stream_t, s ∈ [stream_720p] ∧
    PostProcessPipeLine.getRotationDegrees false s ≠ 0) ∧
    PostProcessPipeLine.exclude_no_buffer sample_types
    (PostProcessPipeLine.kPostProcessTypeCropRotationScale sample_types) ≠ 0)
    by (left; split; [reflexivity | vm_compute; discriminate]).
  exact (conj W1 (conj W2 (BuilderMoreFacts.prepare_needs_postprocess
    sample_types false frame_1080p 4 [stream_720p] PostProcessPipeLine.empty
    zoom_scale_pipeline OK true W1 W2))).
Defined.

(** A 720p and a 1080p stream from a 1080p input. *)
Lemma prepare_gives_every_stream_a_terminal_example :
  (BuilderSpec.stream_types_ok sample_types) ∧
  ((1 < length [stream_720p; stream_1080p])%nat
     ∨ PostProcessPipeLine.exclude_no_buffer sample_types
       (BuilderSpec.analysis sample_types false frame_1080p 1
          [stream_720p; stream_1080p]).2 =
     0) ∧
  (PostProcessPipeLine.prepare sample_types false frame_1080p 1
     [stream_720p; stream_1080p] PostProcessPipeLine.empty =
     Some (OK, true, two_stream_pipeline)) ∧
  (∀ s : PostProcessPipeLine.camera3_stream_t,
     s ∈ [stream_720p; stream_1080p]
     → BuilderSpec.has_terminal two_stream_pipeline s).
Proof.
  assert (W1 : BuilderSpec.stream_types_ok sample_types)
    by (split; [cbn; lia|]; split; [exists 17; split; [cbn;
        lia | reflexivity]|]; split; [exists 18; split; [cbn;
        lia | reflexivity] | exists 19; split; [cbn; lia | reflexivity]]).
  assert (W2 : (1 < length [stream_720p; stream_1080p])%nat ∨
    PostProcessPipeLine.exclude_no_buffer sample_types
    (BuilderSpec.analysis sample_types false frame_1080p 1
    [stream_720p; stream_1080p]).2 = 0)
    by (left; simpl; lia).
  assert (W3 : PostProcessPipeLine.prepare sample_types false frame_1080p 1
    [stream_720p; stream_1080p] PostProcessPipeLine.empty = Some
    (OK, true, two_stream_pipeline))
    by (vm_compute; reflexivity).
  exact
    (conj W1 (conj W2 (conj W3 (BuilderMoreFacts.prepare_gives_every_stream_a_terminal
    sample_types false frame_1080p 1 [stream_720p; stream_1080p]
    two_stream_pipeline OK true W1 W2 W3)))).
Defined.

(** The scale unit behind the zoom unit is in the last bucket. *)
Lemma prepare_attaches_last_units_twice_example :
  (PostProcessPipeLine.prepare sample_types false frame_1080p 4
     [stream_720p] PostProcessPipeLine.empty =
     Some (OK, true, zoom_scale_pipeline)) ∧
  (∃ pred : nat,
     (∀ q : nat,
        q ≠ pred
        → BuilderSpec.attached_to zoom_scale_pipeline q 1 = 0%nat)
     ∧ BuilderSpec.attached_to zoom_scale_pipeline pred 1 =
       (PostProcessPipeLine.count_in
          (PostProcessPipeLine.mMiddleLevel zoom_scale_pipeline) 1 +
        PostProcessPipeLine.count_in
          (PostProcessPipeLine.mLastLevel zoom_scale_pipeline) 1)%nat
       ∧ (1%nat ∈ PostProcessPipeLine.mLastLevel zoom_scale_pipeline
          → BuilderSpec.attached_to zoom_scale_pipeline pred 1 = 2%nat)
         ∧ (1%nat ∈ PostProcessPipeLine.mFirstLevel zoom_scale_pipeline
            → BuilderSpec.attached_to zoom_scale_pipeline pred 1 =
              0%nat)).
Proof.
  assert (W1 : PostProcessPipeLine.prepare sample_types false frame_1080p 4
    [stream_720p] PostProcessPipeLine.empty = Some
    (OK, true, zoom_scale_pipeline))
    by (vm_compute; reflexivity).
  exact (conj W1 (BuilderMoreFacts.prepare_attaches_last_units_twice
    sample_types false frame_1080p 4 [stream_720p] zoom_scale_pipeline OK true
    1%nat W1)).
Defined.

(** A JPEG stream of 720p from a 1080p input: the scale unit in front of the
    encoder. *)
Lemma scale_unit_of_blob_stream_is_idle_example :
  (BuilderSpec.stream_types_ok sample_types) ∧
  (PostProcessPipeLine.kPostProcessTypeScaleAndRotation sample_types
     ≠ PostProcessPipeLine.kPostProcessTypeJpegEncoder sample_types) ∧
  (PostProcessPipeLine.kPostProcessTypeScaleAndRotation sample_types
     ≠ PostProcessPipeLine.kPostProcessTypeCopy sample_types) ∧
  (PostProcessPipeLine.prepare sample_types false frame_1080p 1
     [stream_jpeg_720p] PostProcessPipeLine.empty =
     Some (OK, true, jpeg_pipeline)) ∧
  (PostProcessPipeLine.units jpeg_pipeline !! 0%nat =
     Some (first_unit jpeg_pipeline)) ∧
  (PostProcessPipeLine.mName (first_unit jpeg_pipeline) =
     "ScaleRotation") ∧
  (PostProcessPipeLine.unit_class (first_unit jpeg_pipeline) =
     PostProcessPipeLine.ClsPostProcessUnit
     ∧ ∃ s : PostProcessPipeLine.camera3_stream_t,
       s ∈ [stream_jpeg_720p]
       ∧ wrap32
           (PostProcessPipeLine.width s *
            PostProcessPipeLine.height s)
         ≠ wrap32
             (fi_width frame_1080p * fi_height frame_1080p)
         ∧ (PostProcessPipeLine.format s
            ≠ PostProcessPipeLine.HAL_PIXEL_FORMAT_BLOB
            → PostProcessPipeLine.unit_type
                (first_unit jpeg_pipeline) =
              PostProcessPipeLine.kPostProcessTypeScaleAndRotation
                sample_types)
           ∧ (PostProcessPipeLine.format s =
              PostProcessPipeLine.HAL_PIXEL_FORMAT_BLOB
              → PostProcessPipeLine.unit_type
                  (first_unit jpeg_pipeline) =
                Z.lor
                  (PostProcessPipeLine.kPostProcessTypeJpegEncoder
                     sample_types)
                  (PostProcessPipeLine.kPostProcessTypeScaleAndRotation
                     sample_types)
                ∧ BaseKernel.processFrame sample_types
                    cb_addr
                    (PostProcessPipeLine.unit_type
                       (first_unit jpeg_pipeline))
                    (buf 1 10) (buf 2 20) =
                  Some (OK, BaseKernel.Idle))).
Proof.
  assert (W1 : BuilderSpec.stream_types_ok sample_types)
    by (split; [cbn; lia|]; split; [exists 17; split; [cbn;
        lia | reflexivity]|]; split; [exists 18; split; [cbn;
        lia | reflexivity] | exists 19; split; [cbn; lia | reflexivity]]).
  assert (W2 : PostProcessPipeLine.kPostProcessTypeScaleAndRotation
    sample_types ≠ PostProcessPipeLine.kPostProcessTypeJpegEncoder
    sample_types)
    by (vm_compute; discriminate).
  assert (W3 : PostProcessPipeLine.kPostProcessTypeScaleAndRotation
    sample_types ≠ PostProcessPipeLine.kPostProcessTypeCopy sample_types)
    by (vm_compute; discriminate).
  assert (W4 : PostProcessPipeLine.prepare sample_types false frame_1080p 1
    [stream_jpeg_720p] PostProcessPipeLine.empty = Some
    (OK, true, jpeg_pipeline))
    by (vm_compute; reflexivity).
  assert (W5 : PostProcessPipeLine.units jpeg_pipeline !! 0%nat = Some
    (first_unit jpeg_pipeline))
    by (vm_compute; reflexivity).
  assert (W6 : PostProcessPipeLine.mName (first_unit jpeg_pipeline) =
    "ScaleRotation")
    by (reflexivity).
  exact (conj W1 (conj W2 (conj W3 (conj W4 (conj W5 (conj W6
    (BuilderMoreFacts.scale_unit_of_blob_stream_is_idle sample_types false
    cb_addr frame_1080p 1 [stream_jpeg_720p] jpeg_pipeline OK true 0%nat
    (first_unit jpeg_pipeline) (buf 1 10) (buf 2 20) W1 W2 W3 W4 W5 W6))))))).
Defined.

(** A stream rotated by 90 degrees on a Chrome board. *)
Lemma rotation_unit_is_idle_example :
  (BuilderSpec.stream_types_ok sample_types) ∧
  (Z.land (PostProcessPipeLine.kPostProcessTypeCopy sample_types)
     (Z.lor
        (PostProcessPipeLine.kPostProcessTypeCropRotationScale
           sample_types)
        (PostProcessPipeLine.kPostProcessTypeDigitalZoom sample_types)) =
     0) ∧
  (Z.land
     (PostProcessPipeLine.kPostProcessTypeScaleAndRotation
        sample_types)
     (Z.lor
        (PostProcessPipeLine.kPostProcessTypeCropRotationScale
           sample_types)
        (PostProcessPipeLine.kPostProcessTypeDigitalZoom sample_types)) =
     0) ∧
  (PostProcessPipeLine.prepare sample_types true frame_1080p 1
     [stream_rotated] PostProcessPipeLine.empty =
     Some (OK, true, rotated_pipeline)) ∧
  (PostProcessPipeLine.units rotated_pipeline !! 0%nat =
     Some (first_unit rotated_pipeline)) ∧
  (PostProcessPipeLine.mName (first_unit rotated_pipeline) =
     "CropRotationScale") ∧
  (PostProcessPipeLine.unit_class
     (first_unit rotated_pipeline) =
     PostProcessPipeLine.ClsPostProcessUnit
     ∧ PostProcessPipeLine.unit_type
       (first_unit rotated_pipeline) =
     (BuilderSpec.analysis sample_types true frame_1080p 1
        [stream_rotated]).2
     ∧ BaseKernel.processFrame sample_types cb_addr
         (PostProcessPipeLine.unit_type
            (first_unit rotated_pipeline))
         (buf 1 10) (buf 2 20) =
       Some (OK, BaseKernel.Idle)).
Proof.
  assert (W1 : BuilderSpec.stream_types_ok sample_types)
    by (split; [cbn; lia|]; split; [exists 17; split; [cbn;
        lia | reflexivity]|]; split; [exists 18; split; [cbn;
        lia | reflexivity] | exists 19; split; [cbn; lia | reflexivity]]).
  assert (W2 : Z.land (PostProcessPipeLine.kPostProcessTypeCopy sample_types)
    (Z.lor (PostProcessPipeLine.kPostProcessTypeCropRotationScale
    sample_types) (PostProcessPipeLine.kPostProcessTypeDigitalZoom
    sample_types)) = 0)
    by (reflexivity).
  assert (W3 : Z.land (PostProcessPipeLine.kPostProcessTypeScaleAndRotation
    sample_types)
    (Z.lor (PostProcessPipeLine.kPostProcessTypeCropRotationScale
    sample_types) (PostProcessPipeLine.kPostProcessTypeDigitalZoom
    sample_types)) = 0)
    by (reflexivity).
  assert (W4 : PostProcessPipeLine.prepare sample_types true frame_1080p 1
    [stream_rotated] PostProcessPipeLine.empty = Some
    (OK, true, rotated_pipeline))
    by (vm_compute; reflexivity).
  assert (W5 : PostProcessPipeLine.units rotated_pipeline !! 0%nat = Some
    (first_unit rotated_pipeline))
    by (vm_compute; reflexivity).
  assert (W6 : PostProcessPipeLine.mName (first_unit rotated_pipeline) =
    "CropRotationScale")
    by (reflexivity).
  exact (conj W1 (conj W2 (conj W3 (conj W4 (conj W5 (conj W6
    (BuilderMoreFacts.rotation_unit_is_idle sample_types true cb_addr
    frame_1080p 1 [stream_rotated] rotated_pipeline OK true 0%nat
    (first_unit rotated_pipeline) (buf 1 10) (buf 2 20) W1 W2 W3 W4 W5
    W6))))))).
Defined.

(** The zoom unit of the pipeline of a zoom unit and a scale unit. *)
Lemma prepare_makes_five_kinds_of_units_example :
  (Z.land (PostProcessPipeLine.kPostprocessTypeUvnr sample_types)
     (Z.lor
        (PostProcessPipeLine.kPostProcessTypeCropRotationScale
           sample_types)
        (PostProcessPipeLine.kPostProcessTypeDigitalZoom sample_types)) =
     0) ∧
  (Z.land (PostProcessPipeLine.kPostProcessTypeSwLsc sample_types)
     (Z.lor
        (PostProcessPipeLine.kPostProcessTypeCropRotationScale
           sample_types)
        (PostProcessPipeLine.kPostProcessTypeDigitalZoom sample_types)) =
     0) ∧
  (Z.land
     (PostProcessPipeLine.kPostProcessTypeFaceDetection sample_types)
     (Z.lor
        (PostProcessPipeLine.kPostProcessTypeCropRotationScale
           sample_types)
        (PostProcessPipeLine.kPostProcessTypeDigitalZoom sample_types)) =
     0) ∧
  (PostProcessPipeLine.prepare sample_types false frame_1080p 4
     [stream_720p] PostProcessPipeLine.empty =
     Some (OK, true, zoom_scale_pipeline)) ∧
  (PostProcessPipeLine.units zoom_scale_pipeline !! 0%nat =
     Some (first_unit zoom_scale_pipeline)) ∧
  (PostProcessPipeLine.mName (first_unit zoom_scale_pipeline)
     ∈ ["digitalzoom"; "CropRotationScale"; "ScaleRotation";
      "JpegEnc"; "MemCopy"]).
Proof.
  assert (W1 : Z.land (PostProcessPipeLine.kPostprocessTypeUvnr sample_types)
    (Z.lor (PostProcessPipeLine.kPostProcessTypeCropRotationScale
    sample_types) (PostProcessPipeLine.kPostProcessTypeDigitalZoom
    sample_types)) = 0)
    by (reflexivity).
  assert (W2 : Z.land (PostProcessPipeLine.kPostProcessTypeSwLsc sample_types)
    (Z.lor (PostProcessPipeLine.kPostProcessTypeCropRotationScale
    sample_types) (PostProcessPipeLine.kPostProcessTypeDigitalZoom
    sample_types)) = 0)
    by (reflexivity).
  assert (W3 : Z.land (PostProcessPipeLine.kPostProcessTypeFaceDetection
    sample_types)
    (Z.lor (PostProcessPipeLine.kPostProcessTypeCropRotationScale
    sample_types) (PostProcessPipeLine.kPostProcessTypeDigitalZoom
    sample_types)) = 0)
    by (reflexivity).
  assert (W4 : PostProcessPipeLine.prepare sample_types false frame_1080p 4
    [stream_720p] PostProcessPipeLine.empty = Some
    (OK, true, zoom_scale_pipeline))
    by (vm_compute; reflexivity).
  assert (W5 : PostProcessPipeLine.units zoom_scale_pipeline !! 0%nat = Some
    (first_unit zoom_scale_pipeline))
    by (vm_compute; reflexivity).
  exact
    (conj W1 (conj W2 (conj W3 (conj W4 (conj W5 (BuilderMoreFacts.prepare_makes_five_kinds_of_units
    sample_types false frame_1080p 4 [stream_720p] zoom_scale_pipeline OK true
    0%nat (first_unit zoom_scale_pipeline) W1 W2 W3 W4 W5)))))).
Defined.

(** One buffer for each stream of the pipeline of two streams. *)
Lemma addOutputBuffer_routes_by_stream_example :
  ((∀ (b : PostProcBuffer) (s : Z),
      b ∈ request_out
      → PipelineRuntime.stream_of_buffer stream_by_addr b = Some s
        → ∃ id : nat,
            PostProcessPipeLine.mStreamToProcUnitMap
              (PipelineRuntime.layout two_stream_runtime)
            !! s = Some id
            ∧ is_Some (PipelineRuntime.objects two_stream_runtime !! id))) ∧
  (∃ (st : status_t) (us : list PostProcessUnit.t),
     PipelineRuntime.addOutputBuffer stream_by_addr request_out
       two_stream_runtime =
     Some
       (st,
        {|
          PipelineRuntime.layout :=
            PipelineRuntime.layout two_stream_runtime;
          PipelineRuntime.objects := us
        |})
     ∧ length us = length (PipelineRuntime.objects two_stream_runtime)
       ∧ (∀ (id : nat) (u : PostProcessUnit.t),
            PipelineRuntime.objects two_stream_runtime !! id = Some u
            → us !! id =
              Some
                (if
                  decide
                    (PostProcessUnit.mBufType u =
                     PostProcessUnit.kPostProcBufTypeExt)
                  is left _
                 then
                  PostProcessUnit.set_outq
                    (PostProcessUnit.mOutBufferPool u ++
                     map
                       (λ b : PostProcBuffer,
                          Some (PostProcessUnit.Ext b))
                       (filter
                          (λ b : PostProcBuffer,
                             PipelineRuntime.routed stream_by_addr
                               two_stream_runtime b =
                             Some id)
                          request_out))
                    u
                 else u))
         ∧ (st = OK ∨ st = UNKNOWN_ERROR)
           ∧ (st = OK
              ↔ ∀ (b : PostProcBuffer) (id : nat) 
                  (u : PostProcessUnit.t),
                  b ∈ request_out
                  → PipelineRuntime.routed stream_by_addr
                      two_stream_runtime b =
                    Some id
                    → PipelineRuntime.objects two_stream_runtime !! id =
                      Some u
                      → PostProcessUnit.mBufType u =
                        PostProcessUnit.kPostProcBufTypeExt)).
Proof.
  assert (W1 : (∀ (b : PostProcBuffer) (s : Z), b ∈ request_out →
    PipelineRuntime.stream_of_buffer stream_by_addr b = Some s → ∃ id : nat,
    PostProcessPipeLine.mStreamToProcUnitMap
    (PipelineRuntime.layout two_stream_runtime) !! s = Some id ∧ is_Some
    (PipelineRuntime.objects two_stream_runtime !! id)))
    by (intros b s Hb Hs; unfold request_out in Hb;
        apply elem_of_cons in Hb as [->|Hb]; [vm_compute in Hs;
        injection Hs as <-; exists 0%nat; split; [reflexivity | by eexists]|];
        apply elem_of_cons in Hb as [->|Hb]; [vm_compute in Hs;
        injection Hs as <-; exists 1%nat; split; [reflexivity | by eexists]|];
        destruct (not_elem_of_nil _ Hb)).
  exact (conj W1 (proj1 (RuntimeFacts.addOutputBuffer_routes_by_stream
    stream_by_addr request_out two_stream_runtime) W1)).
Defined.

(** The first unit of the pipeline of two streams is asked to be
    asynchronous. *)
Lemma setPostProcUnitAsync_sets_sync_example :
  (PipelineRuntime.objects two_stream_runtime !! 0%nat =
     Some (PostProcessUnit.new 131072 PostProcessUnit.kPostProcBufTypeExt)) ∧
  (0%nat
     ∈ PostProcessPipeLine.mPostProcUnits
       (PipelineRuntime.layout two_stream_runtime)) ∧
  (PipelineRuntime.setPostProcUnitAsync (Some 0%nat) true
     two_stream_runtime =
     (OK,
     {|
      PipelineRuntime.layout :=
        PipelineRuntime.layout two_stream_runtime;
      PipelineRuntime.objects :=
        <[0%nat:=PostProcessUnit.set_sync true
                   (PostProcessUnit.new 131072
                      PostProcessUnit.kPostProcBufTypeExt)]>
          (PipelineRuntime.objects two_stream_runtime)
     |})
     ∧ PipelineRuntime.enablePostProcUnit (Some 0%nat) true
       two_stream_runtime =
     (OK,
      {|
        PipelineRuntime.layout :=
          PipelineRuntime.layout two_stream_runtime;
        PipelineRuntime.objects :=
          <[0%nat:=PostProcessUnit.set_enable true
                     (PostProcessUnit.new 131072
                        PostProcessUnit.kPostProcBufTypeExt)]>
            (PipelineRuntime.objects two_stream_runtime)
      |})).
Proof.
  assert (W1 : PipelineRuntime.objects two_stream_runtime !! 0%nat = Some
    (PostProcessUnit.new 131072 PostProcessUnit.kPostProcBufTypeExt))
    by (vm_compute; reflexivity).
  assert (W2 : 0%nat ∈ PostProcessPipeLine.mPostProcUnits
    (PipelineRuntime.layout two_stream_runtime))
    by (vm_compute; left).
  exact (conj W1 (conj W2 (proj1 (RuntimeFacts.setPostProcUnitAsync_sets_sync
    two_stream_runtime 0%nat
    (PostProcessUnit.new 131072 PostProcessUnit.kPostProcBufTypeExt) true
    need_next listeners_ok keeps_none never_woken kernel_ok frame_5
    no_settings 0%nat W1) W2))).
Defined.

(** A request with one buffer for each of the two streams. *)
Lemma request_buffers_are_accepted_example :
  (BuilderSpec.stream_types_ok sample_types) ∧
  ((1 < length [stream_720p; stream_1080p])%nat
     ∨ PostProcessPipeLine.exclude_no_buffer sample_types
       (BuilderSpec.analysis sample_types false frame_1080p 1
          [stream_720p; stream_1080p]).2 =
     0) ∧
  (PostProcessPipeLine.prepare sample_types false frame_1080p 1
     [stream_720p; stream_1080p] PostProcessPipeLine.empty =
     Some (OK, true, two_stream_pipeline)) ∧
  (PipelineRuntime.instance_of two_stream_pipeline
     two_stream_runtime) ∧
  ((∀ (b : PostProcBuffer) (s : Z),
      b ∈ request_out
      → PipelineRuntime.stream_of_buffer stream_by_addr b =
        Some s
        → ∃ stream : PostProcessPipeLine.camera3_stream_t,
            stream ∈ [stream_720p; stream_1080p]
            ∧ PostProcessPipeLine.stream_addr stream = s)) ∧
  (∃ us : list PostProcessUnit.t,
     PipelineRuntime.addOutputBuffer stream_by_addr request_out
       two_stream_runtime =
     Some
       (OK,
        {|
          PipelineRuntime.layout := two_stream_pipeline;
          PipelineRuntime.objects := us
        |})
     ∧ ∀ b : PostProcBuffer,
         b ∈ request_out
         → is_Some
             (PipelineRuntime.stream_of_buffer stream_by_addr b)
           → ∃ (id : nat) (u : PostProcessUnit.t),
               PipelineRuntime.routed stream_by_addr
                 two_stream_runtime b =
               Some id
               ∧ us !! id = Some u
                 ∧ PostProcessUnit.mBufType u =
                   PostProcessUnit.kPostProcBufTypeExt
                   ∧ Some (PostProcessUnit.Ext b)
                     ∈ PostProcessUnit.mOutBufferPool u).
Proof.
  assert (W1 : BuilderSpec.stream_types_ok sample_types)
    by (split; [cbn; lia|]; split; [exists 17; split; [cbn;
        lia | reflexivity]|]; split; [exists 18; split; [cbn;
        lia | reflexivity] | exists 19; split; [cbn; lia | reflexivity]]).
  assert (W2 : (1 < length [stream_720p; stream_1080p])%nat ∨
    PostProcessPipeLine.exclude_no_buffer sample_types
    (BuilderSpec.analysis sample_types false frame_1080p 1
    [stream_720p; stream_1080p]).2 = 0)
    by (left; simpl; lia).
  assert (W3 : PostProcessPipeLine.prepare sample_types false frame_1080p 1
    [stream_720p; stream_1080p] PostProcessPipeLine.empty = Some
    (OK, true, two_stream_pipeline))
    by (vm_compute; reflexivity).
  assert (W4 : PipelineRuntime.instance_of two_stream_pipeline
    two_stream_runtime)
    by (split; [reflexivity | vm_compute; repeat constructor]).
  assert (W5 : (∀ (b : PostProcBuffer) (s : Z), b ∈ request_out →
    PipelineRuntime.stream_of_buffer stream_by_addr b = Some s → ∃ stream :
    PostProcessPipeLine.camera3_stream_t, stream ∈ [stream_720p; stream_1080p]
    ∧ PostProcessPipeLine.stream_addr stream = s))
    by (intros b s Hb Hs; unfold request_out in Hb;
        apply elem_of_cons in Hb as [->|Hb]; [vm_compute in Hs;
        injection Hs as <-; exists stream_720p; split; [left | reflexivity]|];
        apply elem_of_cons in Hb as [->|Hb]; [vm_compute in Hs;
        injection Hs as <-; exists stream_1080p; split; [right;
        left | reflexivity]|]; destruct (not_elem_of_nil _ Hb)).
  exact
    (conj W1 (conj W2 (conj W3 (conj W4 (conj W5 (RuntimeFacts.request_buffers_are_accepted
    stream_by_addr sample_types false frame_1080p 1
    [stream_720p; stream_1080p] two_stream_pipeline OK true two_stream_runtime
    request_out W1 W2 W3 W4 W5)))))).
Defined.

(** A frame of 1280x720. *)
Lemma coefficient_picture_within_buffer_example :
  (0 < 1280 <= 16384) ∧
  (1280 mod 16 = 0) ∧
  (0 < 720 <= 16384) ∧
  (720 mod 16 = 0) ∧
  (∃ ws : list Z,
     SwLscPicture.processFrame_writes
       {| fi_width := 1280; fi_height := 720 |} 1280 720 =
     Some ws
     ∧ ((∀ idx : Z,
           idx ∈ ws
           → 0 <= idx < SwLscPicture.coef_pic_elements 1280 720)
        ↔ 1079 * 1280 + 1919 < 1280 * 720)
       ∧ (720 < 1080
          → ∃ idx : Z,
              idx ∈ ws
              ∧ SwLscPicture.coef_pic_elements 1280 720 <= idx)).
Proof.
  assert (W1 : 0 < 1280 <= 16384)
    by (lia).
  assert (W2 : 1280 mod 16 = 0)
    by (reflexivity).
  assert (W3 : 0 < 720 <= 16384)
    by (lia).
  assert (W4 : 720 mod 16 = 0)
    by (reflexivity).
  exact
    (conj W1 (conj W2 (conj W3 (conj W4 (SwLscPictureFacts.coefficient_picture_within_buffer
    1280 720 W1 W2 W3 W4))))).
Defined.

(** A worker two buffers deep whose second heap allocation fails. *)
Lemma allocateWorkerBuffers_keeps_what_it_made_example :
  ((1 <= FrameWorker.mPipelineDepth worker <=
     length (FrameWorker.mBuffers worker))%nat) ∧
  ((∀ k : nat, (k < 1)%nat → heap_once k = Some (heap_ptr k))) ∧
  (((1 < FrameWorker.mPipelineDepth worker)%nat → heap_once 1 = None)) ∧
  (∃ w' : FrameWorker.t,
     FrameWorker.allocateWorkerBuffers heap_once export_fd 0
       FrameWorker.V4L2_MEMORY_USERPTR worker =
     Some
       (if decide (1 < FrameWorker.mPipelineDepth worker)%nat is
         left _
        then NO_MEMORY
        else OK, w')
     ∧ FrameWorker.mCameraBuffers w' =
       FrameWorker.mCameraBuffers worker ++
       map (λ k : nat, FrameWorker.HeapBuffer (heap_ptr k))
         (seq 0 1)
       ∧ length (FrameWorker.mBuffers w') =
         length (FrameWorker.mBuffers worker)
         ∧ ∀ k : nat,
             FrameWorker.mBuffers w' !! k =
             (λ b : FrameWorker.V4L2Buffer,
                if decide (k < 1)%nat is left _
                then
                 FrameWorker.setBytesused
                   (FrameWorker.sizeimage worker)
                   (FrameWorker.setUserptr (heap_ptr k) b)
                else b) <$>
             FrameWorker.mBuffers worker !! k).
Proof.
  assert (W1 : (1 <= FrameWorker.mPipelineDepth worker <= length
    (FrameWorker.mBuffers worker))%nat)
    by (cbn; lia).
  assert (W2 : (∀ k : nat, (k < 1)%nat → heap_once k = Some (heap_ptr k)))
    by (intros k Hk; destruct k; [reflexivity | lia]).
  assert (W3 : ((1 < FrameWorker.mPipelineDepth worker)%nat → heap_once 1 =
    None))
    by (intros _; reflexivity).
  exact
    (conj W1 (conj W2 (conj W3 (proj1 (FrameWorkerFacts.allocateWorkerBuffers_keeps_what_it_made
    heap_once export_fd 0 worker FrameWorker.V4L2_MEMORY_USERPTR heap_ptr
    1%nat) W1 W2 W3)))).
Defined.

(** A worker two buffers deep on a node that keeps the vector it is given.
    *)
Lemma mapped_worker_buffers_example :
  ((∀ (bs : list FrameWorker.V4L2Buffer) (m : Z),
      length (pool_of_node bs m).2 = length bs)) ∧
  (let r :=
     FrameWorker.setWorkerDeviceBuffers fresh pool_of_node
       FrameWorker.V4L2_MEMORY_MMAP bare_worker
     in
     r.1 =
     (pool_of_node
      (FrameWorker.mBuffers bare_worker ++
       replicate (FrameWorker.mPipelineDepth bare_worker) fresh)
      FrameWorker.V4L2_MEMORY_MMAP).1
     ∧ length (FrameWorker.mBuffers r.2) =
     (length (FrameWorker.mBuffers bare_worker) +
      FrameWorker.mPipelineDepth bare_worker)%nat
     ∧ ∃ (w2 : FrameWorker.t) (new : list FrameWorker.WorkerBuffer),
         FrameWorker.allocateWorkerBuffers heap_once export_fd 0
           FrameWorker.V4L2_MEMORY_MMAP r.2 =
         Some (OK, w2)
         ∧ FrameWorker.mCameraBuffers w2 =
           FrameWorker.mCameraBuffers bare_worker ++ new
           ∧ length new = FrameWorker.mPipelineDepth bare_worker
             ∧ (∀ k : nat,
                  (k < FrameWorker.mPipelineDepth bare_worker)%nat
                  → new !! k =
                    FrameWorker.slot_buffer heap_once export_fd 0
                      FrameWorker.V4L2_MEMORY_MMAP r.2 k)
               ∧ ∀ k : nat,
                   FrameWorker.mBuffers w2 !! k =
                   (λ b : FrameWorker.V4L2Buffer,
                      if
                       decide
                         (k < FrameWorker.mPipelineDepth bare_worker)%nat
                       is left _
                      then
                       FrameWorker.setBytesused
                         (FrameWorker.sizeimage bare_worker) b
                      else b) <$>
                   FrameWorker.mBuffers r.2 !! k).
Proof.
  assert (W1 : (∀ (bs : list FrameWorker.V4L2Buffer) (m : Z), length
    (pool_of_node bs m).2 = length bs))
    by (intros bs m; cbn; apply length_map).
  exact (conj W1 (FrameWorkerFacts.mapped_worker_buffers fresh pool_of_node
    heap_once export_fd 0 bare_worker W1)).
Defined.

(** The Internal unit whose destination slot holds item 0 is flushed: the
    item is in the pool again, behind the items 1 to 3. *)
Lemma flush_notifies_queued_outputs_example :
  PostProcessUnit.mCurPostProcBufOut holding_unit =
    Some (PostProcessUnit.Item 0) ∧
  SharedItemPool.available
    (PostProcBufferPools.mPostProcItemsPool
       (PostProcessUnit.mInternalBufPool holding_unit)) = [1; 2; 3]%nat ∧
  SharedItemPool.available
    (PostProcBufferPools.mPostProcItemsPool
       (PostProcessUnit.mInternalBufPool
          (PostProcessUnit.flush listeners_ok holding_unit).1.2)) =
    [1; 2; 3; 0]%nat.
Proof.
  split; [reflexivity|]. split; [reflexivity|].
  exact (proj1 (proj2 (proj2 (proj2 (proj2 (proj2 (proj2 (proj2 (proj2
           (proj2 (proj2 (proj2 (proj2 (proj2
             (UnitMoreFacts.flush_notifies_queued_outputs listeners_ok
                holding_unit))))))))))))))).
Defined.

(** The thread loop on the Internal unit with six queued inputs and a
    listener that keeps nothing, computed: the items 0, 1, 2, 3, 0, 1 are
    passed on, and the pool holds the items 2, 3, 0, 1 afterwards. *)
Lemma six_frames_go_round :
  ∃ u',
    WorkerThread.messageThreadLoop need_next listeners_ok keeps_none
      never_woken kernel_ok 8 busy_internal_unit [] =
    WorkerThread.LoopWaits u'
      [PostProcessUnit.EvNotify 0 (Some (PostProcessUnit.Item 0)) None OK;
       PostProcessUnit.EvNotify 0 (Some (PostProcessUnit.Item 1)) None OK;
       PostProcessUnit.EvNotify 0 (Some (PostProcessUnit.Item 2)) None OK;
       PostProcessUnit.EvNotify 0 (Some (PostProcessUnit.Item 3)) None OK;
       PostProcessUnit.EvNotify 0 (Some (PostProcessUnit.Item 0)) None OK;
       PostProcessUnit.EvNotify 0 (Some (PostProcessUnit.Item 1)) None OK] ∧
    SharedItemPool.available
      (PostProcBufferPools.mPostProcItemsPool
         (PostProcessUnit.mInternalBufPool u')) = [2; 3; 0; 1]%nat.
Proof. eexists. split; vm_compute; reflexivity. Qed.

(** With a listener that keeps what it gets the same unit serves four
    inputs and drops two, and its pool is empty afterwards. *)
Lemma kept_items_do_not_come_back :
  ∃ u',
    WorkerThread.messageThreadLoop need_next listeners_ok
      (fun _ _ _ => true) never_woken kernel_ok 8 busy_internal_unit [] =
    WorkerThread.LoopWaits u'
      [PostProcessUnit.EvNotify 0 (Some (PostProcessUnit.Item 0)) None OK;
       PostProcessUnit.EvNotify 0 (Some (PostProcessUnit.Item 1)) None OK;
       PostProcessUnit.EvNotify 0 (Some (PostProcessUnit.Item 2)) None OK;
       PostProcessUnit.EvNotify 0 (Some (PostProcessUnit.Item 3)) None OK] ∧
    SharedItemPool.available
      (PostProcBufferPools.mPostProcItemsPool
         (PostProcessUnit.mInternalBufPool u')) = [].
Proof. eexists. split; vm_compute; reflexivity. Qed.

(** The order in which [start] visits the units of the pipeline of a
    zoom unit and a scale unit: the scale unit, which is in the middle
    and in the last array, is started once, after the zoom unit. *)
Lemma start_order_of_zoom_scale :
  PipelineRuntime.all_levels zoom_scale_pipeline = [0; 1; 1]%nat ∧
  PipelineRuntime.to_start (instantiate zoom_scale_pipeline) = [0; 1]%nat.
Proof. split; vm_compute; reflexivity. Qed.

(** A frame is pushed into the idle unit, and a [flush] follows before
    the woken worker has the lock: the worker reads an empty queue. *)
Lemma flush_between_push_and_wake_up :
  let pushed := PostProcessUnit.set_inq [(frame_5, no_settings)] idle_unit in
  let flushed := (PostProcessUnit.flush listeners_ok pushed).1.2 in
  PostProcessUnit.notifyNewFrame need_next listeners_ok keeps_none
    never_woken kernel_ok 1 frame_5 no_settings 0 idle_unit =
    PostProcessUnit.ProcReturns OK pushed
      [PostProcessUnit.EvConditionNotifyAll] ∧
  PostProcessUnit.doProcess need_next listeners_ok keeps_none
    (fun _ => Some flushed) kernel_ok 1 idle_unit =
    PostProcessUnit.ProcUndefined.
Proof. split; reflexivity. Qed.

End MoreExamples.
